(** * tiger-option: the signal pipeline, embedded and verified

    A shallow embedding of the services of the webhook-to-broker relay
    (signal validation, option selection, position sizing, risk checks,
    order construction, queue draining and the alert-platform payload
    conversion), followed by the properties proved about them.

    Conventions of the embedding

    - A Python [Decimal] whose exponent is inspected (the validator) is the
      record [Decimal] (coefficient and exponent); a finite [Decimal] that
      is only compared and computed with is its exact rational value in
      [Q] (the overflow of the decimal context is modelled, its rounding
      to 28 digits is not); a [Decimal] that may be an infinity or a NaN
      is a [special].
    - A [float] that decides a selection or a check (the distances and
      the spreads of option contracts) is a binary64 primitive float, and
      [float(d)] is the correctly rounded conversion.  The sums of floats
      of the portfolio metrics are taken exactly, in [Q].
    - Strings are [string]s of ASCII characters; [str.strip], [str.upper],
      [str.lower] and the character classes of [re] are given on ASCII.
    - A [try: ... except Exception] block is a computation in [outcome]
      whose [Raised] branch is handled as the source's handler does.
    - Messages built with f-strings are constructors of an inductive type
      that carry the interpolated values; the comment next to each
      constructor gives the source text.
    - [datetime.now()] is an explicit argument. *)

From Stdlib Require Import ZArith QArith Qminmax List String Ascii Bool Lia Lqa.
From Stdlib Require Import Floats.
From stdpp Require Import gmap strings.

Local Open Scope string_scope.
Local Open Scope list_scope.
Local Open Scope Z_scope.

(** ** Exceptions *)

(** The result of running a Python expression or block: it returns a value
    or raises an exception, of which the text [str(e)] is kept. *)
Inductive outcome (A : Type) : Type :=
| Returned (a : A)
| Raised (e : string).
Arguments Returned {A} a.
Arguments Raised {A} e.

(** An attribute of a duck-typed object: the class may not declare it, in
    which case reading it raises [AttributeError]. *)
Inductive attr (A : Type) : Type :=
| Missing
| Present (a : A).
Arguments Missing {A}.
Arguments Present {A} a.

(** ** Rationals as booleans *)

Definition Qltb (a b : Q) : bool := negb (Qle_bool b a).
Definition Qleb (a b : Q) : bool := Qle_bool a b.
Definition Qabs' (a : Q) : Q := if Qle_bool 0 a then a else Qopp a.

(** ** Floats *)

(** A Python [float] is a binary64 number, here a primitive float.
    [float(d)] of a [Decimal] is the float nearest to the exact value of
    [d], ties going to the even mantissa; a value beyond the range
    becomes an infinity and one below the least positive float becomes
    zero.  [round_ratio n d] rounds the positive rational [n / d]: the
    quotient is taken with at least 55 bits and a sticky bit for the
    remainder, and rounded by the library's [binary_normalize]. *)
Definition round_ratio (n d : positive) : spec_float :=
  let k := Z.max 0 (Z.log2 (Zpos d) - Z.log2 (Zpos n) + 56) in
  let '(quo, rem) := Z.div_eucl (Zpos n * 2 ^ k) (Zpos d) in
  let sticky := if rem =? 0 then 0 else 1 in
  binary_normalize prec emax (2 * quo + sticky) (- k - 1) false.

Definition float_of_Q (q : Q) : float :=
  match Qnum q with
  | Z0 => PrimFloat.zero
  | Zpos n => SF2Prim (round_ratio n (Qden q))
  | Zneg n => PrimFloat.opp (SF2Prim (round_ratio n (Qden q)))
  end.

(** ** Decimal *)

(** A finite [decimal.Decimal]: [as_tuple()] gives the sign and digits (here
    the signed coefficient) and the exponent; the value is
    [dcoef * 10 ^ dexp]. *)
Record Decimal : Type := mkDecimal { dcoef : Z; dexp : Z }.

Definition Dval (d : Decimal) : Q :=
  if 0 <=? dexp d
  then inject_Z (dcoef d * 10 ^ dexp d)
  else Qmake (dcoef d) (Z.to_pos (10 ^ (- dexp d))).

(** [Decimal('1000000')] *)
Definition million : Q := inject_Z 1000000.

(** ** Strings *)

Module PyStr.

Definition code (c : ascii) : N := N_of_ascii c.

Definition in_range (lo hi : N) (c : ascii) : bool :=
  ((lo <=? code c) && (code c <=? hi))%N.

(** [c.isspace()] and the class [\s] of [re], on ASCII. *)
Definition isspace (c : ascii) : bool :=
  in_range 9 13 c || in_range 28 32 c.

Definition isupper (c : ascii) : bool := in_range 65 90 c.
Definition islower (c : ascii) : bool := in_range 97 122 c.
Definition isdigit (c : ascii) : bool := in_range 48 57 c.

Definition upper_char (c : ascii) : ascii :=
  if islower c then ascii_of_N (code c - 32) else c.
Definition lower_char (c : ascii) : ascii :=
  if isupper c then ascii_of_N (code c + 32) else c.

Fixpoint map_chars (f : ascii -> ascii) (s : string) : string :=
  match s with
  | EmptyString => EmptyString
  | String c r => String (f c) (map_chars f r)
  end.

Definition upper : string -> string := map_chars upper_char.
Definition lower : string -> string := map_chars lower_char.

Fixpoint lstrip (s : string) : string :=
  match s with
  | EmptyString => EmptyString
  | String c r => if isspace c then lstrip r else s
  end.

Fixpoint rstrip (s : string) : string :=
  match s with
  | EmptyString => EmptyString
  | String c r =>
      match rstrip r with
      | EmptyString => if isspace c then EmptyString else String c EmptyString
      | r' => String c r'
      end
  end.

Definition strip (s : string) : string := rstrip (lstrip s).

(** [len(s)] *)
Definition len (s : string) : Z := Z.of_nat (String.length s).

(** [c in s] for a one-character string [c] *)
Fixpoint contains_char (c : ascii) (s : string) : bool :=
  match s with
  | EmptyString => false
  | String d r => Ascii.eqb c d || contains_char c r
  end.

Fixpoint forallb_chars (p : ascii -> bool) (s : string) : bool :=
  match s with
  | EmptyString => true
  | String c r => p c && forallb_chars p r
  end.

(** The longest prefix of characters in a class, and what follows it:
    a greedy [class*]. *)
Fixpoint span (p : ascii -> bool) (s : string) : string * string :=
  match s with
  | EmptyString => (EmptyString, EmptyString)
  | String c r =>
      if p c then let '(a, b) := span p r in (String c a, b)
      else (EmptyString, s)
  end.

(** Exactly [n] characters of a class: [class{n}]. *)
Fixpoint take_class (p : ascii -> bool) (n : nat) (s : string) : option string :=
  match n with
  | O => Some s
  | S n' =>
      match s with
      | EmptyString => None
      | String c r => if p c then take_class p n' r else None
      end
  end.

(** [$] at the end of a pattern (no MULTILINE flag): the end of the
    string, or just before a final newline. *)
Definition at_dollar (s : string) : bool :=
  match s with
  | EmptyString => true
  | String c EmptyString => (code c =? 10)%N
  | _ => false
  end.

(** Python truthiness of a [str]. *)
Definition truthy (s : string) : bool :=
  match s with EmptyString => false | _ => true end.

End PyStr.

(** Truthiness of [Optional[str]]: [None] and [""] are falsy. *)
Definition truthy_ostr (o : option string) : bool :=
  match o with None => false | Some s => PyStr.truthy s end.

(** ** Configuration and wire models *)

(** [AccountConfig] (config/apikeys.py): the trading settings the services
    read. *)
Module AccountConfig.
Record t : Type := mk {
  name : string;
  allow_options_trading : bool;
  allow_short_selling : bool;
  max_position_size : Z;
  default_position_size : Z
}.
End AccountConfig.

(** [WebhookSignal] (models/webhook.py).  [symbol] and [action] are
    optional here so that a signal with a missing field can be given to the
    validator; the opaque [metadata] map is left out. *)
Module WebhookSignal.
Record t : Type := mk {
  signal_id : option string;
  symbol : option string;
  action : option string;
  quantity : option Decimal;
  price : option Decimal;
  stop_price : option Decimal;
  order_type : option string;
  time_in_force : option string;
  strategy : option string;
  comment : option string
}.
End WebhookSignal.

(** ** SignalValidator (services/signal_validator.py) *)

Module SignalValidator.
Import AccountConfig WebhookSignal.

(** The error strings of the validator. *)
Inductive verror : Type :=
| SymbolRequired          (* "Symbol is required and cannot be empty" *)
| ActionRequired          (* "Action is required and cannot be empty" *)
| SymbolEmpty             (* "Symbol cannot be empty" *)
| SymbolTooLong           (* "Symbol is too long (max 50 characters)" *)
| SymbolInvalidChars      (* "Symbol contains invalid characters" *)
| InvalidOptionFormat     (* "Invalid option symbol format" *)
| InvalidCryptoFormat     (* "Invalid crypto symbol format" *)
| InvalidSymbolFormat     (* "Invalid symbol format" *)
| InvalidAction (a : string)
                          (* "Invalid action '{action}'. Must be one of: ..." *)
| QuantityNotPositive     (* "Quantity must be positive" *)
| QuantityTooLarge        (* "Quantity is too large (max 1,000,000)" *)
| QuantityTooManyDecimals (* "Quantity has too many decimal places (max 8)" *)
| PriceNotPositive        (* "Price must be positive" *)
| PriceTooHigh            (* "Price is too high (max 1,000,000)" *)
| StopPriceNotPositive    (* "Stop price must be positive" *)
| StopPriceTooHigh        (* "Stop price is too high (max 1,000,000)" *)
| BuyStopBelowLimit       (* "For buy stop-limit orders, stop price should be above limit price" *)
| SellStopAboveLimit      (* "For sell stop-limit orders, stop price should be below limit price" *)
| InvalidOrderType (t : string)
                          (* "Invalid order type '{order_type}'. Must be one of: ..." *)
| PriceRequired (t : string)
                          (* "Price is required for {order_type} orders" *)
| StopPriceRequired (t : string)
                          (* "Stop price is required for {order_type} orders" *)
| InvalidTimeInForce (t : string)
                          (* "Invalid time in force '{time_in_force}'. Must be one of: ..." *)
| OptionsNotEnabled       (* "Options trading is not enabled for this account" *)
| QuantityExceedsMax (q : Decimal) (m : Z)
                          (* "Quantity {quantity} exceeds max position size {max}" *)
| ValidationError (e : string).
                          (* "Validation error: {e}" *)

(** The warning strings of the validator. *)
Inductive vwarning : Type :=
| LargePositionSize       (* "Large position size detected - consider risk management" *)
| MarketOrderOutsideHours (* "Market order outside typical trading hours" *)
| VerifyOptionExpiry.     (* "Verify option expiry date before trading" *)

(** [SignalValidationResult] *)
Record SignalValidationResult : Type := mkResult {
  is_valid : bool;
  errors : list verror;
  warnings : list vwarning;
  result_signal_id : option string;
  result_symbol : option string;
  result_action : option string
}.

Definition valid_actions : list string :=
  ["buy"; "sell"; "close"; "close_all"]%string.
Definition valid_order_types : list string :=
  ["market"; "limit"; "stop"; "stop_limit"; "trailing_stop"]%string.
Definition valid_time_in_force : list string :=
  ["day"; "gtc"; "ioc"; "fok"]%string.

(** [x in xs] for a set or list of strings *)
Definition mem (x : string) (xs : list string) : bool :=
  existsb (String.eqb x) xs.

(** [re.compile(r'^[A-Z]{1,5}$').match] *)
Definition stock_pattern (s : string) : bool :=
  let '(letters, rest) := PyStr.span PyStr.isupper s in
  (1 <=? PyStr.len letters) && (PyStr.len letters <=? 5) && PyStr.at_dollar rest.

(** [re.compile(r'^[A-Z]{1,5}\s+\d{6}[CP]\d{8}$').match]: the classes that
    follow one another are disjoint, so the greedy runs are the only
    candidates. *)
Definition option_pattern (s : string) : bool :=
  let '(letters, rest) := PyStr.span PyStr.isupper s in
  let '(spaces, rest) := PyStr.span PyStr.isspace rest in
  (1 <=? PyStr.len letters) && (PyStr.len letters <=? 5) &&
  (1 <=? PyStr.len spaces) &&
  match PyStr.take_class PyStr.isdigit 6 rest with
  | Some (String c rest) =>
      (Ascii.eqb c "C" || Ascii.eqb c "P") &&
      match PyStr.take_class PyStr.isdigit 8 rest with
      | Some rest => PyStr.at_dollar rest
      | None => false
      end
  | _ => false
  end.

(** [re.compile(r'^[A-Z]{3,10}[/-][A-Z]{3,10}$').match] *)
Definition crypto_pattern (s : string) : bool :=
  let '(base, rest) := PyStr.span PyStr.isupper s in
  (3 <=? PyStr.len base) && (PyStr.len base <=? 10) &&
  match rest with
  | String c rest =>
      (Ascii.eqb c "/" || Ascii.eqb c "-") &&
      let '(quote, rest) := PyStr.span PyStr.isupper rest in
      (3 <=? PyStr.len quote) && (PyStr.len quote <=? 10) && PyStr.at_dollar rest
  | EmptyString => false
  end.

(** [re.match(r'^[A-Z0-9\s\.\-/]+$', symbol)] *)
Definition valid_chars (s : string) : bool :=
  PyStr.truthy s &&
  PyStr.forallb_chars
    (fun c => PyStr.isupper c || PyStr.isdigit c || PyStr.isspace c ||
              Ascii.eqb c "." || Ascii.eqb c "-" || Ascii.eqb c "/") s.

Definition _is_option_symbol (symbol : string) : bool :=
  PyStr.contains_char " " symbol &&
  (PyStr.contains_char "C" symbol || PyStr.contains_char "P" symbol) &&
  (10 <? PyStr.len symbol).

Definition _is_crypto_symbol (symbol : string) : bool :=
  PyStr.contains_char "/" symbol || PyStr.contains_char "-" symbol.

Definition _is_complex_symbol (symbol : string) : bool :=
  PyStr.contains_char "." symbol || (5 <? PyStr.len symbol).

Definition _validate_required_fields (signal : WebhookSignal.t) : list verror :=
  (match symbol signal with
   | Some s => if negb (PyStr.truthy s) || String.eqb (PyStr.strip s) ""
               then [SymbolRequired] else []
   | None => [SymbolRequired]
   end) ++
  (match action signal with
   | Some a => if negb (PyStr.truthy a) || String.eqb (PyStr.strip a) ""
               then [ActionRequired] else []
   | None => [ActionRequired]
   end).

Definition _validate_symbol_format (symbol : option string) : list verror :=
  if negb (truthy_ostr symbol) then [] else
  match symbol with
  | None => []
  | Some symbol =>
      let symbol := PyStr.upper (PyStr.strip symbol) in
      if PyStr.len symbol <? 1 then [SymbolEmpty] else
      (if 50 <? PyStr.len symbol then [SymbolTooLong] else []) ++
      (if negb (valid_chars symbol) then [SymbolInvalidChars] else []) ++
      (if _is_option_symbol symbol then
         if negb (option_pattern symbol) then [InvalidOptionFormat] else []
       else if _is_crypto_symbol symbol then
         if negb (crypto_pattern symbol) then [InvalidCryptoFormat] else []
       else if negb (stock_pattern symbol) && negb (_is_complex_symbol symbol)
         then [InvalidSymbolFormat] else [])
  end.

Definition _validate_action (action : option string) : list verror :=
  match action with
  | None => []
  | Some action =>
      if negb (PyStr.truthy action) then [] else
      let action_lower := PyStr.strip (PyStr.lower action) in
      if negb (mem action_lower valid_actions) then [InvalidAction action] else []
  end.

Definition _validate_quantities (signal : WebhookSignal.t) : list verror :=
  match quantity signal with
  | Some q =>
      (if Qleb (Dval q) 0 then [QuantityNotPositive] else []) ++
      (if Qltb million (Dval q) then [QuantityTooLarge] else []) ++
      (if dexp q <? -8 then [QuantityTooManyDecimals] else [])
  | None => []
  end.

Definition _validate_prices (signal : WebhookSignal.t) : list verror :=
  (match price signal with
   | Some p =>
       (if Qleb (Dval p) 0 then [PriceNotPositive] else []) ++
       (if Qltb million (Dval p) then [PriceTooHigh] else [])
   | None => []
   end) ++
  (match stop_price signal with
   | Some sp =>
       (if Qleb (Dval sp) 0 then [StopPriceNotPositive] else []) ++
       (if Qltb million (Dval sp) then [StopPriceTooHigh] else [])
   | None => []
   end) ++
  (match price signal, stop_price signal, order_type signal with
   | Some p, Some sp, Some ot =>
       if PyStr.truthy ot && String.eqb (PyStr.lower ot) "stop_limit" then
         let action_lower :=
           match action signal with
           | Some a => if PyStr.truthy a then PyStr.lower a else ""
           | None => ""
           end in
         if String.eqb action_lower "buy" && Qleb (Dval sp) (Dval p)
         then [BuyStopBelowLimit]
         else if String.eqb action_lower "sell" && Qleb (Dval p) (Dval sp)
         then [SellStopAboveLimit]
         else []
       else []
   | _, _, _ => []
   end).

Definition _validate_order_parameters (signal : WebhookSignal.t) : list verror :=
  (match order_type signal with
   | Some ot =>
       if PyStr.truthy ot then
         let order_type_lower := PyStr.strip (PyStr.lower ot) in
         (if negb (mem order_type_lower valid_order_types)
          then [InvalidOrderType ot] else []) ++
         (if mem order_type_lower ["limit"; "stop_limit"]%string &&
             negb (bool_decide (is_Some (price signal)))
          then [PriceRequired ot] else []) ++
         (if mem order_type_lower ["stop"; "stop_limit"]%string &&
             negb (bool_decide (is_Some (stop_price signal)))
          then [StopPriceRequired ot] else [])
       else []
   | None => []
   end) ++
  (match time_in_force signal with
   | Some tif =>
       if PyStr.truthy tif then
         let tif_lower := PyStr.strip (PyStr.lower tif) in
         if negb (mem tif_lower valid_time_in_force)
         then [InvalidTimeInForce tif] else []
       else []
   | None => []
   end).

Definition _validate_against_account_config
    (signal : WebhookSignal.t) (account_config : AccountConfig.t) : list verror :=
  (if negb (allow_options_trading account_config) &&
      match symbol signal with
      | Some s => PyStr.truthy s && _is_option_symbol s
      | None => false
      end
   then [OptionsNotEnabled] else []) ++
  (match quantity signal with
   | Some q =>
       if Qltb (inject_Z (max_position_size account_config)) (Dval q)
       then [QuantityExceedsMax q (max_position_size account_config)] else []
   | None => []
   end).
  (* the branch on [allow_short_selling] is [pass] in the source *)

(** [now_hour] is [datetime.now().hour]. *)
Definition _validate_business_logic
    (now_hour : Z) (signal : WebhookSignal.t) (account_config : AccountConfig.t)
    : list vwarning :=
  (match quantity signal with
   | Some q =>
       if negb (Qeq_bool (Dval q) 0) &&
          Qltb (inject_Z (max_position_size account_config) * (1 # 2)) (Dval q)
       then [LargePositionSize] else []
   | None => []
   end) ++
  (match order_type signal with
   | Some ot =>
       if PyStr.truthy ot && String.eqb (PyStr.lower ot) "market" &&
          ((now_hour <? 9) || (16 <? now_hour))
       then [MarketOrderOutsideHours] else []
   | None => []
   end) ++
  (match symbol signal with
   | Some s => if PyStr.truthy s && _is_option_symbol s
               then [VerifyOptionExpiry] else []
   | None => []
   end).

(** The statements [errors.extend(check(...))] of the [try] block, run in
    order: [errors] is extended in place, so what was accumulated before a
    statement raises is kept; the exception, if any, is returned with it. *)
Fixpoint run_checks (checks : list (outcome (list verror))) (errors : list verror)
    : list verror * option string :=
  match checks with
  | [] => (errors, None)
  | Returned es :: rest => run_checks rest (errors ++ es)
  | Raised e :: _ => (errors, Some e)
  end.

(** [validate_signal] with the outcomes of its checks abstracted: the
    [try] block, the handler that appends "Validation error: ..." and the
    construction of the result. *)
Definition validate_signal_with
    (error_checks : list (outcome (list verror)))
    (warning_check : outcome (list vwarning))
    (signal : WebhookSignal.t) : SignalValidationResult :=
  let '(errors, warnings) :=
    match run_checks error_checks [] with
    | (errors, Some e) => (errors ++ [ValidationError e], [])
    | (errors, None) =>
        match warning_check with
        | Returned ws => (errors, ws)
        | Raised e => (errors ++ [ValidationError e], [])
        end
    end in
  {| is_valid := (length errors =? 0)%nat;
     errors := errors;
     warnings := warnings;
     result_signal_id := signal_id signal;
     result_symbol := symbol signal;
     result_action := action signal |}.

(** The checks of [validate_signal], in the order of the source.  On
    signals and configurations of the declared types none of them raises. *)
Definition error_checks (signal : WebhookSignal.t) (account_config : AccountConfig.t)
    : list (outcome (list verror)) :=
  [ Returned (_validate_required_fields signal);
    Returned (_validate_symbol_format (symbol signal));
    Returned (_validate_action (action signal));
    Returned (_validate_quantities signal);
    Returned (_validate_prices signal);
    Returned (_validate_order_parameters signal);
    Returned (_validate_against_account_config signal account_config) ].

Definition validate_signal
    (now_hour : Z) (signal : WebhookSignal.t) (account_config : AccountConfig.t)
    : SignalValidationResult :=
  validate_signal_with
    (error_checks signal account_config)
    (Returned (_validate_business_logic now_hour signal account_config))
    signal.

End SignalValidator.

(** ** Broker models (models/tiger.py, models/webhook.py) *)

Inductive OrderSide : Type := BUY | SELL.
Inductive OrderType : Type := MARKET | LIMIT | STOP | STOP_LIMIT | TRAILING_STOP.
Inductive OptionType : Type := CALL | PUT.

Definition OrderSide_value (s : OrderSide) : string :=
  match s with BUY => "buy" | SELL => "sell" end.

Definition OptionType_eqb (a b : OptionType) : bool :=
  match a, b with CALL, CALL | PUT, PUT => true | _, _ => false end.

(** The [action] of a trade signal.  [TradeSignal] declares it as a plain
    [str], and that is what the pipeline stores; [OrderSide] mixes in [str],
    so a caller may also pass one of its members: it compares equal to its
    value and, unlike a plain [str], has a [.value]. *)
Inductive Action : Type :=
| ActionStr (s : string)
| ActionSide (s : OrderSide).

Definition Action_str (a : Action) : string :=
  match a with ActionStr s => s | ActionSide s => OrderSide_value s end.

(** [action == OrderSide.X] *)
Definition Action_is (a : Action) (side : OrderSide) : bool :=
  String.eqb (Action_str a) (OrderSide_value side).

(** [action.value] *)
Definition Action_value (a : Action) : outcome string :=
  match a with
  | ActionStr _ => Raised "'str' object has no attribute 'value'"
  | ActionSide s => Returned (OrderSide_value s)
  end.

(** A naive [datetime], in microseconds since 1970-01-01T00:00:00. *)
Definition datetime : Type := Z.
Definition us_per_day : Z := 86400000000.

(** [d.weekday()]: Monday is 0; 1970-01-01 was a Thursday. *)
Definition weekday (d : datetime) : Z := (d / us_per_day + 3) mod 7.

(** [(a - b).days]: a [timedelta] is normalised with a non-negative
    remainder, so [days] is the floor. *)
Definition timedelta_days (a b : datetime) : Z := (a - b) / us_per_day.

(** The time of day, in microseconds after midnight. *)
Definition time_of_day (d : datetime) : Z := d mod us_per_day.

(** [TradeSignal] (models/webhook.py); [received_at], [processed_at] and
    [metadata] are not read by the services below. *)
Module TradeSignal.
Record t : Type := mk {
  signal_id : string;
  account_name : string;
  symbol : string;
  action : Action;
  quantity : option Q;
  price : option Q;
  stop_price : option Q;
  order_type : string;
  time_in_force : string;
  strategy : option string;
  comment : option string
}.
End TradeSignal.

(** [OptionContract] (models/tiger.py).  The class declares [last] and no
    [last_price] or [theoretical_price]; the services read the latter two,
    so they are attributes that an object may or may not have (for an
    [OptionContract] proper both are [Missing]). *)
Module OptionContract.
Record t : Type := mk {
  symbol : string;
  underlying_symbol : string;
  strike : Q;
  expiry : datetime;
  option_type : OptionType;
  multiplier : Z;
  bid : option Q;
  ask : option Q;
  last : option Q;
  volume : option Z;
  open_interest : option Z;
  delta : option Q;
  gamma : option Q;
  theta : option Q;
  vega : option Q;
  implied_volatility : option Q;
  last_price : attr (option Q);
  theoretical_price : attr (option Q)
}.
End OptionContract.

(** [Position] (models/tiger.py).  The class declares no Greeks; the
    position manager reads them with [getattr(pos, 'delta', 0) or 0], for
    which an absent attribute and [None] are the same: they are optional
    fields here. *)
Module Position.
Record t : Type := mk {
  account : string;
  symbol : string;
  quantity : Q;
  avg_cost : Q;
  market_price : option Q;
  market_value : option Q;
  unrealized_pnl : option Q;
  realized_pnl : option Q;
  multiplier : Z;
  delta : option Q;
  gamma : option Q;
  theta : option Q;
  vega : option Q
}.
End Position.

(** Truthiness of an [Optional[Decimal]]: [None] and zero are falsy. *)
Definition truthy_oq (o : option Q) : bool :=
  match o with None => false | Some q => negb (Qeq_bool q 0) end.

(** [o or 0] for an [Optional[Decimal]] *)
Definition or_zero (o : option Q) : Q :=
  match o with Some q => q | None => 0%Q end.

(** [min(a, b)] and [max(a, b)] of Python: the first argument unless the
    second is strictly smaller (larger). *)
Definition py_min (a b : Q) : Q := if Qltb b a then b else a.
Definition py_max (a b : Q) : Q := if Qltb a b then b else a.

(** [sum(f(x) for x in xs)] *)
Definition sum_of {A : Type} (f : A -> Q) (xs : list A) : Q :=
  fold_left (fun acc x => (acc + f x)%Q) xs 0%Q.

(** A [Decimal] that need not be finite: a finite value, [Infinity]
    or [-Infinity], or a NaN. *)
Inductive special (A : Type) : Type :=
  | Finite (a : A)
  | Inf (negative : bool)
  | NotANumber.
Arguments Finite {A} a.
Arguments Inf {A} negative.
Arguments NotANumber {A}.

(** The default decimal context has [Emax = 999999]: a finite result whose
    magnitude reaches [10 ^ 1000000] raises [decimal.Overflow].  A value
    whose numerator is below [2 ^ 3000000] (less than [10 ^ 1000000]) is
    in range, which spares the test the power.  (The rounding of results
    to the 28 digits of the context is not modelled.) *)
Definition decimal_overflows (x : Q) : bool :=
  if Z.log2 (Z.abs (Qnum x)) <? 3000000 then false
  else Qleb (inject_Z (10 ^ 1000000)) (Qabs' x).

(** [a * b] on two finite [Decimal]s *)
Definition decimal_mul (a b : Q) : outcome Q :=
  if decimal_overflows (a * b) then Raised "[<class 'decimal.Overflow'>]"
  else Returned (a * b)%Q.

(** [a * b] on a [Decimal] and a finite [Decimal]: [Infinity * 0] is an
    invalid operation, a NaN goes through. *)
Definition special_mul (a : special Q) (b : Q) : outcome (special Q) :=
  match a with
  | Finite x =>
      match decimal_mul x b with
      | Raised e => Raised e
      | Returned y => Returned (Finite y)
      end
  | Inf negative =>
      if Qeq_bool b 0 then Raised "[<class 'decimal.InvalidOperation'>]"
      else Returned (Inf (xorb negative (Qltb b 0)))
  | NotANumber => Returned NotANumber
  end.

(** [a / b] on a [Decimal] and a finite [Decimal] other than zero *)
Definition special_div (a : special Q) (b : Q) : special Q :=
  match a with
  | Finite x => Finite (x / b)%Q
  | Inf negative => Inf (xorb negative (Qltb b 0))
  | NotANumber => NotANumber
  end.

(** ** PositionManager (services/position_manager.py) *)

Module PositionManager.

(** The state of a position manager: [_positions], keyed by symbol. *)
Record t : Type := mk {
  account_config : AccountConfig.t;
  _positions : gmap string Position.t
}.

(** The body of the loop of [update_positions]: a position with a
    non-empty symbol is stored under its symbol. *)
Definition store (book : gmap string Position.t) (position : Position.t)
    : gmap string Position.t :=
  if PyStr.truthy (Position.symbol position)
  then <[Position.symbol position := position]> book
  else book.

(** [update_positions]: the book is cleared, then the loop runs over the
    list.  Nothing in the [try] block raises on positions of the declared
    type. *)
Definition update_positions (self : t) (positions : list Position.t) : t :=
  let cleared : gmap string Position.t := ∅ in
  {| account_config := account_config self;
     _positions := fold_left store positions cleared |}.

Definition get_position (self : t) (symbol : string) : option Position.t :=
  _positions self !! symbol.

(** [list(self._positions.values())]; the order of the values is that of
    the finite map, not the insertion order of the [dict]. *)
Definition get_all_positions (self : t) : list Position.t :=
  (map_to_list (_positions self)).*2.

(** The first field of [s.split('  ')]: what precedes the first two
    consecutive spaces. *)
Fixpoint before_double_space (s : string) : string :=
  match s with
  | String " " (String " " _) => EmptyString
  | String c r => String c (before_double_space r)
  | EmptyString => EmptyString
  end.

(** ['  ' in s] *)
Fixpoint has_double_space (s : string) : bool :=
  match s with
  | String " " ((String " " _) as r) => true
  | String _ r => has_double_space r
  | EmptyString => false
  end.

Definition _extract_underlying (option_symbol : string) : string :=
  if has_double_space option_symbol
  then PyStr.strip (before_double_space option_symbol)
  else
    (* re.match(r'^([A-Z]+)', option_symbol) *)
    let '(letters, _) := PyStr.span PyStr.isupper option_symbol in
    if PyStr.truthy letters then letters else option_symbol.

Definition get_positions_by_underlying (self : t) (underlying : string)
    : list Position.t :=
  filter
    (fun position =>
       String.eqb (_extract_underlying (Position.symbol position))
                  (PyStr.upper underlying) = true)
    (get_all_positions self).

(** The entries of [calculate_portfolio_metrics] that the services read
    (the groupings by underlying and by position type, and the derived
    risk metrics, are not read by them).  For an empty book the source
    returns zeros, as the sums do.  The source adds the values as floats,
    in the order of the book; the sums are exact here. *)
Record PortfolioMetrics : Type := mkMetrics {
  total_positions : nat;
  total_market_value : Q;
  total_unrealized_pnl : Q;
  total_realized_pnl : Q;
  portfolio_delta : Q;
  portfolio_gamma : Q;
  portfolio_theta : Q;
  portfolio_vega : Q
}.

Definition calculate_portfolio_metrics (self : t) : PortfolioMetrics :=
  let positions := get_all_positions self in
  {| total_positions := length positions;
     total_market_value := sum_of (fun pos => or_zero (Position.market_value pos)) positions;
     total_unrealized_pnl := sum_of (fun pos => or_zero (Position.unrealized_pnl pos)) positions;
     total_realized_pnl := sum_of (fun pos => or_zero (Position.realized_pnl pos)) positions;
     portfolio_delta := sum_of (fun pos => or_zero (Position.delta pos)) positions;
     portfolio_gamma := sum_of (fun pos => or_zero (Position.gamma pos)) positions;
     portfolio_theta := sum_of (fun pos => or_zero (Position.theta pos)) positions;
     portfolio_vega := sum_of (fun pos => or_zero (Position.vega pos)) positions |}.

(** [portfolio_value > 0], on the float that the metrics hold (the int
    [0] when they are empty), read off [Decimal(str(portfolio_value))]. *)
Definition float_positive (portfolio_value : special Q) : bool :=
  match portfolio_value with
  | Finite v => Qltb 0 v
  | Inf negative => negb negative
  | NotANumber => false
  end.

(** [max(min(suggested_quantity, max_contracts), Decimal('1'))]: against
    [Infinity] the minimum is the quantity; against [-Infinity] it is
    [-Infinity], and the maximum is 1; a comparison with a NaN is an
    invalid operation. *)
Definition cap_and_floor (suggested_quantity : Q) (max_contracts : special Q)
    : outcome Q :=
  let min_quantity := 1%Q in
  match max_contracts with
  | Finite c => Returned (py_max (py_min suggested_quantity c) min_quantity)
  | Inf false => Returned (py_max suggested_quantity min_quantity)
  | Inf true => Returned min_quantity
  | NotANumber => Raised "[<class 'decimal.InvalidOperation'>]"
  end.

(** The [try] block of [suggest_position_sizing], given [portfolio_value]:
    the float [metrics.get('total_market_value', 0)] in the form of
    [Decimal(str(portfolio_value))], whatever the sum of floats is.
    [signal_quantity] and [risk_percentage] are finite decimals.  The
    products [default_size * 2] and those of the risk cap raise when they
    leave the range of the decimal context. *)
Definition sizing_try
    (account_config : AccountConfig.t) (portfolio_value : special Q)
    (signal_quantity risk_percentage : Q) : outcome Q :=
  let suggested_quantity := signal_quantity in
  let max_account_size := inject_Z (AccountConfig.max_position_size account_config) in
  let suggested_quantity := py_min suggested_quantity max_account_size in
  let default_size := inject_Z (AccountConfig.default_position_size account_config) in
  match decimal_mul default_size 2 with
  | Raised e => Raised e
  | Returned twice_default =>
      let suggested_quantity :=
        if Qltb twice_default suggested_quantity then default_size
        else suggested_quantity in
      if float_positive portfolio_value then
        match special_mul portfolio_value risk_percentage with
        | Raised e => Raised e
        | Returned max_risk_value =>
            match special_mul max_risk_value 10 with
            | Raised e => Raised e
            | Returned max_position_value =>
                let estimated_option_price := 5%Q in
                let max_contracts :=
                  special_div max_position_value estimated_option_price in
                cap_and_floor suggested_quantity max_contracts
            end
        end
      else
        let min_quantity := 1%Q in
        Returned (py_max suggested_quantity min_quantity)
  end.

(** [suggest_position_sizing] given the portfolio value: when the [try]
    block raises, the handler returns [signal_quantity] as it came. *)
Definition suggest_position_sizing_at
    (account_config : AccountConfig.t) (portfolio_value : special Q)
    (signal_quantity risk_percentage : Q) : Q :=
  match sizing_try account_config portfolio_value signal_quantity risk_percentage with
  | Returned suggested_quantity => suggested_quantity
  | Raised _ => signal_quantity
  end.

(** [suggest_position_sizing]; [risk_percentage] defaults to
    [Decimal('0.02')].  The portfolio value is that of
    [calculate_portfolio_metrics]. *)
Definition suggest_position_sizing
    (self : t) (symbol : string) (signal_quantity : Q) (risk_percentage : Q) : Q :=
  let metrics := calculate_portfolio_metrics self in
  let portfolio_value := total_market_value metrics in
  suggest_position_sizing_at (account_config self) (Finite portfolio_value)
    signal_quantity risk_percentage.

Definition default_risk_percentage : Q := 2 # 100.

(** The violations of [check_position_limits]. *)
Inductive violation : Type :=
| PositionSizeViolation (new_total_quantity : Q) (limit : Z)
    (* "Position size limit exceeded: {new_total_quantity} > {max_position_size}" *)
| UnderlyingConcentrationViolation (underlying_value max_underlying_value : Q).
    (* "Underlying concentration limit exceeded: ${underlying_value} > ${max_underlying_value}" *)

(** [check_position_limits].  [AccountConfig] declares no
    [max_portfolio_value], so the third check is skipped by its
    [hasattr]; nothing in the [try] block raises on the declared types. *)
Definition check_position_limits (self : t) (symbol : string) (quantity : Q)
    : bool * list violation :=
  let violations := [] in
  let current_position := get_position self symbol in
  let current_quantity :=
    match current_position with
    | Some p => Position.quantity p
    | None => 0%Q
    end in
  let new_total_quantity := Qabs' (current_quantity + quantity) in
  let limit := AccountConfig.max_position_size (account_config self) in
  let violations :=
    if Qltb (inject_Z limit) new_total_quantity
    then violations ++ [PositionSizeViolation new_total_quantity limit]
    else violations in
  let underlying := _extract_underlying symbol in
  let underlying_positions := get_positions_by_underlying self underlying in
  let underlying_value :=
    sum_of (fun pos => or_zero (Position.market_value pos)) underlying_positions in
  let max_underlying_value := (inject_Z limit * (1 # 2))%Q in
  let violations :=
    if Qltb max_underlying_value underlying_value
    then violations ++
         [UnderlyingConcentrationViolation underlying_value max_underlying_value]
    else violations in
  ((length violations =? 0)%nat, violations).

End PositionManager.

(** ** OptionSelector (services/option_selector.py) *)

Module OptionSelector.

Inductive SelectionStrategy : Type :=
| ATM | OTM | ITM | DELTA_NEUTRAL | HIGH_VOLUME | TIGHT_SPREAD.

(** [list.sort(key=...)]: a stable sort by a rational key.  An element is
    put in front of the first element whose key is not smaller, so equal
    keys keep the order of the list. *)
Fixpoint insert_by_key {A : Type} (key : A -> Q) (x : A) (l : list A) : list A :=
  match l with
  | [] => [x]
  | y :: ys =>
      if Qleb (key x) (key y) then x :: y :: ys
      else y :: insert_by_key key x ys
  end.

Fixpoint sort_by_key {A : Type} (key : A -> Q) (l : list A) : list A :=
  match l with
  | [] => []
  | x :: xs => insert_by_key key x (sort_by_key key xs)
  end.

(** [list.sort(key=...)] by a float key.  The sort is stable and compares
    the keys with [<] only: an element is put behind the elements whose
    key is smaller than its own and in front of the first one whose key is
    not.  When no key is a NaN, [<] orders the keys and every stable sort
    gives this list. *)
Fixpoint insert_by_float_key {A : Type} (key : A -> float) (x : A) (l : list A)
    : list A :=
  match l with
  | [] => [x]
  | y :: ys =>
      if PrimFloat.ltb (key y) (key x) then y :: insert_by_float_key key x ys
      else x :: y :: ys
  end.

Fixpoint sort_by_float_key {A : Type} (key : A -> float) (l : list A) : list A :=
  match l with
  | [] => []
  | x :: xs => insert_by_float_key key x (sort_by_float_key key xs)
  end.

(** Truthiness of a [Decimal]. *)
Definition truthy_q (q : Q) : bool := negb (Qeq_bool q 0).

(** [abs(float(x.strike) - float(current_price))] *)
Definition distance (current_price : Q) (contract : OptionContract.t) : float :=
  PrimFloat.abs
    (PrimFloat.sub (float_of_Q (OptionContract.strike contract))
                   (float_of_Q current_price)).

Definition _determine_option_type (signal : TradeSignal.t) : OptionType :=
  if Action_is (TradeSignal.action signal) BUY then CALL
  else if Action_is (TradeSignal.action signal) SELL then PUT
  else CALL.

Definition _filter_by_option_type
    (contracts : list OptionContract.t) (option_type : OptionType)
    : list OptionContract.t :=
  List.filter
    (fun contract => OptionType_eqb (OptionContract.option_type contract) option_type)
    contracts.

(** [_filter_by_expiration], with [timedelta(days=n)] in microseconds; a
    [datetime] is always truthy. *)
Definition _filter_by_expiration
    (now : datetime) (contracts : list OptionContract.t) (min_days max_days : Z)
    : list OptionContract.t :=
  let min_expiry := now + min_days * us_per_day in
  let max_expiry := now + max_days * us_per_day in
  List.filter
    (fun contract =>
       (min_expiry <=? OptionContract.expiry contract) &&
       (OptionContract.expiry contract <=? max_expiry))
    contracts.

(** The loop of [_select_atm_contract], with its two variables
    [best_contract] and [min_distance]. *)
Fixpoint atm_loop (current_price : Q) (contracts : list OptionContract.t)
    (best_contract : option OptionContract.t) (min_distance : float)
    : option OptionContract.t :=
  match contracts with
  | [] => best_contract
  | contract :: rest =>
      if truthy_q (OptionContract.strike contract) then
        let distance := distance current_price contract in
        if PrimFloat.ltb distance min_distance
        then atm_loop current_price rest (Some contract) distance
        else atm_loop current_price rest best_contract min_distance
      else atm_loop current_price rest best_contract min_distance
  end.

(** [min_distance] starts at [float('inf')]. *)
Definition _select_atm_contract
    (contracts : list OptionContract.t) (current_price : Q)
    : option OptionContract.t :=
  atm_loop current_price contracts None PrimFloat.infinity.

(** The contracts that the loop of [_select_otm_contract] appends: the
    strikes and the price are compared as decimals. *)
Definition is_otm (current_price : Q) (contract : OptionContract.t) : bool :=
  truthy_q (OptionContract.strike contract) &&
  match OptionContract.option_type contract with
  | CALL => Qltb current_price (OptionContract.strike contract)
  | PUT => Qltb (OptionContract.strike contract) current_price
  end.

Definition _select_otm_contract
    (contracts : list OptionContract.t) (current_price : Q)
    : option OptionContract.t :=
  match contracts with
  | [] => None
  | _ =>
      let otm_contracts := List.filter (is_otm current_price) contracts in
      match sort_by_float_key (distance current_price) otm_contracts with
      | [] => None
      | first :: _ => Some first
      end
  end.

Definition is_itm (current_price : Q) (contract : OptionContract.t) : bool :=
  truthy_q (OptionContract.strike contract) &&
  match OptionContract.option_type contract with
  | CALL => Qltb (OptionContract.strike contract) current_price
  | PUT => Qltb current_price (OptionContract.strike contract)
  end.

Definition _select_itm_contract
    (contracts : list OptionContract.t) (current_price : Q)
    : option OptionContract.t :=
  match contracts with
  | [] => None
  | _ =>
      let itm_contracts := List.filter (is_itm current_price) contracts in
      match sort_by_float_key (distance current_price) itm_contracts with
      | [] => None
      | first :: _ => Some first
      end
  end.

(** [c.volume and c.volume > 0] *)
Definition has_volume (contract : OptionContract.t) : bool :=
  match OptionContract.volume contract with
  | Some v => negb (v =? 0) && (0 <? v)
  | None => false
  end.

(** [sort(key=volume, reverse=True)]: descending, still stable. *)
Definition _select_high_volume_contract (contracts : list OptionContract.t)
    : option OptionContract.t :=
  match contracts with
  | [] => None
  | first :: _ =>
      let volume_contracts := List.filter has_volume contracts in
      match sort_by_key
              (fun c => (- inject_Z (default 0%Z (OptionContract.volume c)))%Q)
              volume_contracts with
      | [] => Some first
      | best :: _ => Some best
      end
  end.

(** What the loop of [_select_tight_spread_contract] computes for a
    contract: nothing without a positive bid and ask (compared as
    decimals), else [(float(ask) - float(bid)) / float(ask)].  Where the
    quotient is taken [contract.ask > 0] holds, so its [else float('inf')]
    is not reached; but a positive ask below the least positive float
    becomes [0.0], and the division raises [ZeroDivisionError]. *)
Definition spread_pct (contract : OptionContract.t) : outcome (option float) :=
  match OptionContract.bid contract, OptionContract.ask contract with
  | Some b, Some a =>
      if truthy_q b && truthy_q a && Qltb 0 b && Qltb 0 a then
        let spread := PrimFloat.sub (float_of_Q a) (float_of_Q b) in
        if PrimFloat.is_zero (float_of_Q a)
        then Raised "float division by zero"
        else Returned (Some (PrimFloat.div spread (float_of_Q a)))
      else Returned None
  | _, _ => Returned None
  end.

(** The list [spread_contracts] that the loop builds, unless the
    division raises for a contract. *)
Fixpoint spread_loop (contracts : list OptionContract.t)
    : outcome (list (OptionContract.t * float)) :=
  match contracts with
  | [] => Returned []
  | contract :: rest =>
      match spread_pct contract with
      | Raised e => Raised e
      | Returned entry =>
          match spread_loop rest with
          | Raised e => Raised e
          | Returned spread_contracts =>
              Returned
                (match entry with
                 | Some spread_pct => (contract, spread_pct) :: spread_contracts
                 | None => spread_contracts
                 end)
          end
      end
  end.

Definition _select_tight_spread_contract (contracts : list OptionContract.t)
    : outcome (option OptionContract.t) :=
  match contracts with
  | [] => Returned None
  | first :: _ =>
      match spread_loop contracts with
      | Raised e => Raised e
      | Returned spread_contracts =>
          Returned
            (match sort_by_float_key snd spread_contracts with
             | [] => Some first
             | (best, _) :: _ => Some best
             end)
      end
  end.

Definition _apply_selection_strategy
    (contracts : list OptionContract.t) (current_price : Q)
    (strategy : SelectionStrategy) : outcome (option OptionContract.t) :=
  match strategy with
  | ATM => Returned (_select_atm_contract contracts current_price)
  | OTM => Returned (_select_otm_contract contracts current_price)
  | ITM => Returned (_select_itm_contract contracts current_price)
  | HIGH_VOLUME => Returned (_select_high_volume_contract contracts)
  | TIGHT_SPREAD => _select_tight_spread_contract contracts
  | DELTA_NEUTRAL => Returned (_select_atm_contract contracts current_price)
  end.

(** [select_option_contract]: an exception in the [try] block gives
    [None]. *)
Definition select_option_contract
    (now : datetime) (signal : TradeSignal.t)
    (option_chain : list OptionContract.t) (current_price : Q)
    (strategy : SelectionStrategy) : option OptionContract.t :=
  match option_chain with
  | [] => None
  | _ =>
      let option_type := _determine_option_type signal in
      match _filter_by_option_type option_chain option_type with
      | [] => None
      | filtered_contracts =>
          match _filter_by_expiration now filtered_contracts 7 60 with
          | [] => None
          | filtered_contracts =>
              match _apply_selection_strategy
                      filtered_contracts current_price strategy with
              | Returned selected_contract => selected_contract
              | Raised _ => None
              end
          end
      end
  end.

End OptionSelector.

(** ** RiskManager (services/risk_manager.py) *)

Module RiskManager.

Inductive RiskCheckResult : Type :=
| APPROVED | REJECTED | WARNING | REQUIRES_REVIEW.

(** The messages of the risk checks. *)
Inductive message : Type :=
| PositionSizeLimitExceeded (new_total_qty : Q) (limit : Z)
    (* "Position size limit exceeded: {new_total_qty} > {max_position_size}" *)
| MaxOpenPositionsReached (n : nat)
    (* "Maximum open positions limit reached: {n}" *)
| HighConcentration (underlying : string) (concentration limit : Q)
    (* "High concentration in {underlying}: {concentration} > {limit}" *)
| DailyLossLimitExceeded (current_pnl max_loss : Q)
    (* "Daily loss limit exceeded: ${current_pnl} < -${max_loss}" *)
| PortfolioDeltaExceeded (new_delta : Q)
    (* "Portfolio delta limit exceeded: {new_delta}" *)
| VegaExposureExceeded (new_vega : Q)
    (* "Vega exposure limit exceeded: {new_vega}" *)
| ThetaDecayExceeded (new_theta : Q)
    (* "Theta decay limit exceeded: {new_theta}" *)
| GreeksCheckError (e : string)
    (* "Greeks check error: {e}" *)
| OptionExpiresSoon (days_to_expiry min_days : Z)
    (* "Option expires soon: {days_to_expiry} days < {min_days} days minimum" *)
| ExpiresOnWeekend
    (* "Option expires on weekend - check settlement rules" *)
| LowVolume (volume : Z)
    (* "Low volume: {volume} contracts" *)
| WideSpread (spread_pct : float)
    (* "Wide bid-ask spread: {spread_pct}" *)
| LiquidityCheckError (e : string)
    (* "Liquidity check error: {e}" *)
| LowOpenInterest (open_interest : Z)
    (* "Low open interest: {open_interest}" *)
| TradingOnWeekend
    (* "Trading on weekend - limited liquidity expected" *)
| OutsideMarketHours.
    (* "Trading outside regular market hours" *)

(** [self.risk_config].  [AccountConfig] declares none of
    [max_daily_loss], [max_position_value] and [stop_loss_percentage], so
    [getattr] gives the defaults. *)
Record RiskConfig : Type := mkRiskConfig {
  max_daily_loss : Q;
  max_position_value : Q;
  stop_loss_percentage : Q;
  max_portfolio_delta : Q;
  max_concentration_pct : Q;
  max_open_positions : nat;
  min_days_to_expiry : Z;
  max_vega_exposure : Q;
  max_theta_decay : Q
}.

Definition risk_config : RiskConfig :=
  {| max_daily_loss := 5000;
     max_position_value := 50000;
     stop_loss_percentage := 5 # 100;
     max_portfolio_delta := 100;
     max_concentration_pct := 30 # 100;
     max_open_positions := 20;
     min_days_to_expiry := 3;
     max_vega_exposure := 1000;
     max_theta_decay := 500 |}.

Record t : Type := mk {
  account_config : AccountConfig.t;
  position_manager : PositionManager.t
}.

(** A sub-check returns [(len(messages) == 0, messages)]. *)
Definition checked (messages : list message) : bool * list message :=
  ((length messages =? 0)%nat, messages).

Definition _check_position_size_limits (self : t) (symbol : string) (quantity : Q)
    : bool * list message :=
  let current_position := PositionManager.get_position (position_manager self) symbol in
  let current_qty :=
    match current_position with
    | Some p => Position.quantity p
    | None => 0%Q
    end in
  let new_total_qty := Qabs' (current_qty + quantity) in
  let limit := AccountConfig.max_position_size (account_config self) in
  let all_positions := PositionManager.get_all_positions (position_manager self) in
  checked
    ((if Qltb (inject_Z limit) new_total_qty
      then [PositionSizeLimitExceeded new_total_qty limit] else []) ++
     (if (max_open_positions risk_config <=? length all_positions)%nat
      then [MaxOpenPositionsReached (length all_positions)] else [])).

(** The risk manager has its own copy of [_extract_underlying], the same
    text as the position manager's. *)
Definition _extract_underlying : string -> string :=
  PositionManager._extract_underlying.

Definition _check_concentration_limits (self : t) (symbol : string) (quantity : Q)
    : bool * list message :=
  let underlying := _extract_underlying symbol in
  let underlying_positions :=
    PositionManager.get_positions_by_underlying (position_manager self) underlying in
  let underlying_value :=
    sum_of (fun pos => or_zero (Position.market_value pos)) underlying_positions in
  let metrics := PositionManager.calculate_portfolio_metrics (position_manager self) in
  let total_value := PositionManager.total_market_value metrics in
  checked
    (if Qltb 0 total_value then
       let concentration := (underlying_value / total_value)%Q in
       let max_concentration := max_concentration_pct risk_config in
       if Qltb max_concentration concentration
       then [HighConcentration underlying concentration max_concentration]
       else []
     else []).

(** The daily P&L is the unrealized P&L of the book. *)
Definition _calculate_daily_pnl (self : t) : Q :=
  PositionManager.total_unrealized_pnl
    (PositionManager.calculate_portfolio_metrics (position_manager self)).

Definition _check_daily_loss_limits (self : t) : bool * list message :=
  let current_pnl := _calculate_daily_pnl self in
  let max_loss := max_daily_loss risk_config in
  checked
    (if Qltb current_pnl (- max_loss)
     then [DailyLossLimitExceeded current_pnl max_loss] else []).

(** [_check_greeks_exposure].  [getattr(contract, 'delta', ...)] finds the
    declared field, whose value may be [None]: the product with the
    multiplier then raises [TypeError], and the handler of the sub-check
    returns [(False, ["Greeks check error: ..."])]. *)
Definition _check_greeks_exposure
    (self : t) (contract : OptionContract.t) (quantity : Q) (side : Action)
    : bool * list message :=
  let metrics := PositionManager.calculate_portfolio_metrics (position_manager self) in
  let current_delta := PositionManager.portfolio_delta metrics in
  let current_vega := PositionManager.portfolio_vega metrics in
  let current_theta := PositionManager.portfolio_theta metrics in
  let multiplier := if Action_is side BUY then quantity else (- quantity)%Q in
  match OptionContract.delta contract,
        OptionContract.vega contract,
        OptionContract.theta contract with
  | Some contract_delta, Some contract_vega, Some contract_theta =>
      let new_delta := (current_delta + contract_delta * multiplier)%Q in
      let new_vega := (current_vega + contract_vega * multiplier)%Q in
      let new_theta := (current_theta + contract_theta * multiplier)%Q in
      checked
        ((if Qltb (max_portfolio_delta risk_config) (Qabs' new_delta)
          then [PortfolioDeltaExceeded new_delta] else []) ++
         (if Qltb (max_vega_exposure risk_config) (Qabs' new_vega)
          then [VegaExposureExceeded new_vega] else []) ++
         (if Qltb new_theta (- max_theta_decay risk_config)
          then [ThetaDecayExceeded new_theta] else []))
  | _, _, _ =>
      (false,
       [GreeksCheckError
          "unsupported operand type(s) for *: 'NoneType' and 'decimal.Decimal'"])
  end.

Definition _check_expiration_risk (now : datetime) (contract : OptionContract.t)
    : bool * list message :=
  let expiry_date := OptionContract.expiry contract in
  let days_to_expiry := timedelta_days expiry_date now in
  let min_days := min_days_to_expiry risk_config in
  checked
    ((if days_to_expiry <? min_days
      then [OptionExpiresSoon days_to_expiry min_days] else []) ++
     (if 5 <=? weekday expiry_date then [ExpiresOnWeekend] else [])).

(** The float [0.10] of the spread threshold. *)
Definition spread_threshold : float := 0x1.999999999999ap-4%float.

(** The spread part of [_check_liquidity_risk]: the quotes are tested as
    decimals, the spread is computed in floats and compared with the
    float [0.10].  A positive ask below the least positive float becomes
    [0.0], and the division raises [ZeroDivisionError]. *)
Definition spread_warnings (contract : OptionContract.t) : outcome (list message) :=
  match OptionContract.bid contract, OptionContract.ask contract with
  | Some b, Some a =>
      if truthy_oq (Some b) && truthy_oq (Some a) && Qltb 0 b && Qltb 0 a then
        let spread := PrimFloat.sub (float_of_Q a) (float_of_Q b) in
        if PrimFloat.is_zero (float_of_Q a)
        then Raised "float division by zero"
        else
          let spread_pct := PrimFloat.div spread (float_of_Q a) in
          Returned (if PrimFloat.ltb spread_threshold spread_pct
                    then [WideSpread spread_pct] else [])
      else Returned []
  | _, _ => Returned []
  end.

(** [_check_liquidity_risk]: when the division raises, the handler of the
    sub-check returns its own message alone. *)
Definition _check_liquidity_risk (contract : OptionContract.t)
    : bool * list message :=
  match spread_warnings contract with
  | Raised e => (false, [LiquidityCheckError e])
  | Returned spread_warnings =>
      checked
        ((match OptionContract.volume contract with
          | Some v => if v <? 10 then [LowVolume v] else []
          | None => []
          end) ++
         spread_warnings ++
         (match OptionContract.open_interest contract with
          | Some oi => if oi <? 50 then [LowOpenInterest oi] else []
          | None => []
          end))
  end.

Definition market_open : Z := (9 * 3600 + 30 * 60) * 1000000.
Definition market_close : Z := 16 * 3600 * 1000000.

Definition _check_market_conditions (now : datetime) : bool * list message :=
  checked
    ((if 5 <=? weekday now then [TradingOnWeekend] else []) ++
     (if (time_of_day now <? market_open) || (market_close <? time_of_day now)
      then [OutsideMarketHours] else [])).

(** [lst.extend(msgs)] under [if not ok] *)
Definition extend_unless (ok_msgs : bool * list message) (lst : list message)
    : list message :=
  if negb (fst ok_msgs) then lst ++ snd ok_msgs else lst.

(** The [errors] and the [warnings] of [check_trade_risk] once the seven
    sub-checks have run. *)
Definition collect_errors (self : t) (contract : OptionContract.t) (quantity : Q)
    : list message :=
  let errors := [] in
  let errors :=
    extend_unless
      (_check_position_size_limits self (OptionContract.symbol contract) quantity)
      errors in
  let errors := extend_unless (_check_daily_loss_limits self) errors in
  errors.

Definition collect_warnings
    (self : t) (now : datetime) (signal : TradeSignal.t)
    (contract : OptionContract.t) (quantity : Q) : list message :=
  let warnings := [] in
  let warnings :=
    extend_unless
      (_check_concentration_limits self (OptionContract.symbol contract) quantity)
      warnings in
  let warnings :=
    extend_unless
      (_check_greeks_exposure self contract quantity (TradeSignal.action signal))
      warnings in
  let warnings := extend_unless (_check_expiration_risk now contract) warnings in
  let warnings := extend_unless (_check_liquidity_risk contract) warnings in
  let warnings := extend_unless (_check_market_conditions now) warnings in
  warnings.

(** [check_trade_risk]: the verdict and the messages [errors + warnings].
    The third component of the source's tuple, the dictionary of trade
    risk metrics, is computed by a helper that catches its own exceptions
    and has no part in the verdict; it is left out.  Every sub-check
    catches its own exceptions, so the outer handler (which rejects the
    trade) is not reached. *)
Definition check_trade_risk
    (self : t) (now : datetime) (signal : TradeSignal.t)
    (contract : OptionContract.t) (quantity : Q)
    : RiskCheckResult * list message :=
  let errors := collect_errors self contract quantity in
  let warnings := collect_warnings self now signal contract quantity in
  let result :=
    if negb (length errors =? 0)%nat then REJECTED
    else if (3 <? length warnings)%nat then REQUIRES_REVIEW
    else if negb (length warnings =? 0)%nat then WARNING
    else APPROVED in
  (result, errors ++ warnings).

End RiskManager.

(** ** OrderStrategyService (services/order_strategy.py) *)

Module OrderStrategyService.

Inductive OrderStrategy : Type :=
| S_MARKET | S_LIMIT | S_LIMIT_MIDPOINT | S_LIMIT_AGGRESSIVE
| S_LIMIT_CONSERVATIVE | S_STOP_LOSS | S_BRACKET.

Definition OrderStrategy_value (s : OrderStrategy) : string :=
  match s with
  | S_MARKET => "market"
  | S_LIMIT => "limit"
  | S_LIMIT_MIDPOINT => "limit_midpoint"
  | S_LIMIT_AGGRESSIVE => "limit_aggressive"
  | S_LIMIT_CONSERVATIVE => "limit_conservative"
  | S_STOP_LOSS => "stop_loss"
  | S_BRACKET => "bracket"
  end.

Inductive PriceCalculationMethod : Type :=
| BID_ASK_MIDPOINT | LAST_PRICE | BID_PRICE | ASK_PRICE | THEORETICAL_PRICE.

(** The order parameters dictionary; the key ["stop_price"] is present
    for the stop-loss strategy only. *)
Record OrderParams : Type := mkParams {
  p_symbol : string;
  p_order_type : OrderType;
  p_side : Action;
  p_quantity : Q;
  p_price : option Q;
  p_time_in_force : string;
  p_strategy : string;
  p_signal_id : string;
  p_created_at : datetime;
  p_stop_price : attr (option Q)
}.

(** [(contract.bid + contract.ask) / 2] under [if contract.bid and
    contract.ask] *)
Definition midpoint (contract : OptionContract.t) : option Q :=
  match OptionContract.bid contract, OptionContract.ask contract with
  | Some b, Some a =>
      if truthy_oq (Some b) && truthy_oq (Some a) then Some ((b + a) / 2)%Q else None
  | _, _ => None
  end.

(** [x] under [if x], for an [Optional[Decimal]] *)
Definition if_truthy (o : option Q) : option Q :=
  if truthy_oq o then o else None.

(** The fallback chain at the end of [_get_price_by_method]: it starts by
    reading [contract.last_price]. *)
Definition fallback_chain (contract : OptionContract.t) : outcome (option Q) :=
  match OptionContract.last_price contract with
  | Missing => Raised "'OptionContract' object has no attribute 'last_price'"
  | Present lp =>
      Returned
        (if truthy_oq lp then lp
         else match midpoint contract with
              | Some m => Some m
              | None =>
                  if truthy_oq (OptionContract.bid contract)
                  then OptionContract.bid contract
                  else if truthy_oq (OptionContract.ask contract)
                  then OptionContract.ask contract
                  else None
              end)
  end.

(** The [try] block of [_get_price_by_method]. *)
Definition price_by_method_body
    (contract : OptionContract.t) (method : PriceCalculationMethod)
    : outcome (option Q) :=
  match method with
  | BID_ASK_MIDPOINT =>
      match midpoint contract with
      | Some m => Returned (Some m)
      | None => fallback_chain contract
      end
  | LAST_PRICE =>
      match OptionContract.last_price contract with
      | Missing => Raised "'OptionContract' object has no attribute 'last_price'"
      | Present lp =>
          if truthy_oq lp then Returned lp else fallback_chain contract
      end
  | BID_PRICE =>
      if truthy_oq (OptionContract.bid contract)
      then Returned (OptionContract.bid contract)
      else fallback_chain contract
  | ASK_PRICE =>
      if truthy_oq (OptionContract.ask contract)
      then Returned (OptionContract.ask contract)
      else fallback_chain contract
  | THEORETICAL_PRICE =>
      match OptionContract.theoretical_price contract with
      | Present tp =>
          if truthy_oq tp then Returned tp
          else match midpoint contract with
               | Some m => Returned (Some m)
               | None => fallback_chain contract
               end
      | Missing =>
          match midpoint contract with
          | Some m => Returned (Some m)
          | None => fallback_chain contract
          end
      end
  end.

(** [_get_price_by_method]: an exception gives [None]. *)
Definition _get_price_by_method
    (contract : OptionContract.t) (method : PriceCalculationMethod) : option Q :=
  match price_by_method_body contract method with
  | Returned p => p
  | Raised _ => None
  end.

Definition _calculate_order_price
    (contract : OptionContract.t) (strategy : OrderStrategy) (side : Action)
    : option Q :=
  match strategy with
  | S_MARKET => None
  | S_LIMIT => _get_price_by_method contract BID_ASK_MIDPOINT
  | S_LIMIT_MIDPOINT => _get_price_by_method contract BID_ASK_MIDPOINT
  | S_LIMIT_AGGRESSIVE =>
      if Action_is side BUY then
        let ask_price := _get_price_by_method contract ASK_PRICE in
        match if_truthy ask_price with
        | Some a => Some (a * (99 # 100))%Q
        | None => _get_price_by_method contract BID_ASK_MIDPOINT
        end
      else
        let bid_price := _get_price_by_method contract BID_PRICE in
        match if_truthy bid_price with
        | Some b => Some (b * (101 # 100))%Q
        | None => _get_price_by_method contract BID_ASK_MIDPOINT
        end
  | S_LIMIT_CONSERVATIVE =>
      if Action_is side BUY then
        let bid_price := _get_price_by_method contract BID_PRICE in
        match if_truthy bid_price with
        | Some b => Some (b * (101 # 100))%Q
        | None => _get_price_by_method contract BID_ASK_MIDPOINT
        end
      else
        let ask_price := _get_price_by_method contract ASK_PRICE in
        match if_truthy ask_price with
        | Some a => Some (a * (99 # 100))%Q
        | None => _get_price_by_method contract BID_ASK_MIDPOINT
        end
  | S_STOP_LOSS | S_BRACKET => _get_price_by_method contract BID_ASK_MIDPOINT
  end.

Definition _get_order_type (strategy : OrderStrategy) : OrderType :=
  match strategy with
  | S_MARKET => MARKET
  | S_STOP_LOSS => STOP
  | _ => LIMIT
  end.

(** [_calculate_stop_price] with the default [stop_percentage] of
    [Decimal("0.10")]. *)
Definition _calculate_stop_price (contract : OptionContract.t) (side : Action)
    : option Q :=
  let stop_percentage := (10 # 100)%Q in
  match if_truthy (_get_price_by_method contract BID_ASK_MIDPOINT) with
  | None => None
  | Some current_price =>
      if Action_is side BUY
      then Some (current_price * (1 - stop_percentage))%Q
      else Some (current_price * (1 + stop_percentage))%Q
  end.

(** [quantity or signal.quantity] *)
Definition resolve_quantity (quantity : option Q) (signal : TradeSignal.t) : option Q :=
  if truthy_oq quantity then quantity else TradeSignal.quantity signal.

Definition strategy_is_market (strategy : OrderStrategy) : bool :=
  match strategy with S_MARKET => true | _ => false end.

(** The [try] block of [create_order].  After the dictionary is built the
    source logs [signal.action.value], which raises when the action is a
    plain [str]. *)
Definition create_order_body
    (now : datetime) (signal : TradeSignal.t) (contract : OptionContract.t)
    (strategy : OrderStrategy) (quantity : option Q)
    : outcome (option OrderParams) :=
  match resolve_quantity quantity signal with
  | None => Returned None
  | Some order_quantity =>
      if negb (truthy_oq (Some order_quantity)) || Qleb order_quantity 0
      then Returned None
      else
        let order_price :=
          _calculate_order_price contract strategy (TradeSignal.action signal) in
        if negb (bool_decide (is_Some order_price)) && negb (strategy_is_market strategy)
        then Returned None
        else
          let order_type := _get_order_type strategy in
          let order_params :=
            {| p_symbol := OptionContract.symbol contract;
               p_order_type := order_type;
               p_side := TradeSignal.action signal;
               p_quantity := order_quantity;
               p_price := order_price;
               p_time_in_force :=
                 if PyStr.truthy (TradeSignal.time_in_force signal)
                 then TradeSignal.time_in_force signal else "day";
               p_strategy := OrderStrategy_value strategy;
               p_signal_id := TradeSignal.signal_id signal;
               p_created_at := now;
               p_stop_price :=
                 match strategy with
                 | S_STOP_LOSS =>
                     Present (_calculate_stop_price contract (TradeSignal.action signal))
                 | _ => Missing
                 end |} in
          match Action_value (TradeSignal.action signal) with
          | Raised e => Raised e
          | Returned _ => Returned (Some order_params)
          end
  end.

(** [create_order]: an exception in the body gives [None]. *)
Definition create_order
    (now : datetime) (signal : TradeSignal.t) (contract : OptionContract.t)
    (strategy : OrderStrategy) (quantity : option Q) : option OrderParams :=
  match create_order_body now signal contract strategy quantity with
  | Returned r => r
  | Raised _ => None
  end.

(** An order of a bracket other than the entry.  The dictionary of the
    profit target has the key ["price"] and that of the stop the key
    ["stop_price"], not both. *)
Record ChildOrder : Type := mkChild {
  c_symbol : string;
  c_order_type : OrderType;
  c_side : OrderSide;
  c_quantity : option Q;
  c_price : attr Q;
  c_stop_price : attr Q;
  c_time_in_force : string;
  c_strategy : string;
  c_signal_id : string;
  c_parent_order : string;
  c_created_at : datetime
}.

Inductive BracketLeg : Type :=
| EntryOrder (order_params : OrderParams)
| Child (order : ChildOrder).

(** [create_bracket_order] with the default [profit_target_pct] of
    [Decimal("0.20")] and [stop_loss_pct] of [Decimal("0.10")].  The clock
    is read once by [create_order] and once for each of the two other
    orders.  The entry order is a non-empty dictionary, hence truthy;
    nothing raises once [create_order] has returned. *)
Definition create_bracket_order
    (now now_profit now_stop : datetime)
    (signal : TradeSignal.t) (contract : OptionContract.t)
    : option (list BracketLeg) :=
  let profit_target_pct := (20 # 100)%Q in
  let stop_loss_pct := (10 # 100)%Q in
  match create_order now signal contract S_LIMIT_MIDPOINT None with
  | None => None
  | Some entry_order =>
      match if_truthy (p_price entry_order) with
      | None => None
      | Some entry_price =>
          let orders := [EntryOrder entry_order] in
          let profit_side :=
            if Action_is (TradeSignal.action signal) BUY then SELL else BUY in
          let profit_price :=
            if Action_is (TradeSignal.action signal) BUY
            then (entry_price * (1 + profit_target_pct))%Q
            else (entry_price * (1 - profit_target_pct))%Q in
          let profit_order :=
            {| c_symbol := OptionContract.symbol contract;
               c_order_type := LIMIT;
               c_side := profit_side;
               c_quantity := TradeSignal.quantity signal;
               c_price := Present profit_price;
               c_stop_price := Missing;
               c_time_in_force := "gtc";
               c_strategy := "bracket_profit";
               c_signal_id := TradeSignal.signal_id signal;
               c_parent_order := "entry";
               c_created_at := now_profit |} in
          let orders := orders ++ [Child profit_order] in
          let stop_price :=
            if Action_is (TradeSignal.action signal) BUY
            then (entry_price * (1 - stop_loss_pct))%Q
            else (entry_price * (1 + stop_loss_pct))%Q in
          let stop_order :=
            {| c_symbol := OptionContract.symbol contract;
               c_order_type := STOP;
               c_side := profit_side;
               c_quantity := TradeSignal.quantity signal;
               c_price := Missing;
               c_stop_price := Present stop_price;
               c_time_in_force := "gtc";
               c_strategy := "bracket_stop";
               c_signal_id := TradeSignal.signal_id signal;
               c_parent_order := "entry";
               c_created_at := now_stop |} in
          let orders := orders ++ [Child stop_order] in
          Some orders
      end
  end.

(** The errors of [validate_order_parameters] on the dictionaries that
    [create_order] builds.  Their keys ["symbol"], ["order_type"],
    ["side"] and ["quantity"] are present with a value, so no "Missing
    required field" arises, and a [Decimal] is read back from its own
    string, so no format error does. *)
Inductive order_error : Type :=
| OrderQuantityMustBePositive
    (* "Quantity must be positive" *)
| OrderQuantityExceedsMax (limit : Z)
    (* "Quantity exceeds max position size: {max_position_size}" *)
| OrderPriceRequired
    (* "Price required for limit orders" *)
| OrderPriceMustBePositive
    (* "Price must be positive" *)
| OrderStopPriceRequired
    (* "Stop price required for stop orders" *)
| OrderStopPriceMustBePositive.
    (* "Stop price must be positive" *)

Definition OrderType_eqb (a b : OrderType) : bool :=
  match a, b with
  | MARKET, MARKET | LIMIT, LIMIT | STOP, STOP | STOP_LIMIT, STOP_LIMIT
  | TRAILING_STOP, TRAILING_STOP => true
  | _, _ => false
  end.

Definition validate_order_parameters
    (account_config : AccountConfig.t) (order_params : OrderParams)
    : bool * list order_error :=
  let errors := [] in
  let quantity := p_quantity order_params in
  let limit := AccountConfig.max_position_size account_config in
  let errors :=
    if Qleb quantity 0 then errors ++ [OrderQuantityMustBePositive]
    else if Qltb (inject_Z limit) quantity then errors ++ [OrderQuantityExceedsMax limit]
    else errors in
  let errors :=
    if OrderType_eqb (p_order_type order_params) LIMIT then
      match p_price order_params with
      | None => errors ++ [OrderPriceRequired]
      | Some price =>
          if Qleb price 0 then errors ++ [OrderPriceMustBePositive] else errors
      end
    else errors in
  let errors :=
    if OrderType_eqb (p_order_type order_params) STOP then
      match p_stop_price order_params with
      | Missing | Present None => errors ++ [OrderStopPriceRequired]
      | Present (Some stop_price) =>
          if Qleb stop_price 0 then errors ++ [OrderStopPriceMustBePositive]
          else errors
      end
    else errors in
  ((length errors =? 0)%nat, errors).

End OrderStrategyService.

(** ** SignalValidator, continued: the conversion to a trade signal *)

Module SignalConversion.
Import AccountConfig WebhookSignal.

(** [x or y] for an [Optional[str]] and a [str] *)
Definition or_str (x : option string) (y : string) : string :=
  match x with
  | Some s => if PyStr.truthy s then s else y
  | None => y
  end.

(** [convert_to_trade_signal] of [SignalValidator].  [generated_id] is the
    time-stamped id that the source makes when no id is given and the
    signal has none.  The arguments of [TradeSignal(...)] are evaluated
    first, so a missing action raises at [signal.action.lower()]; then the
    model refuses a missing symbol, which it declares as [str].  A
    [Decimal] is carried over as its value. *)
Definition convert_to_trade_signal
    (generated_id : string) (signal : WebhookSignal.t)
    (account_config : AccountConfig.t) (signal_id : option string)
    : outcome TradeSignal.t :=
  let signal_id :=
    if truthy_ostr signal_id then default generated_id signal_id
    else or_str (WebhookSignal.signal_id signal) generated_id in
  let quantity :=
    match quantity signal with
    | Some q => Dval q
    | None => inject_Z (default_position_size account_config)
    end in
  let order_type := or_str (order_type signal) "market" in
  let time_in_force := or_str (time_in_force signal) "day" in
  match action signal with
  | None => Raised "'NoneType' object has no attribute 'lower'"
  | Some a =>
      match symbol signal with
      | None => Raised "1 validation error for TradeSignal: symbol"
      | Some s =>
          Returned
            {| TradeSignal.signal_id := signal_id;
               TradeSignal.account_name := name account_config;
               TradeSignal.symbol := s;
               TradeSignal.action := ActionStr (PyStr.lower a);
               TradeSignal.quantity := Some quantity;
               TradeSignal.price := option_map Dval (price signal);
               TradeSignal.stop_price := option_map Dval (stop_price signal);
               TradeSignal.order_type := PyStr.lower order_type;
               TradeSignal.time_in_force := PyStr.lower time_in_force;
               TradeSignal.strategy := strategy signal;
               TradeSignal.comment := comment signal |}
      end
  end.

End SignalConversion.

(** ** AuthService (services/auth_service.py) *)

Module AuthService.

(** An account of the key configuration: the trading settings, the
    [enabled] flag, and whether the private key file is there (what
    [is_private_key_valid] answers). *)
Record Account : Type := mkAccount {
  config : AccountConfig.t;
  enabled : bool;
  private_key_valid : bool
}.

Record t : Type := mk {
  _account_configs : gmap string Account
}.

Definition get_account_config (self : t) (account_name : string) : option Account :=
  _account_configs self !! account_name.

Definition get_enabled_account_config (self : t) (account_name : string)
    : option Account :=
  match get_account_config self account_name with
  | Some account => if enabled account then Some account else None
  | None => None
  end.

Definition is_account_valid (self : t) (account_name : string) : bool :=
  match get_account_config self account_name with
  | Some account_config =>
      if negb (enabled account_config) then false
      else private_key_valid account_config
  | None => false
  end.

End AuthService.

(** ** SignalProcessor (services/signal_processor.py) *)

Module SignalProcessor.

Section Processor.

(** What lies behind the broker gateway, the authentication service and
    the per-account services: an abstract world that an execution reads and
    changes. *)
Variable World : Type.

(** The entries of a result dictionary other than ["signal_id"],
    ["status"] and ["error"]. *)
Variable Details : Type.

(** [self.auth_service.get_client(name)] and
    [self.auth_service.get_account_config(name)] are truthy. *)
Variable has_client : string -> World -> bool.
Variable has_account_config : string -> World -> bool.

(** [_execute_option_trade], [_execute_close_position] and
    [_execute_close_all_positions].  Each is a [try] block of which every
    [return] gives a dictionary with ["signal_id": trade_signal.signal_id]
    and ["status": "processed"], and whose handler raises
    [SignalProcessingError]: an execution returns the other entries of its
    dictionary, or raises. *)
Variable _execute_option_trade : TradeSignal.t -> World -> outcome Details * World.
Variable _execute_close_position : TradeSignal.t -> World -> outcome Details * World.
Variable _execute_close_all_positions : TradeSignal.t -> World -> outcome Details * World.

(** A dictionary of [results]. *)
Record SignalResult : Type := mkSignalResult {
  r_signal_id : string;
  r_status : string;
  r_error : option string;
  r_details : option Details
}.

Record t : Type := mk {
  _processing_queue : list TradeSignal.t;
  _processing_status : gmap string string;
  world : World
}.

Definition set_status (self : t) (signal_id status : string) : t :=
  {| _processing_queue := _processing_queue self;
     _processing_status := <[signal_id := status]> (_processing_status self);
     world := world self |}.

Definition set_world (self : t) (w : World) : t :=
  {| _processing_queue := _processing_queue self;
     _processing_status := _processing_status self;
     world := w |}.

Definition set_queue (self : t) (q : list TradeSignal.t) : t :=
  {| _processing_queue := q;
     _processing_status := _processing_status self;
     world := world self |}.

(** [_queue_signal_for_processing] *)
Definition _queue_signal_for_processing (self : t) (trade_signal : TradeSignal.t) : t :=
  set_status
    (set_queue self (_processing_queue self ++ [trade_signal]))
    (TradeSignal.signal_id trade_signal) "queued".

(** The [try] block of [_process_single_signal], after the status is set
    to ["processing"]. *)
Definition process_single_body (trade_signal : TradeSignal.t) (w : World)
    : outcome Details * World :=
  let account := TradeSignal.account_name trade_signal in
  if negb (has_client account w) then
    (Raised ("Failed to get client for account: " +:+ account), w)
  else if negb (has_account_config account w) then
    (Raised ("Failed to get account config for: " +:+ account), w)
  else
    let action_lower := PyStr.lower (Action_str (TradeSignal.action trade_signal)) in
    if String.eqb action_lower "buy" || String.eqb action_lower "sell" then
      _execute_option_trade trade_signal w
    else if String.eqb action_lower "close" then
      _execute_close_position trade_signal w
    else if String.eqb action_lower "close_all" then
      _execute_close_all_positions trade_signal w
    else
      (Raised ("Unknown action: " +:+ Action_str (TradeSignal.action trade_signal)), w).

(** [_process_single_signal]: it returns in every case, the handler
    turning an exception into a ["failed"] result. *)
Definition _process_single_signal (self : t) (trade_signal : TradeSignal.t)
    : SignalResult * t :=
  let signal_id := TradeSignal.signal_id trade_signal in
  let self := set_status self signal_id "processing" in
  match process_single_body trade_signal (world self) with
  | (Returned details, w) =>
      ({| r_signal_id := signal_id;
          r_status := "processed";
          r_error := None;
          r_details := Some details |},
       set_status (set_world self w) signal_id "completed")
  | (Raised e, w) =>
      ({| r_signal_id := signal_id;
          r_status := "failed";
          r_error := Some e;
          r_details := None |},
       set_status (set_world self w) signal_id "failed")
  end.

(** The dictionary that [process_queued_signals] returns (without its
    time stamp). *)
Record Summary : Type := mkSummary {
  processed_count : nat;
  failed_count : nat;
  total_count : nat;
  results : list SignalResult
}.

(** The loop [while self._processing_queue: ... pop(0) ...].  The queue is
    only popped during the loop, so the recursion is on the queue; the
    state carries what is left of it.  The handler of the loop (an
    ["error"] result) is for an exception out of [_process_single_signal],
    which raises none. *)
Fixpoint drain (queue : list TradeSignal.t) (self : t)
    (processed_count failed_count : nat) (results : list SignalResult)
    : Summary * t :=
  match queue with
  | [] =>
      ({| processed_count := processed_count;
          failed_count := failed_count;
          total_count := processed_count + failed_count;
          results := results |},
       set_queue self [])
  | trade_signal :: rest =>
      let self := set_queue self rest in
      let '(result, self) := _process_single_signal self trade_signal in
      let results := results ++ [result] in
      if String.eqb (r_status result) "processed"
      then drain rest self (processed_count + 1) failed_count results
      else drain rest self processed_count (failed_count + 1) results
  end.

Definition process_queued_signals (self : t) : Summary * t :=
  drain (_processing_queue self) self 0 0 [].

Definition get_signal_status (self : t) (signal_id : string) : option string :=
  _processing_status self !! signal_id.

(** The dictionary that [process_webhook_signal] returns: its status is
    ["validation_failed"] or ["queued"]. *)
Inductive WebhookOutcome : Type :=
| ValidationFailed (signal_id : string)
    (validation_result : SignalValidator.SignalValidationResult)
| Queued (signal_id : string) (trade_signal : TradeSignal.t)
    (validation_result : SignalValidator.SignalValidationResult).

(** [process_webhook_signal]: validate, convert, queue.  [now_hour] is the
    hour of day that the validator reads and [generated_id] the
    time-stamped id used when [request_id] is missing or empty.  The
    handler wraps an exception into [SignalProcessingError]. *)
Definition process_webhook_signal
    (now_hour : Z) (generated_id : string) (self : t)
    (signal : WebhookSignal.t) (account_config : AccountConfig.t)
    (request_id : option string) : outcome WebhookOutcome * t :=
  let signal_id := SignalConversion.or_str request_id generated_id in
  let validation_result :=
    SignalValidator.validate_signal now_hour signal account_config in
  if negb (SignalValidator.is_valid validation_result) then
    (Returned (ValidationFailed signal_id validation_result), self)
  else
    match SignalConversion.convert_to_trade_signal
            generated_id signal account_config (Some signal_id) with
    | Raised e => (Raised ("Failed to process signal: " +:+ e), self)
    | Returned trade_signal =>
        (Returned (Queued signal_id trade_signal validation_result),
         _queue_signal_for_processing self trade_signal)
    end.

(** [status in ["completed", "failed"]] *)
Definition is_finished (status : string) : bool :=
  String.eqb status "completed" || String.eqb status "failed".

(** [clear_completed_signals]: the finished entries are deleted from the
    status map and their number is returned. *)
Definition clear_completed_signals (self : t) : nat * t :=
  let completed_signals :=
    List.filter (fun kv => is_finished (snd kv)) (map_to_list (_processing_status self)) in
  (length completed_signals,
   {| _processing_queue := _processing_queue self;
      _processing_status :=
        fold_left (fun m kv => delete (fst kv) m) completed_signals
                  (_processing_status self);
      world := world self |}).

(** [get_auth_service()]: the authentication service of the world. *)
Variable auth_service : World -> AuthService.t.

(** [validate_and_process_signal]: the account must be configured and
    enabled. *)
Definition validate_and_process_signal
    (now_hour : Z) (generated_id : string) (self : t)
    (signal : WebhookSignal.t) (account_name : string)
    (request_id : option string) : outcome WebhookOutcome * t :=
  match AuthService.get_enabled_account_config
          (auth_service (world self)) account_name with
  | None => (Raised ("Account not found or disabled: " +:+ account_name), self)
  | Some account_config =>
      process_webhook_signal now_hour generated_id self signal
        (AuthService.config account_config) request_id
  end.

(** [result["status"]], [result["signal_id"]] and
    [result["validation_result"]] *)
Definition outcome_status (result : WebhookOutcome) : string :=
  match result with
  | ValidationFailed _ _ => "validation_failed"
  | Queued _ _ _ => "queued"
  end.

Definition outcome_signal_id (result : WebhookOutcome) : string :=
  match result with
  | ValidationFailed signal_id _ => signal_id
  | Queued signal_id _ _ => signal_id
  end.

Definition outcome_validation_result (result : WebhookOutcome)
    : SignalValidator.SignalValidationResult :=
  match result with
  | ValidationFailed _ validation_result => validation_result
  | Queued _ _ validation_result => validation_result
  end.

End Processor.

Arguments r_signal_id {Details} _.
Arguments r_status {Details} _.
Arguments r_error {Details} _.
Arguments r_details {Details} _.
Arguments _processing_queue {World} _.
Arguments _processing_status {World} _.
Arguments world {World} _.
Arguments processed_count {Details} _.
Arguments failed_count {Details} _.
Arguments total_count {Details} _.
Arguments results {Details} _.

End SignalProcessor.

(** ** The alert-platform payload (models/webhook.py, api/webhook_routes.py) *)

Module WebhookRoutes.

Inductive Side : Type := side_buy | side_sell.
Inductive MarketPosition : Type := long | short | flat.
Inductive QtyType : Type := fixed | cash.

Definition MarketPosition_eqb (a b : MarketPosition) : bool :=
  match a, b with
  | long, long | short, short | flat, flat => true
  | _, _ => false
  end.

(** [WebhookSignalPayload]; the optional [tv_id], [delta1], [n] and
    [delta2] only reach the metadata of the converted signal, which is not
    modelled. *)
Record WebhookSignalPayload : Type := mkPayload {
  account_name : string;
  side : Side;
  exchange : string;
  period : string;
  market_position : MarketPosition;
  prev_market_position : MarketPosition;
  symbol : string;
  price : string;
  timestamp : string;
  size : string;
  position_size : string;
  id : string;
  alert_message : option string;
  comment : option string;
  qty_type : QtyType
}.

Definition is_opening_position (self : WebhookSignalPayload) : bool :=
  MarketPosition_eqb (prev_market_position self) flat &&
  negb (MarketPosition_eqb (market_position self) flat).

Definition is_closing_position (self : WebhookSignalPayload) : bool :=
  negb (MarketPosition_eqb (prev_market_position self) flat) &&
  MarketPosition_eqb (market_position self) flat.

Definition is_reversing_position (self : WebhookSignalPayload) : bool :=
  negb (MarketPosition_eqb (prev_market_position self) flat) &&
  negb (MarketPosition_eqb (market_position self) flat) &&
  negb (MarketPosition_eqb (prev_market_position self) (market_position self)).

(** *** [Decimal(s)] on strings

    The constructor strips the string, drops underscores and reads a sign
    and then either a number,
    [(digits (. digits?)? | . digits) (E sign? digits)?], or an infinity,
    [Inf] or [Infinity], or a NaN, [NaN] or [sNaN] with digits after it,
    letters in either case; anything else raises, which is [None] here. *)

Fixpoint remove_underscores (s : string) : string :=
  match s with
  | EmptyString => EmptyString
  | String c r =>
      if Ascii.eqb c "_" then remove_underscores r
      else String c (remove_underscores r)
  end.

Fixpoint digits_value (s : string) (acc : Z) : Z :=
  match s with
  | EmptyString => acc
  | String c r => digits_value r (acc * 10 + (Z.of_N (PyStr.code c) - 48))
  end.

Definition read_sign (s : string) : bool * string :=
  match s with
  | String "-" r => (true, r)
  | String "+" r => (false, r)
  | _ => (false, s)
  end.

Definition apply_sign (negative : bool) (z : Z) : Z :=
  if negative then - z else z.

(** The exponent part and the end of the string. *)
Definition read_exponent (s : string) : option Z :=
  match s with
  | EmptyString => Some 0
  | String c r =>
      if Ascii.eqb c "e" || Ascii.eqb c "E" then
        let '(negative, r) := read_sign r in
        let '(digits, r) := PyStr.span PyStr.isdigit r in
        if PyStr.truthy digits && negb (PyStr.truthy r)
        then Some (apply_sign negative (digits_value digits 0))
        else None
      else None
  end.

(** [Inf] or [Infinity], in either case *)
Definition is_infinity_word (s : string) : bool :=
  let s := PyStr.lower s in
  String.eqb s "inf" || String.eqb s "infinity".

(** [NaN] or [sNaN], in either case, and its diagnostic digits *)
Definition is_nan_word (s : string) : bool :=
  let s := PyStr.lower s in
  let s := match s with String "s" r => r | _ => s end in
  match s with
  | String "n" (String "a" (String "n" diag)) =>
      PyStr.forallb_chars PyStr.isdigit diag
  | _ => false
  end.

Definition Decimal_of_string (s : string) : option (special Decimal) :=
  let s := remove_underscores (PyStr.strip s) in
  let '(negative, s) := read_sign s in
  if is_infinity_word s then Some (Inf negative)
  else if is_nan_word s then Some NotANumber
  else
    let '(int_part, s) := PyStr.span PyStr.isdigit s in
    let '(frac_part, s) :=
      match s with
      | String "." r => PyStr.span PyStr.isdigit r
      | _ => (EmptyString, s)
      end in
    if PyStr.truthy int_part || PyStr.truthy frac_part then
      match read_exponent s with
      | Some e =>
          Some (Finite
                  {| dcoef := apply_sign negative
                                (digits_value (int_part +:+ frac_part) 0);
                     dexp := e - PyStr.len frac_part |})
      | None => None
      end
    else None.

Definition size_decimal (self : WebhookSignalPayload) : option (special Decimal) :=
  Decimal_of_string (size self).

Definition price_decimal (self : WebhookSignalPayload) : option (special Decimal) :=
  Decimal_of_string (price self).

(** An [Optional[Decimal]] field of [WebhookSignal]: the model refuses a
    decimal that is not finite, and [WebhookSignal(...)] raises. *)
Definition finite_decimal_field (value : option (special Decimal))
    : outcome (option Decimal) :=
  match value with
  | None => Returned None
  | Some (Finite d) => Returned (Some d)
  | Some _ => Raised "ValidationError"
  end.

(** [convert_deribit_payload_to_signal]: a property that raises gives
    [None] for the quantity or the price; [WebhookSignal(...)], outside
    those [try] blocks, raises on a quantity or a price that is not
    finite.  The action and the order type pass their validators as they
    are. *)
Definition convert_deribit_payload_to_signal
    (payload : WebhookSignalPayload) (request_id : string)
    : outcome WebhookSignal.t :=
  let action := match side payload with side_buy => "buy" | side_sell => "sell" end in
  let action :=
    if is_closing_position payload then "close"
    else if is_reversing_position payload then
      if MarketPosition_eqb (market_position payload) long then "buy" else "sell"
    else action in
  let quantity := size_decimal payload in
  let price := price_decimal payload in
  match finite_decimal_field quantity with
  | Raised e => Raised e
  | Returned quantity =>
      match finite_decimal_field price with
      | Raised e => Raised e
      | Returned price =>
          Returned
            {| WebhookSignal.signal_id := Some request_id;
               WebhookSignal.symbol := Some (symbol payload);
               WebhookSignal.action := Some action;
               WebhookSignal.quantity := quantity;
               WebhookSignal.price := price;
               WebhookSignal.stop_price := None;
               WebhookSignal.order_type := Some "market";
               WebhookSignal.time_in_force := Some "day";
               WebhookSignal.strategy := comment payload;
               WebhookSignal.comment := alert_message payload |}
      end
  end.

(** *** The route [POST /webhook/signal] *)

(** The [error] of a response: a fixed label, or the validation errors
    joined. *)
Inductive RouteError : Type :=
| InvalidAccount        (* "Invalid account" *)
| TradingFailed         (* "Trading failed" *)
| ProcessingError       (* "Processing error" *)
| InternalError         (* "Internal error" *)
| ValidationErrors (errors : list SignalValidator.verror).

(** [ApiResponse]: [success] and [error]; the message, the data and the
    time stamp are left out. *)
Record ApiResponse : Type := mkResponse {
  success : bool;
  error : option RouteError
}.

Section Route.

Variable World : Type.
Variable Details : Type.
Variable has_client : string -> World -> bool.
Variable has_account_config : string -> World -> bool.
Variable _execute_option_trade : TradeSignal.t -> World -> outcome Details * World.
Variable _execute_close_position : TradeSignal.t -> World -> outcome Details * World.
Variable _execute_close_all_positions : TradeSignal.t -> World -> outcome Details * World.
Variable auth_service : World -> AuthService.t.

(** The answer for the result that the loop [for res in results] finds.
    A result without ["error"] gives [message=None], which the response
    model refuses: the handler of the inner [try] answers. *)
Definition trading_response
    (signal_result : option (SignalProcessor.SignalResult Details)) : ApiResponse :=
  match signal_result with
  | Some res =>
      if String.eqb (SignalProcessor.r_status res) "executed"
      then {| success := true; error := None |}
      else
        match SignalProcessor.r_error res with
        | Some _ => {| success := false; error := Some TradingFailed |}
        | None => {| success := false; error := Some ProcessingError |}
        end
  | None => {| success := false; error := Some TradingFailed |}
  end.

(** [receive_deribit_style_signal].  [request_id] is the id that the route
    makes from the clock and the payload. *)
Definition receive_deribit_style_signal
    (now_hour : Z) (generated_id : string)
    (processor : SignalProcessor.t World)
    (payload : WebhookSignalPayload) (request_id : string)
    : ApiResponse * SignalProcessor.t World :=
  if negb (AuthService.is_account_valid
             (auth_service (SignalProcessor.world processor))
             (account_name payload))
  then ({| success := false; error := Some InvalidAccount |}, processor)
  else
    match convert_deribit_payload_to_signal payload request_id with
    | Raised _ => ({| success := false; error := Some InternalError |}, processor)
    | Returned internal_signal =>
    match SignalProcessor.validate_and_process_signal World auth_service
            now_hour generated_id processor internal_signal
            (account_name payload) (Some request_id) with
    | (Raised _, processor) =>
        ({| success := false; error := Some InternalError |}, processor)
    | (Returned result, processor) =>
        if String.eqb (SignalProcessor.outcome_status result) "queued" then
          let '(process_result, processor) :=
            SignalProcessor.process_queued_signals World Details
              has_client has_account_config _execute_option_trade
              _execute_close_position _execute_close_all_positions processor in
          let signal_result :=
            List.find
              (fun res =>
                 String.eqb (SignalProcessor.r_signal_id res)
                            (SignalProcessor.outcome_signal_id result))
              (SignalProcessor.results process_result) in
          (trading_response signal_result, processor)
        else
          ({| success :=
                negb (String.eqb (SignalProcessor.outcome_status result)
                                 "validation_failed");
              error :=
                if String.eqb (SignalProcessor.outcome_status result)
                              "validation_failed"
                then Some (ValidationErrors
                             (SignalValidator.errors
                                (SignalProcessor.outcome_validation_result result)))
                else None |},
           processor)
    end
    end.

End Route.

End WebhookRoutes.

(** ** Vocabulary of the statements *)

(** A field that is missing, empty or blank. *)
Definition blank (field : option string) : Prop :=
  match field with
  | None => True
  | Some s => PyStr.strip s = ""
  end.

(** Position sizing in the words of the specification: clamp the request
    to the account's limit; collapse to the default size when the request
    exceeds twice the default; with a positive portfolio value, cap by
    [(portfolio_value * risk_pct * 10) / 5]; floor at 1. *)
Definition sizing_spec (limit default_size portfolio_value risk_pct requested : Q) : Q :=
  let clamped := Qmin requested limit in
  let sized := if Qltb (default_size * 2) requested then default_size else clamped in
  let capped :=
    if Qltb 0 portfolio_value
    then Qmin sized (portfolio_value * risk_pct * 10 / 5)
    else sized in
  Qmax capped 1.

(** Position sizing as the code steps through it: the same, except that
    the collapse to the default size is decided on the clamped request;
    and an infinite portfolio value gives an infinite cap, of the sign of
    the risk percentage: [Infinity] caps nothing, [-Infinity] leaves the
    floor, 1. *)
Definition sizing_steps (limit default_size : Q) (portfolio_value : special Q)
    (risk_pct requested : Q) : Q :=
  let clamped := Qmin requested limit in
  let sized := if Qltb (default_size * 2) clamped then default_size else clamped in
  match portfolio_value with
  | Finite v =>
      Qmax (if Qltb 0 v then Qmin sized (v * risk_pct * 10 / 5) else sized) 1
  | Inf false => if Qltb risk_pct 0 then 1 else Qmax sized 1
  | _ => Qmax sized 1
  end.

(** The arithmetic of the sizing stays within the decimal context: twice
    the default size does not overflow, nor do the products of the risk
    cap when the portfolio value is positive; and an infinite portfolio
    value is not multiplied by a zero risk percentage. *)
Definition sizing_in_range (default_size : Q) (portfolio_value : special Q)
    (risk_pct : Q) : Prop :=
  decimal_overflows (default_size * 2) = false /\
  match portfolio_value with
  | Finite v =>
      (0 < v)%Q ->
      decimal_overflows (v * risk_pct) = false /\
      decimal_overflows (v * risk_pct * 10) = false
  | Inf false => ~ (risk_pct == 0)%Q
  | _ => True
  end.

(** A decimal that was read and is not finite: an infinity or a NaN. *)
Definition not_finite (value : option (special Decimal)) : Prop :=
  match value with
  | Some (Inf _) | Some NotANumber => True
  | _ => False
  end.

(** The finite decimal that was read, if any. *)
Definition finite_part (value : option (special Decimal)) : option Decimal :=
  match value with
  | Some (Finite d) => Some d
  | _ => None
  end.

(** Out of the money: a call above the underlying price, a put below. *)
Definition out_of_the_money (current_price : Q) (contract : OptionContract.t) : Prop :=
  match OptionContract.option_type contract with
  | CALL => (current_price < OptionContract.strike contract)%Q
  | PUT => (OptionContract.strike contract < current_price)%Q
  end.

(** A contract whose strike is known: not zero, which the selector takes
    for no strike. *)
Definition known_strike (contract : OptionContract.t) : Prop :=
  ~ (OptionContract.strike contract == 0)%Q.

(** The head of a list bounds the keys of the list from below. *)
Definition head_least {A : Type} (key : A -> Q) (l : list A) : Prop :=
  match l with
  | [] => True
  | h :: _ => forall x, In x l -> (key h <= key x)%Q
  end.

(** A sub-check of the risk manager passes exactly when it has no
    message. *)
Definition coherent (r : bool * list RiskManager.message) : Prop :=
  fst r = true <-> snd r = [].

(** The messages of the two sub-checks whose failures are errors (position
    size, daily loss) and of the five whose failures are warnings
    (concentration, Greeks, expiration, liquidity, market conditions). *)
Definition error_messages
    (self : RiskManager.t) (contract : OptionContract.t) (quantity : Q)
    : list RiskManager.message :=
  snd (RiskManager._check_position_size_limits
         self (OptionContract.symbol contract) quantity) ++
  snd (RiskManager._check_daily_loss_limits self).

Definition warning_messages
    (self : RiskManager.t) (now : datetime) (signal : TradeSignal.t)
    (contract : OptionContract.t) (quantity : Q) : list RiskManager.message :=
  snd (RiskManager._check_concentration_limits
         self (OptionContract.symbol contract) quantity) ++
  snd (RiskManager._check_greeks_exposure
         self contract quantity (TradeSignal.action signal)) ++
  snd (RiskManager._check_expiration_risk now contract) ++
  snd (RiskManager._check_liquidity_risk contract) ++
  snd (RiskManager._check_market_conditions now).

(** The portfolio delta that the Greeks sub-check estimates for a trade
    in a contract of delta [contract_delta]. *)
Definition estimated_delta
    (self : RiskManager.t) (signal : TradeSignal.t) (contract_delta quantity : Q) : Q :=
  (PositionManager.portfolio_delta
     (PositionManager.calculate_portfolio_metrics (RiskManager.position_manager self)) +
   contract_delta *
   (if Action_is (TradeSignal.action signal) BUY then quantity else - quantity))%Q.

(** The messages of a kind that only the Greeks sub-check issues. *)
Definition is_delta_message (m : RiskManager.message) : Prop :=
  match m with
  | RiskManager.PortfolioDeltaExceeded _ => True
  | _ => False
  end.

(** What [_process_single_signal] makes of the outcome of an execution
    for a signal: a ["processed"] result, or a ["failed"] result that
    records the exception. *)
Definition result_of {Details : Type}
    (trade_signal : TradeSignal.t) (out : outcome Details)
    : SignalProcessor.SignalResult Details :=
  match out with
  | Returned details =>
      SignalProcessor.mkSignalResult Details
        (TradeSignal.signal_id trade_signal) "processed" None (Some details)
  | Raised e =>
      SignalProcessor.mkSignalResult Details
        (TradeSignal.signal_id trade_signal) "failed" (Some e) None
  end.

(** The number of results with (respectively without) the status
    ["processed"]. *)
Definition count_processed {Details : Type}
    (rs : list (SignalProcessor.SignalResult Details)) : nat :=
  length (List.filter (fun r => String.eqb (SignalProcessor.r_status r) "processed") rs).

Definition count_failed {Details : Type}
    (rs : list (SignalProcessor.SignalResult Details)) : nat :=
  length (List.filter
            (fun r => negb (String.eqb (SignalProcessor.r_status r) "processed")) rs).

(** A result is the record of an execution for a signal, in some world. *)
Definition recorded {World Details : Type}
    (execute : TradeSignal.t -> World -> outcome Details * World)
    (trade_signal : TradeSignal.t) (r : SignalProcessor.SignalResult Details) : Prop :=
  exists w : World, r = result_of trade_signal (fst (execute trade_signal w)).

(** In the money: a call below the underlying price, a put above. *)
Definition in_the_money (current_price : Q) (contract : OptionContract.t) : Prop :=
  match OptionContract.option_type contract with
  | CALL => (OptionContract.strike contract < current_price)%Q
  | PUT => (current_price < OptionContract.strike contract)%Q
  end.

(** The volume of a contract, zero when it has none. *)
Definition volume_of (contract : OptionContract.t) : Z :=
  default 0 (OptionContract.volume contract).

(** A plain ticker: one to five ASCII letters, in either case. *)
Definition is_letter (c : ascii) : bool := PyStr.isupper c || PyStr.islower c.

Definition plain_ticker (s : string) : Prop :=
  PyStr.forallb_chars is_letter s = true /\ 1 <= PyStr.len s <= 5.

(** A quantity that every quantity rule accepts for an account. *)
Definition acceptable_quantity (account_config : AccountConfig.t) (q : Decimal) : Prop :=
  (0 < Dval q)%Q /\ (Dval q <= million)%Q /\ -8 <= dexp q /\
  (Dval q <= inject_Z (AccountConfig.max_position_size account_config))%Q.

(** An optional count that is absent or at least [n]. *)
Definition absent_or_at_least (n : Z) (o : option Z) : Prop :=
  match o with Some v => n <= v | None => True end.

(** The signed quantity of a trade: the quantity for a buy, its opposite
    otherwise. *)
Definition signed_quantity (signal : TradeSignal.t) (quantity : Q) : Q :=
  if Action_is (TradeSignal.action signal) BUY then quantity else (- quantity)%Q.

(** The first element of least key: [best] is in the list, every element
    before it has a strictly larger key, and no element after it has a
    strictly smaller one. *)
Definition first_least {A : Type} (key : A -> float) (l : list A) (best : A) : Prop :=
  exists before after,
    l = before ++ best :: after /\
    (forall x, In x before -> PrimFloat.ltb (key best) (key x) = true) /\
    (forall x, In x after -> PrimFloat.ltb (key x) (key best) = false).

(** The exact distance of a strike to the underlying price. *)
Definition exact_distance (current_price : Q) (contract : OptionContract.t) : Q :=
  Qabs' (OptionContract.strike contract - current_price).

(** The relative spread of a bid and an ask as the code computes it, in
    floats. *)
Definition float_spread (bid ask : Q) : float :=
  PrimFloat.div (PrimFloat.sub (float_of_Q ask) (float_of_Q bid)) (float_of_Q ask).

(** ** Sample data *)

(** An account with the default trading settings. *)
Definition sample_account : AccountConfig.t :=
  {| AccountConfig.name := "demo";
     AccountConfig.allow_options_trading := true;
     AccountConfig.allow_short_selling := false;
     AccountConfig.max_position_size := 1000;
     AccountConfig.default_position_size := 100 |}.

Definition sample_position (symbol : string) (quantity market_value : Q) : Position.t :=
  {| Position.account := "U1";
     Position.symbol := symbol;
     Position.quantity := quantity;
     Position.avg_cost := 1;
     Position.market_price := None;
     Position.market_value := Some market_value;
     Position.unrealized_pnl := None;
     Position.realized_pnl := None;
     Position.multiplier := 1;
     Position.delta := None;
     Position.gamma := None;
     Position.theta := None;
     Position.vega := None |}.

(** A position manager with an empty book. *)
Definition empty_book : PositionManager.t :=
  {| PositionManager.account_config := sample_account;
     PositionManager._positions := ∅ |}.

(** A call or a put with a strike, expiring at [expiry], without quotes. *)
Definition sample_contract (option_type : OptionType) (strike : Q) (expiry : datetime)
    : OptionContract.t :=
  {| OptionContract.symbol := "AAPL  250117C00150000";
     OptionContract.underlying_symbol := "AAPL";
     OptionContract.strike := strike;
     OptionContract.expiry := expiry;
     OptionContract.option_type := option_type;
     OptionContract.multiplier := 100;
     OptionContract.bid := None;
     OptionContract.ask := None;
     OptionContract.last := None;
     OptionContract.volume := None;
     OptionContract.open_interest := None;
     OptionContract.delta := None;
     OptionContract.gamma := None;
     OptionContract.theta := None;
     OptionContract.vega := None;
     OptionContract.implied_volatility := None;
     OptionContract.last_price := Missing;
     OptionContract.theoretical_price := Missing |}.

(** The calls of strikes 145, 150 and 155. *)
Definition sample_calls : list OptionContract.t :=
  [sample_contract CALL 145 0; sample_contract CALL 150 0; sample_contract CALL 155 0].

(** Wednesday 2025-01-15, 12:00:00. *)
Definition sample_now : datetime := 20103 * us_per_day + 12 * 3600 * 1000000.

(** A call expiring thirty days after [sample_now] (a Friday), with
    Greeks and without quotes. *)
Definition sample_call_with_greeks : OptionContract.t :=
  {| OptionContract.symbol := "AAPL  250214C00150000";
     OptionContract.underlying_symbol := "AAPL";
     OptionContract.strike := 150;
     OptionContract.expiry := sample_now + 30 * us_per_day;
     OptionContract.option_type := CALL;
     OptionContract.multiplier := 100;
     OptionContract.bid := None;
     OptionContract.ask := None;
     OptionContract.last := None;
     OptionContract.volume := None;
     OptionContract.open_interest := None;
     OptionContract.delta := Some (1 # 2);
     OptionContract.gamma := None;
     OptionContract.theta := Some (- (1 # 100))%Q;
     OptionContract.vega := Some (1 # 10);
     OptionContract.implied_volatility := None;
     OptionContract.last_price := Missing;
     OptionContract.theoretical_price := Missing |}.

Definition sample_trade_signal (action : Action) (quantity : option Q) : TradeSignal.t :=
  {| TradeSignal.signal_id := "sig-1";
     TradeSignal.account_name := "demo";
     TradeSignal.symbol := "AAPL";
     TradeSignal.action := action;
     TradeSignal.quantity := quantity;
     TradeSignal.price := None;
     TradeSignal.stop_price := None;
     TradeSignal.order_type := "market";
     TradeSignal.time_in_force := "day";
     TradeSignal.strategy := None;
     TradeSignal.comment := None |}.

Definition sample_risk_manager : RiskManager.t :=
  {| RiskManager.account_config := sample_account;
     RiskManager.position_manager := empty_book |}.

(** A call quoted 2.40 / 2.60. *)
Definition sample_quoted_call : OptionContract.t :=
  {| OptionContract.symbol := "AAPL  250214C00150000";
     OptionContract.underlying_symbol := "AAPL";
     OptionContract.strike := 150;
     OptionContract.expiry := sample_now + 30 * us_per_day;
     OptionContract.option_type := CALL;
     OptionContract.multiplier := 100;
     OptionContract.bid := Some (240 # 100);
     OptionContract.ask := Some (260 # 100);
     OptionContract.last := None;
     OptionContract.volume := Some 500;
     OptionContract.open_interest := Some 1000;
     OptionContract.delta := None;
     OptionContract.gamma := None;
     OptionContract.theta := None;
     OptionContract.vega := None;
     OptionContract.implied_volatility := None;
     OptionContract.last_price := Missing;
     OptionContract.theoretical_price := Missing |}.

(** A broker that serves every account and whose executions raise for the
    symbol "BAD" and return otherwise; the world counts the executions. *)
Definition sample_execute (trade_signal : TradeSignal.t) (w : nat)
    : outcome string * nat :=
  if String.eqb (TradeSignal.symbol trade_signal) "BAD"
  then (Raised "Option trade execution failed: no option chain available", S w)
  else (Returned "order placed", S w).

Definition sample_queued (signal_id symbol : string) : TradeSignal.t :=
  {| TradeSignal.signal_id := signal_id;
     TradeSignal.account_name := "demo";
     TradeSignal.symbol := symbol;
     TradeSignal.action := ActionStr "buy";
     TradeSignal.quantity := Some 1%Q;
     TradeSignal.price := None;
     TradeSignal.stop_price := None;
     TradeSignal.order_type := "market";
     TradeSignal.time_in_force := "day";
     TradeSignal.strategy := None;
     TradeSignal.comment := None |}.

(** A processor with three queued signals, the second of which fails. *)
Definition sample_processor : SignalProcessor.t nat :=
  {| SignalProcessor._processing_queue :=
       [sample_queued "s1" "AAPL"; sample_queued "s2" "BAD"; sample_queued "s3" "MSFT"];
     SignalProcessor._processing_status :=
       <["s1" := "queued"]> (<["s2" := "queued"]> (<["s3" := "queued"]> ∅));
     SignalProcessor.world := 0%nat |}.

Definition sample_process (self : SignalProcessor.t nat)
    : SignalProcessor.Summary string * SignalProcessor.t nat :=
  SignalProcessor.process_queued_signals nat string
    (fun _ _ => true) (fun _ _ => true)
    sample_execute sample_execute sample_execute self.

(** A long position closed by a sell alert for 10 at 150.25. *)
Definition sample_payload : WebhookRoutes.WebhookSignalPayload :=
  {| WebhookRoutes.account_name := "demo";
     WebhookRoutes.side := WebhookRoutes.side_sell;
     WebhookRoutes.exchange := "NASDAQ";
     WebhookRoutes.period := "5";
     WebhookRoutes.market_position := WebhookRoutes.flat;
     WebhookRoutes.prev_market_position := WebhookRoutes.long;
     WebhookRoutes.symbol := "AAPL";
     WebhookRoutes.price := "150.25";
     WebhookRoutes.timestamp := "1736942400";
     WebhookRoutes.size := "10";
     WebhookRoutes.position_size := "0";
     WebhookRoutes.id := "exit-long";
     WebhookRoutes.alert_message := None;
     WebhookRoutes.comment := None;
     WebhookRoutes.qty_type := WebhookRoutes.fixed |}.

(** A short position reversed to long by a buy alert. *)
Definition sample_reversal : WebhookRoutes.WebhookSignalPayload :=
  {| WebhookRoutes.account_name := "demo";
     WebhookRoutes.side := WebhookRoutes.side_buy;
     WebhookRoutes.exchange := "NASDAQ";
     WebhookRoutes.period := "5";
     WebhookRoutes.market_position := WebhookRoutes.long;
     WebhookRoutes.prev_market_position := WebhookRoutes.short;
     WebhookRoutes.symbol := "AAPL";
     WebhookRoutes.price := "150.25";
     WebhookRoutes.timestamp := "1736942400";
     WebhookRoutes.size := "2.5";
     WebhookRoutes.position_size := "2.5";
     WebhookRoutes.id := "reverse";
     WebhookRoutes.alert_message := None;
     WebhookRoutes.comment := None;
     WebhookRoutes.qty_type := WebhookRoutes.fixed |}.

(** A webhook signal for AAPL with the given action and quantity. *)
Definition sample_signal (action : option string) (quantity : option Decimal)
    : WebhookSignal.t :=
  {| WebhookSignal.signal_id := Some "sig-1";
     WebhookSignal.symbol := Some "AAPL";
     WebhookSignal.action := action;
     WebhookSignal.quantity := quantity;
     WebhookSignal.price := None;
     WebhookSignal.stop_price := None;
     WebhookSignal.order_type := Some "market";
     WebhookSignal.time_in_force := Some "day";
     WebhookSignal.strategy := None;
     WebhookSignal.comment := None |}.

(** A signal without symbol or action, with a zero quantity, a limit
    order without price and an unknown time in force. *)
Definition sample_bad_signal : WebhookSignal.t :=
  {| WebhookSignal.signal_id := None;
     WebhookSignal.symbol := None;
     WebhookSignal.action := Some "";
     WebhookSignal.quantity := Some (mkDecimal 0 0);
     WebhookSignal.price := None;
     WebhookSignal.stop_price := None;
     WebhookSignal.order_type := Some "limit";
     WebhookSignal.time_in_force := Some "forever";
     WebhookSignal.strategy := None;
     WebhookSignal.comment := None |}.

(** A buy stop-limit order for 5 with limit 150 and stop 140. *)
Definition sample_stop_limit : WebhookSignal.t :=
  {| WebhookSignal.signal_id := Some "sig-2";
     WebhookSignal.symbol := Some "AAPL";
     WebhookSignal.action := Some "buy";
     WebhookSignal.quantity := Some (mkDecimal 5 0);
     WebhookSignal.price := Some (mkDecimal 150 0);
     WebhookSignal.stop_price := Some (mkDecimal 140 0);
     WebhookSignal.order_type := Some "stop_limit";
     WebhookSignal.time_in_force := Some "day";
     WebhookSignal.strategy := None;
     WebhookSignal.comment := None |}.

(** A processor with nothing queued and nothing tracked. *)
Definition idle_processor : SignalProcessor.t nat :=
  {| SignalProcessor._processing_queue := [];
     SignalProcessor._processing_status := ∅;
     SignalProcessor.world := 0%nat |}.

(** A risk manager whose book holds one position with an unrealized loss
    of 6000. *)
Definition losing_risk_manager : RiskManager.t :=
  {| RiskManager.account_config := sample_account;
     RiskManager.position_manager :=
       PositionManager.update_positions empty_book
         [{| Position.account := "U1";
             Position.symbol := "AAPL  250214C00150000";
             Position.quantity := 10;
             Position.avg_cost := 8;
             Position.market_price := Some 2%Q;
             Position.market_value := Some 2000%Q;
             Position.unrealized_pnl := Some (- 6000)%Q;
             Position.realized_pnl := None;
             Position.multiplier := 100;
             Position.delta := None;
             Position.gamma := None;
             Position.theta := None;
             Position.vega := None |}] |}.

(** A call with a bid of 2.40 and no ask. *)
Definition one_sided_call : OptionContract.t :=
  {| OptionContract.symbol := "AAPL  250214C00150000";
     OptionContract.underlying_symbol := "AAPL";
     OptionContract.strike := 150;
     OptionContract.expiry := sample_now + 30 * us_per_day;
     OptionContract.option_type := CALL;
     OptionContract.multiplier := 100;
     OptionContract.bid := Some (240 # 100);
     OptionContract.ask := None;
     OptionContract.last := Some (250 # 100);
     OptionContract.volume := Some 500;
     OptionContract.open_interest := Some 1000;
     OptionContract.delta := None;
     OptionContract.gamma := None;
     OptionContract.theta := None;
     OptionContract.vega := None;
     OptionContract.implied_volatility := None;
     OptionContract.last_price := Missing;
     OptionContract.theoretical_price := Missing |}.

(** Two calls whose strikes, 150.00000000000000002 and
    150.00000000000000001, both become the float 150.0. *)
Definition far_call : OptionContract.t :=
  sample_contract CALL (15000000000000000002 # 100000000000000000) 0.

Definition near_call : OptionContract.t :=
  sample_contract CALL (15000000000000000001 # 100000000000000000) 0.

(** A call quoted at a bid and an ask. *)
Definition quoted_call (bid ask : Q) : OptionContract.t :=
  {| OptionContract.symbol := "AAPL  250214C00150000";
     OptionContract.underlying_symbol := "AAPL";
     OptionContract.strike := 150;
     OptionContract.expiry := sample_now + 30 * us_per_day;
     OptionContract.option_type := CALL;
     OptionContract.multiplier := 100;
     OptionContract.bid := Some bid;
     OptionContract.ask := Some ask;
     OptionContract.last := None;
     OptionContract.volume := Some 500;
     OptionContract.open_interest := Some 1000;
     OptionContract.delta := Some (1 # 2);
     OptionContract.gamma := None;
     OptionContract.theta := Some (- (1 # 100))%Q;
     OptionContract.vega := Some (1 # 10);
     OptionContract.implied_volatility := None;
     OptionContract.last_price := Missing;
     OptionContract.theoretical_price := Missing |}.

(** An account whose maximum position size, 150, is below twice its
    default position size, 100, and a position manager for it, with an
    empty book. *)
Definition tight_account : AccountConfig.t :=
  {| AccountConfig.name := "tight";
     AccountConfig.allow_options_trading := true;
     AccountConfig.allow_short_selling := false;
     AccountConfig.max_position_size := 150;
     AccountConfig.default_position_size := 100 |}.

Definition tight_book : PositionManager.t :=
  {| PositionManager.account_config := tight_account;
     PositionManager._positions := ∅ |}.

(** The closing alert with a size that reads as a NaN. *)
Definition nan_size_payload : WebhookRoutes.WebhookSignalPayload :=
  {| WebhookRoutes.account_name := "demo";
     WebhookRoutes.side := WebhookRoutes.side_sell;
     WebhookRoutes.exchange := "NASDAQ";
     WebhookRoutes.period := "5";
     WebhookRoutes.market_position := WebhookRoutes.flat;
     WebhookRoutes.prev_market_position := WebhookRoutes.long;
     WebhookRoutes.symbol := "AAPL";
     WebhookRoutes.price := "150.25";
     WebhookRoutes.timestamp := "1736942400";
     WebhookRoutes.size := "NaN";
     WebhookRoutes.position_size := "0";
     WebhookRoutes.id := "exit-long";
     WebhookRoutes.alert_message := None;
     WebhookRoutes.comment := None;
     WebhookRoutes.qty_type := WebhookRoutes.fixed |}.

(** * Properties *)

(** ** Boolean comparisons of rationals *)

Lemma Qltb_lt (a b : Q) : Qltb a b = true <-> (a < b)%Q.
Proof.
  unfold Qltb. rewrite negb_true_iff.
  split; intros H.
  - apply Qnot_le_lt. intros Hle. apply Qle_bool_iff in Hle. congruence.
  - destruct (Qle_bool b a) eqn:E; [|reflexivity].
    apply Qle_bool_iff in E. exfalso. exact (Qlt_not_le _ _ H E).
Qed.

Lemma Qltb_ge (a b : Q) : Qltb a b = false <-> (b <= a)%Q.
Proof.
  unfold Qltb. rewrite negb_false_iff. apply Qle_bool_iff.
Qed.

Lemma Qleb_le (a b : Q) : Qleb a b = true <-> (a <= b)%Q.
Proof. apply Qle_bool_iff. Qed.

Lemma Qleb_gt (a b : Q) : Qleb a b = false <-> (b < a)%Q.
Proof.
  unfold Qleb. split; intros H.
  - apply Qnot_le_lt. intros Hle. apply Qle_bool_iff in Hle. congruence.
  - destruct (Qle_bool a b) eqn:E; [|reflexivity].
    apply Qle_bool_iff in E. exfalso. exact (Qlt_not_le _ _ H E).
Qed.

Lemma Qabs'_nonneg (a : Q) : (0 <= Qabs' a)%Q.
Proof.
  unfold Qabs'. destruct (Qle_bool 0 a) eqn:E.
  - now apply Qle_bool_iff.
  - apply Qleb_gt in E. apply Qlt_le_weak in E.
    apply (Qopp_le_compat a 0) in E. exact E.
Qed.

Lemma py_min_le_l (a b : Q) : (py_min a b <= a)%Q.
Proof.
  unfold py_min. destruct (Qltb b a) eqn:E.
  - apply Qltb_lt in E. now apply Qlt_le_weak.
  - apply Qle_refl.
Qed.

Lemma py_min_le_r (a b : Q) : (py_min a b <= b)%Q.
Proof.
  unfold py_min. destruct (Qltb b a) eqn:E.
  - apply Qle_refl.
  - now apply Qltb_ge in E.
Qed.

Lemma py_min_eq (a b : Q) : (py_min a b == Qmin a b)%Q.
Proof.
  unfold py_min. destruct (Qltb b a) eqn:E.
  - apply Qltb_lt in E. symmetry. apply Q.min_r. now apply Qlt_le_weak.
  - apply Qltb_ge in E. symmetry. now apply Q.min_l.
Qed.

Lemma py_max_ge_l (a b : Q) : (a <= py_max a b)%Q.
Proof.
  unfold py_max. destruct (Qltb a b) eqn:E.
  - apply Qltb_lt in E. now apply Qlt_le_weak.
  - apply Qle_refl.
Qed.

Lemma py_max_ge_r (a b : Q) : (b <= py_max a b)%Q.
Proof.
  unfold py_max. destruct (Qltb a b) eqn:E.
  - apply Qle_refl.
  - now apply Qltb_ge in E.
Qed.

Lemma py_max_eq (a b : Q) : (py_max a b == Qmax a b)%Q.
Proof.
  unfold py_max. destruct (Qltb a b) eqn:E.
  - apply Qltb_lt in E. symmetry. apply Q.max_r. now apply Qlt_le_weak.
  - apply Qltb_ge in E. symmetry. now apply Q.max_l.
Qed.

Lemma py_max_lub (a b c : Q) : (a <= c)%Q -> (b <= c)%Q -> (py_max a b <= c)%Q.
Proof. intros Ha Hb. unfold py_max. now destruct (Qltb a b). Qed.

(** ** SignalValidator *)

Section SignalValidatorFacts.
Import AccountConfig WebhookSignal SignalValidator.

Lemma length_eqb_nil {A : Type} (l : list A) :
  (length l =? 0)%nat = true <-> l = [].
Proof.
  destruct l; simpl; split; intros H; try reflexivity; discriminate.
Qed.

(** The checks of [validate_signal] raise nothing, so its errors are
    those of the seven checks, one after the other. *)
Lemma validate_signal_errors now_hour signal account_config :
  errors (validate_signal now_hour signal account_config) =
    _validate_required_fields signal ++
    _validate_symbol_format (symbol signal) ++
    _validate_action (action signal) ++
    _validate_quantities signal ++
    _validate_prices signal ++
    _validate_order_parameters signal ++
    _validate_against_account_config signal account_config.
Proof.
  unfold validate_signal, validate_signal_with, error_checks. simpl.
  rewrite <- !app_assoc. reflexivity.
Qed.

Lemma validate_signal_is_valid now_hour signal account_config :
  is_valid (validate_signal now_hour signal account_config) =
    (length (errors (validate_signal now_hour signal account_config)) =? 0)%nat.
Proof. reflexivity. Qed.

Lemma required_symbol signal :
  blank (symbol signal) -> In SymbolRequired (_validate_required_fields signal).
Proof.
  unfold blank, _validate_required_fields. intros H.
  apply in_or_app. left.
  destruct (symbol signal) as [s|]; [|now left].
  rewrite H. simpl. rewrite orb_true_r. now left.
Qed.

Lemma required_action signal :
  blank (action signal) -> In ActionRequired (_validate_required_fields signal).
Proof.
  unfold blank, _validate_required_fields. intros H.
  apply in_or_app. right.
  destruct (action signal) as [s|]; [|now left].
  rewrite H. simpl. rewrite orb_true_r. now left.
Qed.

Lemma in_errors_not_valid now_hour signal account_config e :
  In e (errors (validate_signal now_hour signal account_config)) ->
  is_valid (validate_signal now_hour signal account_config) = false.
Proof.
  rewrite validate_signal_is_valid.
  destruct (errors (validate_signal now_hour signal account_config)); simpl.
  - intros [].
  - reflexivity.
Qed.

(** C2. A signal whose symbol (respectively action) is missing or empty
    is invalid and carries "Symbol is required and cannot be empty"
    (respectively "Action is required and cannot be empty"); and the
    returned errors are all the errors of all the checks, in the order of
    the checks: no check is skipped because an earlier one failed. *)
Theorem validate_signal_required_and_accumulates :
  forall (now_hour : Z) (signal : WebhookSignal.t) (account_config : AccountConfig.t),
    let r := validate_signal now_hour signal account_config in
    (blank (symbol signal) -> is_valid r = false /\ In SymbolRequired (errors r)) /\
    (blank (action signal) -> is_valid r = false /\ In ActionRequired (errors r)) /\
    errors r =
      _validate_required_fields signal ++
      _validate_symbol_format (symbol signal) ++
      _validate_action (action signal) ++
      _validate_quantities signal ++
      _validate_prices signal ++
      _validate_order_parameters signal ++
      _validate_against_account_config signal account_config /\
    (forall e,
        In e (_validate_required_fields signal) \/
        In e (_validate_symbol_format (symbol signal)) \/
        In e (_validate_action (action signal)) \/
        In e (_validate_quantities signal) \/
        In e (_validate_prices signal) \/
        In e (_validate_order_parameters signal) \/
        In e (_validate_against_account_config signal account_config) ->
        In e (errors r)).
Proof.
  intros now_hour signal account_config r.
  assert (Hsym : blank (symbol signal) -> In SymbolRequired (errors r)).
  { intros H. unfold r. rewrite validate_signal_errors.
    apply in_or_app. left. now apply required_symbol. }
  assert (Hact : blank (action signal) -> In ActionRequired (errors r)).
  { intros H. unfold r. rewrite validate_signal_errors.
    apply in_or_app. left. now apply required_action. }
  repeat split.
  - eapply in_errors_not_valid. apply Hsym, H.
  - apply Hsym, H.
  - eapply in_errors_not_valid. apply Hact, H.
  - apply Hact, H.
  - apply validate_signal_errors.
  - intros e H. unfold r. rewrite validate_signal_errors.
    rewrite !in_app_iff. tauto.
Qed.

End SignalValidatorFacts.

Section QuantityFacts.
Import AccountConfig WebhookSignal SignalValidator.

Lemma quantities_nonpositive signal q :
  quantity signal = Some q -> (Dval q <= 0)%Q ->
  In QuantityNotPositive (_validate_quantities signal).
Proof.
  intros Hq Hle. unfold _validate_quantities. rewrite Hq.
  apply Qleb_le in Hle. rewrite Hle. now left.
Qed.

Lemma quantities_too_large signal q :
  quantity signal = Some q -> (million < Dval q)%Q ->
  In QuantityTooLarge (_validate_quantities signal).
Proof.
  intros Hq Hlt. unfold _validate_quantities. rewrite Hq.
  apply Qltb_lt in Hlt. rewrite Hlt.
  apply in_or_app. right. now left.
Qed.

Lemma quantities_pass signal q :
  quantity signal = Some q ->
  (0 < Dval q)%Q -> (Dval q <= million)%Q -> -8 <= dexp q ->
  _validate_quantities signal = [].
Proof.
  intros Hq Hpos Hmax Hexp. unfold _validate_quantities. rewrite Hq.
  apply Qleb_gt in Hpos. apply Qltb_ge in Hmax.
  rewrite Hpos, Hmax.
  destruct (dexp q <? -8) eqn:E; [apply Z.ltb_lt in E; lia | reflexivity].
Qed.

(** C3. For a signal with quantity [q]: when [q <= 0] or [q > 1,000,000]
    the validation returns a quantity error ("Quantity must be positive"
    or "Quantity is too large (max 1,000,000)") and the signal is invalid;
    when [0 < q <= 1,000,000] and [q] has at most 8 fractional digits (its
    exponent is at least -8) the quantity check returns no error. *)
Theorem validate_quantities_range :
  forall (now_hour : Z) (signal : WebhookSignal.t) (account_config : AccountConfig.t)
         (q : Decimal),
    quantity signal = Some q ->
    let r := validate_signal now_hour signal account_config in
    ((Dval q <= 0)%Q ->
       In QuantityNotPositive (errors r) /\ is_valid r = false) /\
    ((million < Dval q)%Q ->
       In QuantityTooLarge (errors r) /\ is_valid r = false) /\
    ((0 < Dval q)%Q -> (Dval q <= million)%Q -> -8 <= dexp q ->
       _validate_quantities signal = []).
Proof.
  intros now_hour signal account_config q Hq r.
  assert (Hin : forall e, In e (_validate_quantities signal) -> In e (errors r)).
  { intros e He. unfold r. rewrite validate_signal_errors.
    rewrite !in_app_iff. tauto. }
  repeat split.
  - apply Hin. now apply (quantities_nonpositive signal q).
  - eapply in_errors_not_valid. apply Hin.
    now apply (quantities_nonpositive signal q).
  - apply Hin. now apply (quantities_too_large signal q).
  - eapply in_errors_not_valid. apply Hin.
    now apply (quantities_too_large signal q).
  - intros. now apply (quantities_pass signal q).
Qed.

End QuantityFacts.

Section ValidatorTotality.
Import AccountConfig WebhookSignal SignalValidator.

Lemma run_checks_app checks errors :
  exists more, fst (run_checks checks errors) = errors ++ more.
Proof.
  revert errors. induction checks as [|[es|e] rest IH]; intros errors; simpl.
  - exists []. now rewrite app_nil_r.
  - destruct (IH (errors ++ es)) as [more Hmore].
    exists (es ++ more). now rewrite Hmore, app_assoc.
  - exists []. now rewrite app_nil_r.
Qed.

(** The first exception of the [try] block, if any. *)
Lemma validate_signal_with_raised checks wcheck signal e :
  snd (run_checks checks []) = Some e \/
  (snd (run_checks checks []) = None /\ wcheck = Raised e) ->
  errors (validate_signal_with checks wcheck signal) =
    fst (run_checks checks []) ++ [ValidationError e].
Proof.
  unfold validate_signal_with.
  destruct (run_checks checks []) as [errs [e'|]]; simpl.
  - intros [H|[H _]]; [|discriminate]. now injection H as ->.
  - intros [H|[_ H]]; [discriminate|]. now rewrite H.
Qed.

Lemma validate_signal_with_valid checks wcheck signal :
  is_valid (validate_signal_with checks wcheck signal) = true <->
  errors (validate_signal_with checks wcheck signal) = [].
Proof.
  unfold validate_signal_with.
  destruct (run_checks checks []) as [errs [e|]];
    [|destruct wcheck as [ws|e]]; simpl; apply length_eqb_nil.
Qed.

(** C9. [validate_signal] is a total function: it returns a result for
    every signal and configuration, and in the result [is_valid] holds
    exactly when the errors are empty.  The same holds of its [try] block
    and handler whatever the checks do: when a check raises [e], the result
    is still returned, its errors are those accumulated so far followed by
    "Validation error: e", and it is invalid. *)
Theorem validate_signal_total :
  forall (now_hour : Z) (signal : WebhookSignal.t) (account_config : AccountConfig.t),
    (exists r, validate_signal now_hour signal account_config = r /\
               (is_valid r = true <-> errors r = [])) /\
    (forall (checks : list (outcome (list verror)))
            (wcheck : outcome (list vwarning)),
        let r := validate_signal_with checks wcheck signal in
        (is_valid r = true <-> errors r = []) /\
        (forall e,
            snd (run_checks checks []) = Some e \/
            (snd (run_checks checks []) = None /\ wcheck = Raised e) ->
            errors r = fst (run_checks checks []) ++ [ValidationError e] /\
            is_valid r = false)).
Proof.
  intros now_hour signal account_config. split.
  - eexists. split; [reflexivity|].
    apply validate_signal_with_valid.
  - intros checks wcheck r. split.
    + apply validate_signal_with_valid.
    + intros e He.
      pose proof (validate_signal_with_raised checks wcheck signal e He) as Herr.
      split; [exact Herr|].
      destruct (is_valid r) eqn:Ev; [|reflexivity].
      apply validate_signal_with_valid in Ev. unfold r in Ev.
      rewrite Ev in Herr. now destruct (fst (run_checks checks [])).
Qed.

End ValidatorTotality.

(** ** PositionManager *)

Section PositionManagerFacts.
Import PositionManager.

Lemma Qltb_compat (a a' b b' : Q) :
  (a == a')%Q -> (b == b')%Q -> Qltb a b = Qltb a' b'.
Proof. intros Ha Hb. unfold Qltb. now rewrite Ha, Hb. Qed.

(** The shortcut of [decimal_overflows] is sound: [2 ^ 3000000] is
    [8 ^ 1000000]. *)
Lemma two_pow_le_limit : 2 ^ 3000000 <= 10 ^ 1000000.
Proof.
  change 3000000 with (3 * 1000000). rewrite Z.pow_mul_r by lia.
  apply Z.pow_le_mono_l. lia.
Qed.

Lemma Qabs'_num_den (x : Q) :
  Qnum (Qabs' x) = Z.abs (Qnum x) /\ Qden (Qabs' x) = Qden x.
Proof.
  unfold Qabs', Qle_bool. destruct x as [n d]. cbn [Qnum Qden].
  rewrite Z.mul_1_r, Z.mul_0_l.
  destruct (0 <=? n) eqn:En; cbn [Qnum Qden Qopp]; split; try reflexivity.
  - apply Z.leb_le in En. lia.
  - apply Z.leb_gt in En. lia.
Qed.

(** The test of [decimal_overflows], for any limit that is at least
    [2 ^ bits]. *)
Lemma overflow_test_spec (bits large : Z) (x : Q) :
  0 <= bits -> 2 ^ bits <= large ->
  (if Z.log2 (Z.abs (Qnum x)) <? bits then false
   else Qleb (inject_Z large) (Qabs' x)) = true <->
  (inject_Z large <= Qabs' x)%Q.
Proof.
  intros Hbits Hp.
  destruct (Z.log2 (Z.abs (Qnum x)) <? bits) eqn:E; [|apply Qleb_le].
  split; [intros H; discriminate H|]. intros H. exfalso.
  apply Z.ltb_lt in E.
  assert (Hnum : Z.abs (Qnum x) < 2 ^ bits).
  { destruct (Z.eq_dec (Z.abs (Qnum x)) 0) as [->|Hne].
    - now apply Z.pow_pos_nonneg.
    - apply Z.log2_lt_pow2; [lia|exact E]. }
  destruct (Qabs'_num_den x) as [Hn Hd].
  unfold Qle in H. rewrite Hn, Hd in H. cbn [Qnum Qden inject_Z] in H.
  rewrite Z.mul_1_r in H. nia.
Qed.

(** A value overflows when its magnitude reaches [10 ^ 1000000]. *)
Lemma decimal_overflows_spec (x : Q) :
  decimal_overflows x = true <-> (inject_Z (10 ^ 1000000) <= Qabs' x)%Q.
Proof.
  exact (overflow_test_spec 3000000 (10 ^ 1000000) x
           (Pos2Z.is_nonneg _) two_pow_le_limit).
Qed.

Section Sizing.
Variable account_config : AccountConfig.t.
Variables signal_quantity risk_percentage : Q.

Local Abbreviation limit :=
  (inject_Z (AccountConfig.max_position_size account_config)).
Local Abbreviation default_size :=
  (inject_Z (AccountConfig.default_position_size account_config)).

(** The quantity before the risk cap, as the code computes it. *)
Local Abbreviation sized :=
  (if Qltb (default_size * 2) (py_min signal_quantity limit) then default_size
   else py_min signal_quantity limit).

Lemma sized_eq :
  (sized ==
   (if Qltb (default_size * 2) (Qmin signal_quantity limit) then default_size
    else Qmin signal_quantity limit))%Q.
Proof.
  rewrite (Qltb_compat (default_size * 2) (default_size * 2)
             (py_min signal_quantity limit) (Qmin signal_quantity limit));
    [|reflexivity|apply py_min_eq].
  destruct (Qltb (default_size * 2) _); [reflexivity|apply py_min_eq].
Qed.

Lemma sized_le_limit :
  1 <= AccountConfig.max_position_size account_config -> (sized <= limit)%Q.
Proof.
  intros Hlimit.
  destruct (Qltb (default_size * 2) _) eqn:E; [|apply py_min_le_r].
  apply Qltb_lt in E.
  pose proof (py_min_le_r signal_quantity limit) as Hmin.
  pose proof (Qlt_le_trans _ _ _ E Hmin) as H2.
  rewrite <- Zle_Qle. unfold Qlt in H2. simpl in H2. lia.
Qed.

Lemma floor_le_limit (x : Q) :
  1 <= AccountConfig.max_position_size account_config ->
  (x <= limit)%Q -> (py_max x 1 <= limit)%Q.
Proof.
  intros Hlimit Hx. apply py_max_lub; [exact Hx|].
  unfold Qle. simpl. lia.
Qed.

(** When the arithmetic stays in range the [try] block returns, and what
    it returns is the quantity of [sizing_steps], within the bounds. *)
Lemma sizing_try_returns (portfolio_value : special Q) :
  sizing_in_range default_size portfolio_value risk_percentage ->
  exists s,
    sizing_try account_config portfolio_value signal_quantity risk_percentage =
      Returned s /\
    (s == sizing_steps limit default_size portfolio_value risk_percentage
            signal_quantity)%Q /\
    (1 <= s)%Q /\
    (1 <= AccountConfig.max_position_size account_config -> (s <= limit)%Q).
Proof.
  intros [Htwice Hcap].
  unfold sizing_try, decimal_mul, sizing_steps. rewrite Htwice.
  pose proof sized_eq as Hs. pose proof sized_le_limit as Hl.
  set (code_sized := if Qltb (default_size * 2) (py_min signal_quantity limit)
                     then default_size else py_min signal_quantity limit) in *.
  set (sized' := if Qltb (default_size * 2) (Qmin signal_quantity limit)
                 then default_size else Qmin signal_quantity limit) in *.
  clearbody code_sized sized'.
  assert (Hfloor : exists s,
            Returned (py_max code_sized 1) = Returned s /\
            (s == Qmax sized' 1)%Q /\ (1 <= s)%Q /\
            (1 <= AccountConfig.max_position_size account_config ->
             (s <= limit)%Q)).
  { eexists. split; [reflexivity|]. split; [|split].
    - rewrite py_max_eq. now apply Q.max_compat.
    - apply py_max_ge_r.
    - intros H. apply floor_le_limit; auto. }
  destruct portfolio_value as [v|[|]|]; cbn [float_positive negb];
    try exact Hfloor.
  - destruct (Qltb 0 v) eqn:Ev; [|exact Hfloor].
    apply Qltb_lt in Ev. destruct (Hcap Ev) as [H1 H2].
    cbn [special_mul]. unfold decimal_mul. rewrite H1.
    cbn [special_mul]. unfold decimal_mul. rewrite H2.
    cbn [special_div cap_and_floor].
    eexists. split; [reflexivity|]. split; [|split].
    + rewrite py_max_eq. apply Q.max_compat; [|reflexivity].
      rewrite py_min_eq. apply Q.min_compat; [exact Hs|reflexivity].
    + apply py_max_ge_r.
    + intros H. apply floor_le_limit; [exact H|].
      eapply Qle_trans; [apply py_min_le_l|exact (Hl H)].
  - cbn [special_mul].
    destruct (Qeq_bool risk_percentage 0) eqn:Er.
    { apply Qeq_bool_iff in Er. contradiction. }
    cbn [special_mul xorb].
    change (Qeq_bool 10 0) with false. change (Qltb 10 0) with false.
    cbn [special_div]. change (Qltb 5 0) with false.
    destruct (Qltb risk_percentage 0); cbn [xorb cap_and_floor].
    + eexists. split; [reflexivity|]. split; [reflexivity|]. split.
      * apply Qle_refl.
      * intros H. unfold Qle. simpl. lia.
    + exact Hfloor.
Qed.

End Sizing.

(** C5. When the arithmetic of the sizing stays within the decimal
    context, [suggest_position_sizing] returns, whatever the portfolio
    value is, a quantity that is never below 1 and, when the account's
    [max_position_size] is at least 1, never above it; and it is the
    quantity of the algorithm: the request clamped to
    [max_position_size], collapsed to [default_position_size] when the
    clamped request exceeds twice the default, capped by
    [(portfolio_value * risk_pct * 10) / 5] when the portfolio value is
    positive, and floored at 1. *)
Theorem suggest_position_sizing_bounds :
  forall (account_config : AccountConfig.t) (portfolio_value : special Q)
         (signal_quantity risk_percentage : Q),
    let limit := AccountConfig.max_position_size account_config in
    let default_size := AccountConfig.default_position_size account_config in
    sizing_in_range (inject_Z default_size) portfolio_value risk_percentage ->
    let s := suggest_position_sizing_at account_config portfolio_value
               signal_quantity risk_percentage in
    (1 <= s)%Q /\
    (1 <= limit -> (s <= inject_Z limit)%Q) /\
    (s == sizing_steps (inject_Z limit) (inject_Z default_size)
            portfolio_value risk_percentage signal_quantity)%Q.
Proof.
  intros account_config portfolio_value q r limit default_size Hrange s.
  destruct (sizing_try_returns account_config q r portfolio_value Hrange)
    as (s' & Hret & Heq & Hfloor & Hlimit).
  assert (Hs : s = s').
  { unfold s, suggest_position_sizing_at. now rewrite Hret. }
  rewrite Hs. auto.
Qed.

(** The sizing of a position manager is that sizing at the total market
    value of its book. *)
Lemma suggest_position_sizing_unfold self symbol q r :
  suggest_position_sizing self symbol q r =
  suggest_position_sizing_at (account_config self)
    (Finite (total_market_value (calculate_portfolio_metrics self))) q r.
Proof. reflexivity. Qed.

(** A value whose numerator is short is in range. *)
Lemma decimal_in_range (x : Q) :
  Z.log2 (Z.abs (Qnum x)) < 3000000 -> decimal_overflows x = false.
Proof.
  intros H. unfold decimal_overflows. apply Z.ltb_lt in H. now rewrite H.
Qed.

(** [suggest_position_sizing_at] for a finite portfolio value, branch by
    branch: the request as it came when a product overflows. *)
Lemma suggest_position_sizing_at_finite account_config v q r :
  let limit := inject_Z (AccountConfig.max_position_size account_config) in
  let default_size := inject_Z (AccountConfig.default_position_size account_config) in
  let sized := if Qltb (default_size * 2) (py_min q limit) then default_size
               else py_min q limit in
  suggest_position_sizing_at account_config (Finite v) q r =
  if decimal_overflows (default_size * 2) then q
  else if Qltb 0 v then
         if decimal_overflows (v * r) then q
         else if decimal_overflows (v * r * 10) then q
              else py_max (py_min sized (v * r * 10 / 5)) 1
       else py_max sized 1.
Proof.
  intros limit default_size sized.
  unfold suggest_position_sizing_at, sizing_try, decimal_mul.
  fold limit default_size.
  destruct (decimal_overflows (default_size * 2)); [reflexivity|].
  fold sized. cbn [float_positive].
  destruct (Qltb 0 v); [|reflexivity].
  cbn [special_mul]. unfold decimal_mul.
  destruct (decimal_overflows (v * r)); [reflexivity|].
  cbn [special_mul]. unfold decimal_mul.
  destruct (decimal_overflows (v * r * 10)); reflexivity.
Qed.

End PositionManagerFacts.

Section PositionManagerExamples.
Import PositionManager.

Example sizing_collapses_to_default :
  (suggest_position_sizing empty_book "AAPL" 5000 default_risk_percentage == 100)%Q.
Proof. vm_compute. reflexivity. Qed.

Example sizing_keeps_small_request :
  (suggest_position_sizing empty_book "AAPL" 1 default_risk_percentage == 1)%Q.
Proof. vm_compute. reflexivity. Qed.

(** With a portfolio worth 100 the risk cap is [100 * 0.02 * 10 / 5 = 4]. *)
Example sizing_risk_cap :
  (suggest_position_sizing
     (update_positions empty_book [sample_position "AAPL" 1 100])
     "AAPL" 50 default_risk_percentage == 4)%Q.
Proof. vm_compute. reflexivity. Qed.

(** An infinite portfolio value caps nothing. *)
Example sizing_infinite_portfolio :
  (suggest_position_sizing_at sample_account (Inf false) 50
     default_risk_percentage == 50)%Q.
Proof. vm_compute. reflexivity. Qed.

(** A request of 5000 against an account limit of 1000 gives at most
    1000; a request of 1 gives at least 1. *)
Lemma suggest_position_sizing_bounds_witness :
  (suggest_position_sizing empty_book "AAPL" 5000 default_risk_percentage <= 1000)%Q /\
  (1 <= suggest_position_sizing empty_book "AAPL" 1 default_risk_percentage)%Q.
Proof.
  assert (Hrange : sizing_in_range
                     (inject_Z (AccountConfig.default_position_size sample_account))
                     (Finite 0%Q) default_risk_percentage).
  { split; [reflexivity|]. intros H. discriminate H. }
  split.
  - apply (proj1 (proj2 (suggest_position_sizing_bounds
                           sample_account (Finite 0%Q) 5000
                           default_risk_percentage Hrange))).
    simpl. lia.
  - apply (proj1 (suggest_position_sizing_bounds
                    sample_account (Finite 0%Q) 1
                    default_risk_percentage Hrange)).
Defined.

(** A request of 5000 exceeds twice the default size of [tight_account],
    100; the code clamps it to the limit, 150, which does not exceed 200,
    and so keeps 150, where the algorithm of the specification collapses
    to 100. *)
Lemma suggest_position_sizing_not_spec :
  let s := suggest_position_sizing tight_book "AAPL" 5000 default_risk_percentage in
  (s == 150)%Q /\
  (sizing_spec 150 100 (total_market_value (calculate_portfolio_metrics tight_book))
     default_risk_percentage 5000 == 100)%Q /\
  ~ (s == sizing_spec 150 100
            (total_market_value (calculate_portfolio_metrics tight_book))
            default_risk_percentage 5000)%Q.
Proof.
  split; [vm_compute; reflexivity|]. split; [vm_compute; reflexivity|].
  vm_compute. discriminate.
Qed.

(** When the risk percentage is so large that the first product of the
    risk cap overflows, the handler returns the request as it came: one
    half stays one half, below the floor of 1, and 5000 stays 5000, above
    the limit of 1000. *)
Lemma sizing_overflow_returns_request (q r : Q) :
  (inject_Z (10 ^ 1000000) <= r)%Q ->
  suggest_position_sizing_at sample_account (Finite 100000%Q) q r = q.
Proof.
  intros Hr.
  assert (Hov : decimal_overflows (100000 * r) = true).
  { apply decimal_overflows_spec.
    set (large := inject_Z (10 ^ 1000000)) in *.
    assert (Hpos : (0 <= large)%Q).
    { unfold large. rewrite <- (Zle_Qle 0). apply Z.pow_nonneg. lia. }
    clearbody large.
    unfold Qabs'. destruct (Qle_bool 0 (100000 * r)) eqn:E.
    - lra.
    - assert (H : ~ (0 <= 100000 * r)%Q).
      { intros H. apply Qle_bool_iff in H. congruence. }
      lra. }
  rewrite suggest_position_sizing_at_finite. cbv zeta.
  change (decimal_overflows
            (inject_Z (AccountConfig.default_position_size sample_account) * 2))
    with false.
  change (Qltb 0 100000) with true. cbv iota. now rewrite Hov.
Qed.

End PositionManagerExamples.

Section UpdatePositionsFacts.
Import PositionManager.

Lemma update_positions_fold self positions :
  _positions (update_positions self positions) = fold_left store positions ∅.
Proof. reflexivity. Qed.

(** An entry of the book after the loop was stored by the loop or was
    there before it. *)
Lemma fold_store_lookup positions (book : gmap string Position.t) symbol p :
  fold_left store positions book !! symbol = Some p ->
  (In p positions /\ Position.symbol p = symbol /\
   PyStr.truthy symbol = true) \/
  book !! symbol = Some p.
Proof.
  revert book. induction positions as [|x xs IH]; intros book; simpl.
  - now right.
  - intros H. destruct (IH _ H) as [(Hin & Hs & Ht)|Hb].
    + left. auto.
    + unfold store in Hb. destruct (PyStr.truthy (Position.symbol x)) eqn:Et.
      * rewrite lookup_insert in Hb. case_decide as Hk.
        -- injection Hb as <-. left. subst symbol. auto.
        -- now right.
      * now right.
Qed.

(** A position of the list with a non-empty symbol leaves an entry
    under its symbol. *)
Lemma fold_store_is_Some positions (book : gmap string Position.t) symbol :
  is_Some (book !! symbol) \/
  (exists p, In p positions /\ Position.symbol p = symbol /\
             PyStr.truthy symbol = true) ->
  is_Some (fold_left store positions book !! symbol).
Proof.
  revert book. induction positions as [|x xs IH]; intros book; simpl.
  - intros [H|(p & [] & _)]. exact H.
  - intros [H|(p & [->|Hin] & Hs & Ht)]; apply IH.
    + left. unfold store. destruct (PyStr.truthy (Position.symbol x)); [|exact H].
      rewrite lookup_insert. case_decide; [now eexists|exact H].
    + left. unfold store. rewrite Hs, Ht. rewrite lookup_insert_eq. now eexists.
    + right. exists p. auto.
Qed.

End UpdatePositionsFacts.

Section UpdatePositionsSnapshot.
Import PositionManager.

Lemma in_get_all_positions self p :
  In p (get_all_positions self) <->
  exists symbol, _positions self !! symbol = Some p.
Proof.
  unfold get_all_positions. rewrite <- list_elem_of_In, list_elem_of_fmap.
  split.
  - intros [[k v] [-> Hkv]]. exists k. now apply elem_of_map_to_list in Hkv.
  - intros [k Hk]. exists (k, p). split; [reflexivity|].
    now apply elem_of_map_to_list.
Qed.

(** C8. [update_positions] replaces the whole book: the book after the
    call is the same whatever the book before it was; every position it
    tracks is a position of the argument list, under its own symbol (so a
    position held before survives only if the list has it); a symbol
    that no position of the list bears is not tracked any more; and every
    position of the list with a non-empty symbol has its symbol
    tracked. *)
Theorem update_positions_replaces_book :
  forall (self other : PositionManager.t) (positions : list Position.t),
    let after := update_positions self positions in
    _positions after = _positions (update_positions other positions) /\
    (forall symbol p,
        get_position after symbol = Some p ->
        In p positions /\ Position.symbol p = symbol) /\
    (forall p, In p (get_all_positions after) -> In p positions) /\
    (forall symbol,
        (forall p, In p positions -> Position.symbol p <> symbol) ->
        get_position after symbol = None) /\
    (forall p,
        In p positions -> PyStr.truthy (Position.symbol p) = true ->
        is_Some (get_position after (Position.symbol p))).
Proof.
  intros self other positions after.
  assert (Hlookup : forall symbol p,
             get_position after symbol = Some p ->
             In p positions /\ Position.symbol p = symbol).
  { intros symbol p H. unfold get_position, after in H.
    rewrite update_positions_fold in H.
    apply fold_store_lookup in H as [(Hin & Hs & _)|H]; [auto|].
    now rewrite lookup_empty in H. }
  split; [reflexivity|]. repeat split.
  - now apply (Hlookup symbol p).
  - now apply (Hlookup symbol p).
  - intros p Hp. apply in_get_all_positions in Hp as [symbol Hs].
    now apply (Hlookup symbol p).
  - intros symbol Hnone.
    destruct (get_position after symbol) as [p|] eqn:E; [|reflexivity].
    apply Hlookup in E as [Hin Hs]. now apply Hnone in Hin.
  - intros p Hin Ht. unfold get_position, after.
    rewrite update_positions_fold. apply fold_store_is_Some.
    right. exists p. auto.
Qed.

(** A book holding MSFT, updated with a list that holds AAPL only, tracks
    AAPL and no longer MSFT. *)
Lemma update_positions_replaces_book_witness :
  let before := update_positions empty_book [sample_position "MSFT" 5 500] in
  let after := update_positions before [sample_position "AAPL" 10 1000] in
  _positions after =
    _positions (update_positions empty_book [sample_position "AAPL" 10 1000]) /\
  get_position before "MSFT" = Some (sample_position "MSFT" 5 500) /\
  get_position after "MSFT" = None.
Proof.
  intros before after.
  pose proof (update_positions_replaces_book
                before empty_book [sample_position "AAPL" 10 1000])
    as (Hsame & _ & _ & Hgone & _).
  split; [exact Hsame|]. split; [reflexivity|].
  apply Hgone. intros p [<-|[]]. discriminate.
Defined.

End UpdatePositionsSnapshot.

(** ** OptionSelector *)

Section OptionSelectorFacts.
Import OptionSelector.

Context {A : Type} (key : A -> Q).

Lemma in_insert_by_key x a (l : list A) :
  In x (insert_by_key key a l) <-> x = a \/ In x l.
Proof.
  induction l as [|y ys IH]; simpl.
  - intuition.
  - destruct (Qleb (key a) (key y)); simpl; [intuition|].
    rewrite IH. intuition.
Qed.

Lemma in_sort_by_key x (l : list A) :
  In x (sort_by_key key l) <-> In x l.
Proof.
  induction l as [|y ys IH]; simpl; [reflexivity|].
  rewrite in_insert_by_key, IH. intuition.
Qed.

Lemma head_least_insert a (l : list A) :
  head_least key l -> head_least key (insert_by_key key a l).
Proof.
  destruct l as [|h t]; simpl.
  - intros _ x [<-|[]]. apply Qle_refl.
  - intros Hh. destruct (Qleb (key a) (key h)) eqn:E; simpl.
    + apply Qleb_le in E. intros x [<-|Hx].
      * apply Qle_refl.
      * eapply Qle_trans; [exact E|]. now apply Hh.
    + apply Qleb_gt in E. intros x [<-|Hx].
      * apply Qle_refl.
      * apply in_insert_by_key in Hx as [->|Hx].
        -- now apply Qlt_le_weak.
        -- apply Hh. now right.
Qed.

Lemma head_least_sort (l : list A) : head_least key (sort_by_key key l).
Proof.
  induction l as [|x xs IH]; simpl; [exact I|].
  now apply head_least_insert.
Qed.

(** The first element of the sorted list is an element of the list with
    the least key; the sorted list is empty only if the list is. *)
Lemma sort_by_key_head (l : list A) :
  match sort_by_key key l with
  | [] => l = []
  | h :: _ => In h l /\ forall x, In x l -> (key h <= key x)%Q
  end.
Proof.
  pose proof (head_least_sort l) as Hh.
  pose proof (fun x => in_sort_by_key x l) as Hin.
  destruct (sort_by_key key l) as [|h t].
  - destruct l as [|x xs]; [reflexivity|].
    destruct (proj2 (Hin x) (or_introl eq_refl)).
  - split.
    + apply Hin. now left.
    + intros x Hx. apply Hh. now apply Hin.
Qed.

End OptionSelectorFacts.

(** ** The order of floats *)

Section FloatOrder.

(** The comparison of two finite floats of the same sign: by exponent,
    then by mantissa. *)
Lemma lex_compare_spec (e1 e2 : Z) (m1 m2 : positive) :
  match (match e1 ?= e2 with
         | Lt => Lt
         | Gt => Gt
         | Eq => Pos.compare_cont Eq m1 m2
         end) with
  | Lt => e1 < e2 \/ (e1 = e2 /\ (m1 < m2)%positive)
  | Eq => e1 = e2 /\ m1 = m2
  | Gt => e2 < e1 \/ (e1 = e2 /\ (m2 < m1)%positive)
  end.
Proof.
  change (Pos.compare_cont Eq m1 m2) with (Pos.compare m1 m2).
  destruct (Z.compare_spec e1 e2); [|lia|lia].
  destruct (Pos.compare_spec m1 m2); lia.
Qed.

Ltac finite_cases :=
  repeat match goal with
         | |- context [match ?e1 ?= ?e2 with
                       | Lt => Lt | Gt => Gt
                       | Eq => Pos.compare_cont Eq ?m1 ?m2 end] =>
             let H := fresh "H" in
             pose proof (lex_compare_spec e1 e2 m1 m2) as H;
             destruct (match e1 ?= e2 with
                       | Lt => Lt | Gt => Gt
                       | Eq => Pos.compare_cont Eq m1 m2 end)
         | |- context [match ?e1 ?= ?e2 with
                       | Lt => Gt | Gt => Lt
                       | Eq => CompOpp (Pos.compare_cont Eq ?m1 ?m2) end] =>
             replace (match e1 ?= e2 with
                      | Lt => Gt | Gt => Lt
                      | Eq => CompOpp (Pos.compare_cont Eq m1 m2) end)
               with (CompOpp (match e1 ?= e2 with
                              | Lt => Lt | Gt => Gt
                              | Eq => Pos.compare_cont Eq m1 m2 end))
               by (destruct (e1 ?= e2); reflexivity)
         end.

Lemma SFltb_irrefl (x : spec_float) : SFltb x x = false.
Proof.
  unfold SFltb. destruct x as [s|s| |s m e]; try reflexivity;
    destruct s; try reflexivity; cbn [SFcompare]; finite_cases;
    cbn [CompOpp]; try reflexivity; lia.
Qed.

Lemma SFltb_trans (x y z : spec_float) :
  SFltb x y = true -> SFltb y z = true -> SFltb x z = true.
Proof.
  unfold SFltb.
  destruct x as [sx|sx| |sx mx ex], y as [sy|sy| |sy my ey],
    z as [sz|sz| |sz mz ez];
    try destruct sx; try destruct sy; try destruct sz;
    cbn [SFcompare]; try discriminate; try reflexivity;
    finite_cases; cbn [CompOpp]; intros; try discriminate; try reflexivity;
    exfalso; lia.
Qed.

Lemma SFltb_neg_trans (x y z : spec_float) :
  y <> S754_nan ->
  SFltb x z = true -> SFltb x y = true \/ SFltb y z = true.
Proof.
  unfold SFltb. intros Hy.
  destruct x as [sx|sx| |sx mx ex], y as [sy|sy| |sy my ey],
    z as [sz|sz| |sz mz ez];
    try (now contradiction Hy);
    try destruct sx; try destruct sy; try destruct sz;
    cbn [SFcompare]; try discriminate; auto;
    finite_cases; cbn [CompOpp]; intros; try discriminate; auto;
    exfalso; lia.
Qed.

Lemma Prim2SF_not_nan (x : float) :
  PrimFloat.is_nan x = false -> Prim2SF x <> S754_nan.
Proof.
  intros H. unfold Prim2SF. rewrite H.
  destruct (PrimFloat.is_zero x); [discriminate|].
  destruct (PrimFloat.is_infinity x); [discriminate|].
  destruct (Z.frexp x) as [r e].
  destruct (shr_fexp _ _ _ _ _) as [shr e'].
  destruct (shr_m shr); discriminate.
Qed.

(** On floats [<] is irreflexive and transitive; and a number that is not
    below [y] nor above it compares with the others as [y] does, when [y]
    is not a NaN. *)
Lemma ltb_irrefl (x : float) : PrimFloat.ltb x x = false.
Proof. rewrite ltb_spec. apply SFltb_irrefl. Qed.

Lemma ltb_trans (x y z : float) :
  PrimFloat.ltb x y = true -> PrimFloat.ltb y z = true -> PrimFloat.ltb x z = true.
Proof. rewrite !ltb_spec. apply SFltb_trans. Qed.

Lemma ltb_asym (x y : float) :
  PrimFloat.ltb x y = true -> PrimFloat.ltb y x = false.
Proof.
  intros H. destruct (PrimFloat.ltb y x) eqn:E; [|reflexivity].
  pose proof (ltb_trans x y x H E) as Hxx. now rewrite ltb_irrefl in Hxx.
Qed.

Lemma ltb_neg_trans (x y z : float) :
  PrimFloat.is_nan y = false ->
  PrimFloat.ltb x z = true ->
  PrimFloat.ltb x y = true \/ PrimFloat.ltb y z = true.
Proof.
  intros Hy. rewrite !ltb_spec. apply SFltb_neg_trans.
  now apply Prim2SF_not_nan.
Qed.

End FloatOrder.

Section FloatSort.
Import OptionSelector.

Context {A : Type} (key : A -> float).

Lemma in_insert_by_float_key x a (l : list A) :
  In x (insert_by_float_key key a l) <-> x = a \/ In x l.
Proof.
  induction l as [|y ys IH]; simpl.
  - intuition.
  - destruct (PrimFloat.ltb (key y) (key a)); simpl; [|intuition].
    rewrite IH. intuition.
Qed.

Lemma in_sort_by_float_key x (l : list A) :
  In x (sort_by_float_key key l) <-> In x l.
Proof.
  induction l as [|y ys IH]; simpl; [reflexivity|].
  rewrite in_insert_by_float_key, IH. intuition.
Qed.

(** The sorted list is empty only if the list is; else its first element
    is the first element of least key of the list, when no key of the
    list is a NaN. *)
Lemma sort_by_float_key_head (l : list A) :
  (forall x, In x l -> PrimFloat.is_nan (key x) = false) ->
  match sort_by_float_key key l with
  | [] => l = []
  | h :: _ => first_least key l h
  end.
Proof.
  induction l as [|x xs IH]; intros Hnan; [reflexivity|].
  cbn [sort_by_float_key].
  assert (Hxs : forall y, In y xs -> PrimFloat.is_nan (key y) = false)
    by (intros y Hy; apply Hnan; now right).
  specialize (IH Hxs).
  destruct (sort_by_float_key key xs) as [|h t].
  - subst xs. simpl. exists [], []. split; [reflexivity|].
    split; intros y [].
  - destruct IH as (before & after & Hl & Hb & Ha).
    cbn [insert_by_float_key].
    destruct (PrimFloat.ltb (key h) (key x)) eqn:E.
    + exists (x :: before), after. split; [now rewrite Hl|].
      split; [|exact Ha].
      intros y [<-|Hy]; [exact E|now apply Hb].
    + exists [], xs. split; [reflexivity|]. split; [intros y []|].
      intros y Hy. rewrite Hl in Hy.
      apply in_app_or in Hy as [Hy|[<-|Hy]].
      * destruct (PrimFloat.ltb (key y) (key x)) eqn:Ey; [|reflexivity].
        pose proof (ltb_trans _ _ _ (Hb y Hy) Ey) as Hhx. congruence.
      * exact E.
      * destruct (PrimFloat.ltb (key y) (key x)) eqn:Ey; [|reflexivity].
        assert (Hh : PrimFloat.is_nan (key h) = false).
        { apply Hxs. rewrite Hl. apply in_or_app. right. now left. }
        destruct (ltb_neg_trans _ _ _ Hh Ey) as [H|H]; [|congruence].
        rewrite (Ha y Hy) in H. discriminate.
Qed.

(** The first element of least key is an element that none beats. *)
Lemma first_least_least (l : list A) (best : A) :
  first_least key l best ->
  In best l /\ forall x, In x l -> PrimFloat.ltb (key x) (key best) = false.
Proof.
  intros (before & after & -> & Hb & Ha). split.
  - apply in_or_app. right. now left.
  - intros x Hx. apply in_app_or in Hx as [Hx|[<-|Hx]].
    + apply ltb_asym. now apply Hb.
    + apply ltb_irrefl.
    + now apply Ha.
Qed.

End FloatSort.

Section OtmSelection.
Import OptionSelector.

Lemma truthy_q_known contract :
  truthy_q (OptionContract.strike contract) = true <-> known_strike contract.
Proof.
  unfold truthy_q, known_strike. rewrite negb_true_iff. split.
  - intros H Heq. apply Qeq_bool_iff in Heq. congruence.
  - intros H. destruct (Qeq_bool _ 0) eqn:E; [|reflexivity].
    apply Qeq_bool_iff in E. contradiction.
Qed.

Lemma truthy_q_zero contract :
  truthy_q (OptionContract.strike contract) = false <->
  (OptionContract.strike contract == 0)%Q.
Proof.
  unfold truthy_q. rewrite negb_false_iff. apply Qeq_bool_iff.
Qed.

Lemma is_otm_spec current_price contract :
  is_otm current_price contract = true <->
  known_strike contract /\ out_of_the_money current_price contract.
Proof.
  unfold is_otm, out_of_the_money.
  rewrite andb_true_iff, truthy_q_known.
  destruct (OptionContract.option_type contract); now rewrite Qltb_lt.
Qed.

(** The head of the survivors sorted by float distance. *)
Lemma sorted_survivors_head (keep : OptionContract.t -> bool) current_price contracts :
  (forall c, In c contracts ->
             PrimFloat.is_nan (distance current_price c) = false) ->
  match sort_by_float_key (distance current_price) (List.filter keep contracts) with
  | [] => List.filter keep contracts = []
  | best :: _ =>
      first_least (distance current_price) (List.filter keep contracts) best /\
      In best contracts /\ keep best = true /\
      forall c, In c contracts -> keep c = true ->
        PrimFloat.ltb (distance current_price c) (distance current_price best) = false
  end.
Proof.
  intros Hnan.
  pose proof (sort_by_float_key_head (distance current_price)
                (List.filter keep contracts)) as Hsort.
  destruct (sort_by_float_key (distance current_price) (List.filter keep contracts))
    as [|best rest].
  - apply Hsort. intros c Hc. apply List.filter_In in Hc as [Hc _]. now apply Hnan.
  - assert (Hfirst : first_least (distance current_price)
                       (List.filter keep contracts) best).
    { apply Hsort. intros c Hc. apply List.filter_In in Hc as [Hc _]. now apply Hnan. }
    destruct (first_least_least _ _ _ Hfirst) as [Hin Hleast].
    apply List.filter_In in Hin as [Hin Hkeep].
    split; [exact Hfirst|]. split; [exact Hin|]. split; [exact Hkeep|].
    intros c Hc Hk. apply Hleast. now apply List.filter_In.
Qed.

(** C4. The OTM selection keeps exactly the contracts with a known strike
    that are out of the money (a call with strike strictly above the
    underlying price, a put with strike strictly below, compared as
    decimals), and returns none when none is kept.  Otherwise it returns
    the first of the kept contracts whose float distance
    [abs(float(strike) - float(price))] is least: every kept contract
    before it in the list has a strictly larger float distance and no
    kept contract has a strictly smaller one.  This holds when no float
    distance is a NaN, that is when the strikes and the price are within
    the range of a float. *)
Theorem select_otm_contract_closest :
  forall (contracts : list OptionContract.t) (current_price : Q),
    (forall c, In c contracts ->
               PrimFloat.is_nan (distance current_price c) = false) ->
    (forall c,
       In c (List.filter (is_otm current_price) contracts) <->
       In c contracts /\ known_strike c /\ out_of_the_money current_price c) /\
    match _select_otm_contract contracts current_price with
    | None =>
        forall c, In c contracts -> known_strike c ->
                  ~ out_of_the_money current_price c
    | Some best =>
        first_least (distance current_price)
          (List.filter (is_otm current_price) contracts) best /\
        In best contracts /\ known_strike best /\
        out_of_the_money current_price best /\
        forall c,
          In c contracts -> known_strike c -> out_of_the_money current_price c ->
          PrimFloat.ltb (distance current_price c) (distance current_price best) = false
    end.
Proof.
  intros contracts current_price Hnan. split.
  - intros c. rewrite List.filter_In, is_otm_spec. tauto.
  - unfold _select_otm_contract.
    destruct contracts as [|c0 cs]; [intros c []|].
    set (l := c0 :: cs) in *.
    pose proof (sorted_survivors_head (is_otm current_price) current_price l Hnan)
      as Hsort.
    destruct (sort_by_float_key (distance current_price)
                (List.filter (is_otm current_price) l)) as [|best rest].
    + intros c Hc Hk Hotm.
      assert (Hin : In c (List.filter (is_otm current_price) l)).
      { apply List.filter_In. split; [exact Hc|]. now apply is_otm_spec. }
      rewrite Hsort in Hin. exact Hin.
    + destruct Hsort as (Hfirst & Hin & Hkeep & Hleast).
      apply is_otm_spec in Hkeep as [Hk Hotm].
      split; [exact Hfirst|]. split; [exact Hin|]. split; [exact Hk|].
      split; [exact Hotm|].
      intros c Hc Hkc Hc_otm. apply Hleast; [exact Hc|]. now apply is_otm_spec.
Qed.

(** With the underlying at 150 and calls of strikes 145, 150 and 155, the
    OTM selection returns the call of strike 155. *)
Example select_otm_sample :
  _select_otm_contract sample_calls 150 = Some (sample_contract CALL 155 0).
Proof. vm_compute. reflexivity. Qed.

Lemma select_otm_contract_closest_witness :
  exists best,
    _select_otm_contract sample_calls 150 = Some best /\
    (OptionContract.strike best == 155)%Q /\
    In best sample_calls /\
    out_of_the_money 150 best.
Proof.
  exists (sample_contract CALL 155 0).
  split; [vm_compute; reflexivity|]. split; [reflexivity|].
  assert (Hnan : forall c, In c sample_calls ->
                           PrimFloat.is_nan (distance 150 c) = false).
  { intros c Hc. simpl in Hc.
    repeat (destruct Hc as [Hc|Hc]); try contradiction; subst c;
      vm_compute; reflexivity. }
  pose proof (proj2 (select_otm_contract_closest sample_calls 150 Hnan)) as H.
  change (_select_otm_contract sample_calls 150)
    with (Some (sample_contract CALL 155 0)) in H.
  destruct H as (_ & Hin & _ & Hotm & _).
  split; [exact Hin|exact Hotm].
Defined.

(** The strikes 150.00000000000000002 and 150.00000000000000001 are both
    out of the money at 150 and both at the float distance 0.0: the
    selection returns the first, although the second is closer. *)
Lemma select_otm_contract_not_closest :
  _select_otm_contract [far_call; near_call] 150 = Some far_call /\
  known_strike near_call /\
  out_of_the_money 150 near_call /\
  (exact_distance 150 near_call < exact_distance 150 far_call)%Q.
Proof.
  split; [vm_compute; reflexivity|]. split; [|split].
  - unfold known_strike. intros H. vm_compute in H. discriminate H.
  - vm_compute. reflexivity.
  - vm_compute. reflexivity.
Qed.

End OtmSelection.

(** ** RiskManager *)

Section RiskManagerFacts.
Import RiskManager.

Lemma checked_coherent msgs : coherent (checked msgs).
Proof. unfold coherent, checked. simpl. apply length_eqb_nil. Qed.

Lemma extend_unless_coherent r lst :
  coherent r -> extend_unless r lst = lst ++ snd r.
Proof.
  unfold coherent, extend_unless. intros H.
  destruct (fst r) eqn:E; simpl.
  - rewrite (proj1 H eq_refl). now rewrite app_nil_r.
  - reflexivity.
Qed.

Lemma greeks_coherent self contract quantity side :
  coherent (_check_greeks_exposure self contract quantity side).
Proof.
  unfold _check_greeks_exposure.
  destruct (OptionContract.delta contract), (OptionContract.vega contract),
    (OptionContract.theta contract);
    try apply checked_coherent; unfold coherent; simpl; split; discriminate.
Qed.

Lemma liquidity_coherent contract : coherent (_check_liquidity_risk contract).
Proof.
  unfold _check_liquidity_risk.
  destruct (spread_warnings contract); [apply checked_coherent|].
  unfold coherent; simpl; split; discriminate.
Qed.

Lemma collect_errors_eq self contract quantity :
  collect_errors self contract quantity = error_messages self contract quantity.
Proof.
  unfold collect_errors, error_messages.
  rewrite !extend_unless_coherent by apply checked_coherent.
  reflexivity.
Qed.

Lemma collect_warnings_eq self now signal contract quantity :
  collect_warnings self now signal contract quantity =
  warning_messages self now signal contract quantity.
Proof.
  unfold collect_warnings, warning_messages.
  rewrite !extend_unless_coherent
    by first [apply checked_coherent | apply greeks_coherent
              | apply liquidity_coherent].
  simpl. rewrite <- !app_assoc. reflexivity.
Qed.

(** No error message is a delta message. *)
Lemma error_messages_not_delta self contract quantity m :
  In m (error_messages self contract quantity) -> ~ is_delta_message m.
Proof.
  unfold error_messages, _check_position_size_limits, _check_daily_loss_limits,
    checked. simpl.
  rewrite !in_app_iff.
  repeat match goal with
         | |- context [if ?b then _ else _] => destruct b
         end; simpl; intuition (subst; auto).
Qed.

Lemma greeks_delta_warning self contract quantity side d v th :
  OptionContract.delta contract = Some d ->
  OptionContract.vega contract = Some v ->
  OptionContract.theta contract = Some th ->
  let new_delta :=
    (PositionManager.portfolio_delta
       (PositionManager.calculate_portfolio_metrics (position_manager self)) +
     d * (if Action_is side BUY then quantity else - quantity))%Q in
  (100 < Qabs' new_delta)%Q ->
  In (PortfolioDeltaExceeded new_delta)
     (snd (_check_greeks_exposure self contract quantity side)).
Proof.
  intros Hd Hv Ht new_delta Hlt.
  unfold _check_greeks_exposure. rewrite Hd, Hv, Ht.
  unfold checked. cbn [snd].
  change (max_portfolio_delta risk_config) with 100%Q.
  apply Qltb_lt in Hlt. unfold new_delta in *. rewrite Hlt.
  apply in_or_app. left. now left.
Qed.

End RiskManagerFacts.

Section RiskVerdict.
Import RiskManager.

Lemma length_pos_not_nil {A : Type} (l : list A) :
  (length l =? 0)%nat = false <-> l <> [].
Proof.
  destruct l; simpl; split; intros H; try reflexivity; try discriminate.
  now contradiction H.
Qed.

(** C1. [check_trade_risk] gives one verdict, decided by the messages of
    its seven sub-checks: rejected exactly when the position-size or the
    daily-loss sub-check produced an error; otherwise requires_review
    exactly when the five other sub-checks produced more than 3 warnings;
    otherwise warning exactly when they produced 1 to 3 warnings; approved
    exactly when there is no message at all.  The messages returned are
    the errors followed by the warnings.  A trade whose estimated
    portfolio delta exceeds 100 in absolute value adds the message
    "Portfolio delta limit exceeded" to the warnings; no error is a delta
    message, so with no error the trade is not rejected. *)
Theorem check_trade_risk_verdict :
  forall (self : RiskManager.t) (now : datetime) (signal : TradeSignal.t)
         (contract : OptionContract.t) (quantity : Q),
    let result := fst (check_trade_risk self now signal contract quantity) in
    let messages := snd (check_trade_risk self now signal contract quantity) in
    let errors := error_messages self contract quantity in
    let warnings := warning_messages self now signal contract quantity in
    messages = errors ++ warnings /\
    (result = REJECTED <-> errors <> []) /\
    (result = REQUIRES_REVIEW <-> errors = [] /\ (3 < length warnings)%nat) /\
    (result = WARNING <->
       errors = [] /\ (1 <= length warnings)%nat /\ (length warnings <= 3)%nat) /\
    (result = APPROVED <-> errors = [] /\ warnings = []) /\
    (forall m, In m errors -> ~ is_delta_message m) /\
    (forall contract_delta contract_vega contract_theta,
        OptionContract.delta contract = Some contract_delta ->
        OptionContract.vega contract = Some contract_vega ->
        OptionContract.theta contract = Some contract_theta ->
        (100 < Qabs' (estimated_delta self signal contract_delta quantity))%Q ->
        In (PortfolioDeltaExceeded
              (estimated_delta self signal contract_delta quantity)) warnings /\
        (errors = [] -> result = WARNING \/ result = REQUIRES_REVIEW)).
Proof.
  intros self now signal contract quantity result messages errors warnings.
  assert (Hres : result =
                 if negb (length errors =? 0)%nat then REJECTED
                 else if (3 <? length warnings)%nat then REQUIRES_REVIEW
                 else if negb (length warnings =? 0)%nat then WARNING
                 else APPROVED).
  { unfold result, check_trade_risk, errors, warnings. cbn [fst].
    now rewrite collect_errors_eq, collect_warnings_eq. }
  assert (Hmsg : messages = errors ++ warnings).
  { unfold messages, check_trade_risk, errors, warnings. cbn [snd].
    now rewrite collect_errors_eq, collect_warnings_eq. }
  assert (Hcases :
    (result = REJECTED <-> errors <> []) /\
    (result = REQUIRES_REVIEW <-> errors = [] /\ (3 < length warnings)%nat) /\
    (result = WARNING <->
       errors = [] /\ (1 <= length warnings)%nat /\ (length warnings <= 3)%nat) /\
    (result = APPROVED <-> errors = [] /\ warnings = [])).
  { rewrite Hres. clear Hres Hmsg.
    destruct errors as [|e es]; simpl.
    - destruct (3 <? length warnings)%nat eqn:E3.
      + apply Nat.ltb_lt in E3.
        destruct warnings as [|w ws]; [simpl in E3; lia|].
        simpl in *.
        intuition (try discriminate; try lia; try congruence).
      + apply Nat.ltb_ge in E3.
        destruct warnings as [|w ws]; simpl in *;
          intuition (try discriminate; try lia; try congruence).
    - intuition (try discriminate; try congruence). }
  destruct Hcases as (Hrej & Hrev & Hwarn & Happ).
  split; [exact Hmsg|]. split; [exact Hrej|]. split; [exact Hrev|].
  split; [exact Hwarn|]. split; [exact Happ|]. split.
  - intros m. apply error_messages_not_delta.
  - intros d v th Hd Hv Ht Hlt.
    assert (Hin : In (PortfolioDeltaExceeded (estimated_delta self signal d quantity))
                     warnings).
    { unfold warnings, warning_messages. rewrite !in_app_iff. right. left.
      exact (greeks_delta_warning self contract quantity
               (TradeSignal.action signal) d v th Hd Hv Ht Hlt). }
    split; [exact Hin|].
    intros Herr.
    destruct (le_lt_dec (length warnings) 3) as [Hle|Hgt].
    + left. apply Hwarn. split; [exact Herr|]. split; [|exact Hle].
      destruct warnings; [destruct Hin|simpl; lia].
    + right. apply Hrev. now split.
Qed.

End RiskVerdict.

Section RiskExamples.
Import RiskManager.

(** Buying 300 contracts of delta 0.5 against an empty book brings the
    estimated portfolio delta to 150: the only message is the delta
    warning, and the verdict is warning, not rejected. *)
Example delta_breach_is_a_warning :
  fst (check_trade_risk sample_risk_manager sample_now
         (sample_trade_signal (ActionStr "buy") (Some 300%Q))
         sample_call_with_greeks 300) = WARNING /\
  length (snd (check_trade_risk sample_risk_manager sample_now
                 (sample_trade_signal (ActionStr "buy") (Some 300%Q))
                 sample_call_with_greeks 300)) = 1%nat.
Proof. vm_compute. split; reflexivity. Qed.

(** The same trade with 1500 contracts also breaks the position-size
    limit of 1000: an error, and the verdict is rejected. *)
Example size_breach_is_rejected :
  fst (check_trade_risk sample_risk_manager sample_now
         (sample_trade_signal (ActionStr "buy") (Some 1500%Q))
         sample_call_with_greeks 1500) = REJECTED.
Proof. vm_compute. reflexivity. Qed.

(** A contract without Greeks makes the Greeks sub-check fail with its
    own message, which is a warning. *)
Example missing_greeks_is_a_warning :
  check_trade_risk sample_risk_manager sample_now
    (sample_trade_signal (ActionStr "buy") (Some 1%Q))
    (sample_contract CALL 150 (sample_now + 30 * us_per_day)) 1 =
  (WARNING,
   [GreeksCheckError
      "unsupported operand type(s) for *: 'NoneType' and 'decimal.Decimal'"]).
Proof. vm_compute. reflexivity. Qed.

Lemma check_trade_risk_verdict_witness :
  let signal := sample_trade_signal (ActionStr "buy") (Some 300%Q) in
  let r := check_trade_risk sample_risk_manager sample_now signal
             sample_call_with_greeks 300 in
  fst r = WARNING /\
  In (PortfolioDeltaExceeded
        (estimated_delta sample_risk_manager signal (1 # 2) 300))
     (snd r).
Proof.
  intros signal r.
  pose proof (check_trade_risk_verdict sample_risk_manager sample_now signal
                sample_call_with_greeks 300)
    as (Hmsg & _ & _ & _ & _ & _ & Hdelta).
  split; [vm_compute; reflexivity|].
  unfold r. rewrite Hmsg. apply in_or_app. right.
  apply (Hdelta (1 # 2) (1 # 10) (- (1 # 100))%Q eq_refl eq_refl eq_refl).
  vm_compute. reflexivity.
Defined.

End RiskExamples.

(** ** OrderStrategyService *)

Section OrderStrategyFacts.
Import OrderStrategyService.

Lemma resolve_quantity_explicit quantity signal q :
  quantity = Some q -> ~ (q == 0)%Q -> resolve_quantity quantity signal = Some q.
Proof.
  intros -> Hq. unfold resolve_quantity, truthy_oq.
  destruct (Qeq_bool q 0) eqn:E; [|reflexivity].
  apply Qeq_bool_iff in E. contradiction.
Qed.

Lemma resolve_quantity_fallback quantity signal :
  quantity = None \/ (exists q, quantity = Some q /\ (q == 0)%Q) ->
  resolve_quantity quantity signal = TradeSignal.quantity signal.
Proof.
  intros [->|(q & -> & Hq)]; unfold resolve_quantity, truthy_oq; [reflexivity|].
  apply Qeq_bool_iff in Hq. now rewrite Hq.
Qed.

Lemma create_order_body_none now signal contract strategy quantity :
  resolve_quantity quantity signal = None \/
  (exists q, resolve_quantity quantity signal = Some q /\ (q <= 0)%Q) ->
  create_order_body now signal contract strategy quantity = Returned None.
Proof.
  unfold create_order_body. intros [->|(q & -> & Hq)]; [reflexivity|].
  apply Qleb_le in Hq. rewrite Hq. now rewrite orb_true_r.
Qed.

Lemma create_order_body_some now signal contract strategy quantity params :
  create_order_body now signal contract strategy quantity = Returned (Some params) ->
  resolve_quantity quantity signal = Some (p_quantity params) /\
  (0 < p_quantity params)%Q.
Proof.
  unfold create_order_body.
  destruct (resolve_quantity quantity signal) as [q|]; [|discriminate].
  destruct (negb (truthy_oq (Some q)) || Qleb q 0) eqn:E; [discriminate|].
  apply orb_false_iff in E as [_ E]. apply Qleb_gt in E.
  destruct (negb (bool_decide (is_Some _)) && _); [discriminate|].
  destruct (Action_value (TradeSignal.action signal)); [|discriminate].
  intros H. injection H as <-. simpl. auto.
Qed.

(** C10. [create_order] returns none whenever the resolved order quantity
    (the explicit quantity when it is present and not zero, the signal's
    quantity otherwise) is absent or not strictly positive; and the order
    parameters it returns always carry the resolved quantity, which is
    strictly positive. *)
Theorem create_order_requires_positive_quantity :
  forall (now : datetime) (signal : TradeSignal.t) (contract : OptionContract.t)
         (strategy : OrderStrategy) (quantity : option Q),
    let order_quantity := resolve_quantity quantity signal in
    (forall q, quantity = Some q -> ~ (q == 0)%Q -> order_quantity = Some q) /\
    (quantity = None \/ (exists q, quantity = Some q /\ (q == 0)%Q) ->
       order_quantity = TradeSignal.quantity signal) /\
    (order_quantity = None \/
     (exists q, order_quantity = Some q /\ (q <= 0)%Q) ->
       create_order now signal contract strategy quantity = None) /\
    (forall params,
        create_order now signal contract strategy quantity = Some params ->
        order_quantity = Some (p_quantity params) /\ (0 < p_quantity params)%Q).
Proof.
  intros now signal contract strategy quantity order_quantity.
  split; [|split; [|split]].
  - intros q Hq Hnz. now apply resolve_quantity_explicit.
  - apply resolve_quantity_fallback.
  - intros H. unfold create_order.
    now rewrite (create_order_body_none now signal contract strategy quantity H).
  - intros params H. unfold create_order in H.
    destruct (create_order_body now signal contract strategy quantity) as [r|e] eqn:E;
      [|discriminate].
    subst r. now apply (create_order_body_some now signal contract strategy quantity).
Qed.

(** An order for 5 contracts at the midpoint of 2.40 / 2.60, for a signal
    whose action is an [OrderSide]. *)
Example create_order_builds :
  exists params,
    create_order sample_now (sample_trade_signal (ActionSide BUY) (Some 5%Q))
      sample_quoted_call S_LIMIT_MIDPOINT None = Some params /\
    p_quantity params = 5%Q /\ p_order_type params = LIMIT /\
    (default 0 (p_price params) == 25 # 10)%Q.
Proof. eexists. split; [vm_compute; reflexivity|]. now vm_compute. Qed.

(** For a signal whose action is a plain [str] the log statement raises
    and no order comes back, whatever the quantity. *)
Example create_order_plain_str_action :
  create_order sample_now (sample_trade_signal (ActionStr "buy") (Some 5%Q))
    sample_quoted_call S_LIMIT_MIDPOINT None = None.
Proof. vm_compute. reflexivity. Qed.

Lemma create_order_requires_positive_quantity_witness :
  create_order sample_now (sample_trade_signal (ActionSide BUY) (Some 0%Q))
    sample_quoted_call S_LIMIT_MIDPOINT None = None /\
  create_order sample_now (sample_trade_signal (ActionSide BUY) None)
    sample_quoted_call S_LIMIT_MIDPOINT (Some (-3)%Q) = None.
Proof.
  split.
  - apply (proj1 (proj2 (proj2 (create_order_requires_positive_quantity
             sample_now (sample_trade_signal (ActionSide BUY) (Some 0%Q))
             sample_quoted_call S_LIMIT_MIDPOINT None)))).
    right. exists 0%Q. split; [reflexivity|discriminate].
  - apply (proj1 (proj2 (proj2 (create_order_requires_positive_quantity
             sample_now (sample_trade_signal (ActionSide BUY) None)
             sample_quoted_call S_LIMIT_MIDPOINT (Some (-3)%Q))))).
    right. exists (-3)%Q. split; [reflexivity|discriminate].
Defined.

End OrderStrategyFacts.

(** ** SignalProcessor *)

Section SignalProcessorFacts.
Import SignalProcessor.

Context {World Details : Type}.
Context (has_client has_account_config : string -> World -> bool).
Context (exec_trade exec_close exec_close_all :
           TradeSignal.t -> World -> outcome Details * World).

Local Abbreviation body :=
  (process_single_body World Details has_client has_account_config
     exec_trade exec_close exec_close_all).
Local Abbreviation single :=
  (_process_single_signal World Details has_client has_account_config
     exec_trade exec_close exec_close_all).
Local Abbreviation drain_queue :=
  (drain World Details has_client has_account_config
     exec_trade exec_close exec_close_all).
Local Abbreviation process :=
  (process_queued_signals World Details has_client has_account_config
     exec_trade exec_close exec_close_all).

(** The result for one signal is the record of its execution in the world
    it ran in. *)
Lemma single_result (self : t World) trade_signal :
  fst (single self trade_signal) =
  result_of trade_signal (fst (body trade_signal (world self))).
Proof.
  unfold _process_single_signal. cbn [world set_status].
  now destruct (body trade_signal (world self)) as [[d|e] w].
Qed.


Lemma result_of_status trade_signal (out : outcome Details) :
  r_signal_id (result_of trade_signal out) = TradeSignal.signal_id trade_signal /\
  match out with
  | Returned _ =>
      r_status (result_of trade_signal out) = "processed" /\
      r_error (result_of trade_signal out) = None
  | Raised e =>
      r_status (result_of trade_signal out) = "failed" /\
      r_error (result_of trade_signal out) = Some e
  end.
Proof. destruct out; simpl; auto. Qed.

Lemma count_processed_app (rs1 rs2 : list (SignalResult Details)) :
  count_processed (rs1 ++ rs2) = (count_processed rs1 + count_processed rs2)%nat.
Proof. unfold count_processed. now rewrite List.filter_app, length_app. Qed.

Lemma count_failed_app (rs1 rs2 : list (SignalResult Details)) :
  count_failed (rs1 ++ rs2) = (count_failed rs1 + count_failed rs2)%nat.
Proof. unfold count_failed. now rewrite List.filter_app, length_app. Qed.

(** The loop, from any point of its run. *)
Lemma drain_spec queue :
  forall (self : t World) (p f : nat) (rs : list (SignalResult Details)),
    exists new,
      results (fst (drain_queue queue self p f rs)) = rs ++ new /\
      Forall2 (recorded body) queue new /\
      processed_count (fst (drain_queue queue self p f rs)) =
        (p + count_processed new)%nat /\
      failed_count (fst (drain_queue queue self p f rs)) =
        (f + count_failed new)%nat /\
      total_count (fst (drain_queue queue self p f rs)) =
        (processed_count (fst (drain_queue queue self p f rs)) +
         failed_count (fst (drain_queue queue self p f rs)))%nat /\
      _processing_queue (snd (drain_queue queue self p f rs)) = [].
Proof.
  induction queue as [|ts rest IH]; intros self p f rs.
  - exists []. simpl. rewrite app_nil_r.
    repeat split; auto using Forall2_nil; unfold count_processed, count_failed;
      simpl; lia.
  - cbn [drain].
    pose proof (single_result (set_queue World self rest) ts) as Hres.
    destruct (single (set_queue World self rest) ts) as [r self'] eqn:Es.
    cbn [fst] in Hres.
    assert (Hrec : recorded body ts r).
    { exists (world (set_queue World self rest)). exact Hres. }
    destruct (String.eqb (r_status r) "processed") eqn:Est.
    + destruct (IH self' (p + 1)%nat f (rs ++ [r]))
        as (new & Hr & Hf2 & Hp & Hf & Ht & Hq).
      exists (r :: new). rewrite Hr, Hp, Hf, <- app_assoc.
      split; [reflexivity|]. split; [now constructor|].
      split; [|split; [|split; [|exact Hq]]].
      * change (r :: new) with ([r] ++ new). rewrite count_processed_app.
        assert (count_processed [r] = if String.eqb (r_status r) "processed"
                                      then 1%nat else 0%nat) as ->
            by (unfold count_processed; simpl; now destruct (String.eqb _ _)).
        rewrite Est. lia.
      * change (r :: new) with ([r] ++ new). rewrite count_failed_app.
        assert (count_failed [r] = if String.eqb (r_status r) "processed"
                                   then 0%nat else 1%nat) as ->
            by (unfold count_failed; simpl; now destruct (String.eqb _ _)).
        rewrite Est. lia.
      * rewrite Ht, Hp, Hf. reflexivity.
    + destruct (IH self' p (f + 1)%nat (rs ++ [r]))
        as (new & Hr & Hf2 & Hp & Hf & Ht & Hq).
      exists (r :: new). rewrite Hr, Hp, Hf, <- app_assoc.
      split; [reflexivity|]. split; [now constructor|].
      split; [|split; [|split; [|exact Hq]]].
      * change (r :: new) with ([r] ++ new). rewrite count_processed_app.
        assert (count_processed [r] = if String.eqb (r_status r) "processed"
                                      then 1%nat else 0%nat) as ->
            by (unfold count_processed; simpl; now destruct (String.eqb _ _)).
        rewrite Est. lia.
      * change (r :: new) with ([r] ++ new). rewrite count_failed_app.
        assert (count_failed [r] = if String.eqb (r_status r) "processed"
                                   then 0%nat else 1%nat) as ->
            by (unfold count_failed; simpl; now destruct (String.eqb _ _)).
        rewrite Est. lia.
      * rewrite Ht, Hp, Hf. reflexivity.
Qed.

Lemma recorded_signal_ids queue (rs : list (SignalResult Details)) :
  Forall2 (recorded body) queue rs ->
  map r_signal_id rs = map TradeSignal.signal_id queue.
Proof.
  induction 1 as [|ts r queue rs [w ->] _ IH]; simpl; [reflexivity|].
  rewrite IH. f_equal. apply result_of_status.
Qed.

Lemma recorded_counts queue (rs : list (SignalResult Details)) :
  Forall2 (recorded body) queue rs ->
  (count_processed rs + count_failed rs)%nat = length queue.
Proof.
  induction 1 as [|ts r queue rs [w ->] _ IH]; simpl; [reflexivity|].
  change (result_of ts (fst (body ts w)) :: rs)
    with ([result_of ts (fst (body ts w))] ++ rs).
  rewrite count_processed_app, count_failed_app.
  unfold count_processed at 1, count_failed at 1. simpl.
  destruct (fst (body ts w)); simpl; lia.
Qed.

End SignalProcessorFacts.

Section SignalProcessorDrain.
Import SignalProcessor.

Context {World Details : Type}.
Context (has_client has_account_config : string -> World -> bool).
Context (exec_trade exec_close exec_close_all :
           TradeSignal.t -> World -> outcome Details * World).

Local Abbreviation body :=
  (process_single_body World Details has_client has_account_config
     exec_trade exec_close exec_close_all).
Local Abbreviation process :=
  (process_queued_signals World Details has_client has_account_config
     exec_trade exec_close exec_close_all).

Lemma Forall2_In_r {A B : Type} (P : A -> B -> Prop) (l : list A) (k : list B) :
  Forall2 P l k -> forall b, In b k -> exists a, In a l /\ P a b.
Proof.
  induction 1 as [|a b0 l k Hab _ IH]; intros b Hin; simpl in Hin.
  - destruct Hin.
  - destruct Hin as [<-|Hin].
    + exists a. split; [now left|exact Hab].
    + destruct (IH b Hin) as (a' & Ha' & Hp). exists a'. split; [now right|exact Hp].
Qed.

(** C7. [process_queued_signals] empties the queue and returns one result
    per queued signal, in the order of the queue: the i-th result bears
    the id of the i-th signal and is the record of its execution, a
    ["processed"] result when the execution returned and a ["failed"]
    result with the exception as its error when it raised; every signal
    after a failed one is still executed.  [processed_count] and
    [failed_count] count the results with and without the status
    ["processed"], and [processed_count + failed_count = total_count],
    the number of signals that were queued. *)
Theorem process_queued_signals_isolates_failures :
  forall (self : SignalProcessor.t World),
    let summary := fst (process self) in
    let after := snd (process self) in
    let queue := _processing_queue self in
    _processing_queue after = [] /\
    Forall2 (recorded body) queue (results summary) /\
    map r_signal_id (results summary) = map TradeSignal.signal_id queue /\
    length (results summary) = length queue /\
    (forall r, In r (results summary) ->
       (r_status r = "processed" /\ r_error r = None) \/
       (r_status r = "failed" /\ exists e, r_error r = Some e)) /\
    processed_count summary = count_processed (results summary) /\
    failed_count summary = count_failed (results summary) /\
    (processed_count summary + failed_count summary)%nat = total_count summary /\
    total_count summary = length queue.
Proof.
  intros self summary after queue.
  destruct (drain_spec has_client has_account_config exec_trade exec_close
              exec_close_all queue self 0%nat 0%nat [])
    as (new & Hr & Hf2 & Hp & Hf & Ht & Hq).
  change (drain World Details has_client has_account_config exec_trade
            exec_close exec_close_all queue self 0%nat 0%nat [])
    with (process self) in Hr, Hp, Hf, Ht, Hq.
  change (fst (process self)) with summary in Hr, Hp, Hf, Ht.
  change (snd (process self)) with after in Hq.
  simpl in Hr, Hp, Hf. rewrite <- Hr in Hf2, Hp, Hf.
  pose proof (recorded_counts has_client has_account_config exec_trade exec_close
                exec_close_all queue (results summary) Hf2) as Hcount.
  split; [exact Hq|]. split; [exact Hf2|].
  split; [now apply (recorded_signal_ids has_client has_account_config
                       exec_trade exec_close exec_close_all)|].
  split; [symmetry; now apply (Forall2_length _ _ _ Hf2)|].
  split.
  { intros r Hin.
    destruct (Forall2_In_r _ _ _ Hf2 r Hin) as (ts & _ & w & ->).
    destruct (fst (body ts w)) as [d|e]; simpl; eauto. }
  split; [exact Hp|]. split; [exact Hf|].
  split; [now rewrite Ht|]. rewrite Ht, Hp, Hf. exact Hcount.
Qed.

End SignalProcessorDrain.

Section SignalProcessorExamples.
Import SignalProcessor.

(** Three queued signals of which the second fails: all three are
    executed, in order, and the failure is recorded. *)
Example drain_sample_statuses :
  map r_status (results (fst (sample_process sample_processor))) =
    ["processed"; "failed"; "processed"] /\
  map r_error (results (fst (sample_process sample_processor))) =
    [None; Some "Option trade execution failed: no option chain available"; None] /\
  processed_count (fst (sample_process sample_processor)) = 2%nat /\
  failed_count (fst (sample_process sample_processor)) = 1%nat /\
  total_count (fst (sample_process sample_processor)) = 3%nat /\
  world (snd (sample_process sample_processor)) = 3%nat.
Proof. vm_compute. repeat split; reflexivity. Qed.

Example drain_sample_status_map :
  get_signal_status nat (snd (sample_process sample_processor)) "s1" = Some "completed" /\
  get_signal_status nat (snd (sample_process sample_processor)) "s2" = Some "failed" /\
  get_signal_status nat (snd (sample_process sample_processor)) "s3" = Some "completed".
Proof. vm_compute. repeat split; reflexivity. Qed.

Lemma process_queued_signals_isolates_failures_witness :
  _processing_queue (snd (sample_process sample_processor)) = [] /\
  map r_signal_id (results (fst (sample_process sample_processor))) =
    ["s1"; "s2"; "s3"] /\
  total_count (fst (sample_process sample_processor)) = 3%nat.
Proof.
  pose proof (process_queued_signals_isolates_failures
                (fun _ _ => true) (fun _ _ => true)
                sample_execute sample_execute sample_execute sample_processor)
    as (Hq & _ & Hids & _ & _ & _ & _ & _ & Htotal).
  split; [exact Hq|]. split; [exact Hids|exact Htotal].
Defined.

End SignalProcessorExamples.

(** ** The alert-platform payload *)

Section WebhookRoutesFacts.
Import WebhookRoutes.

Lemma finite_decimal_field_spec (value : option (special Decimal)) :
  match finite_decimal_field value with
  | Raised _ => not_finite value
  | Returned d => ~ not_finite value /\ d = finite_part value
  end.
Proof.
  destruct value as [[d|negative|]|]; simpl; auto.
Qed.

(** C6. The conversion of an alert-platform payload raises when the
    [size] or the [price] string reads as a decimal that is not finite (an
    infinity or a NaN), and only then.  Otherwise it returns a signal
    that takes the action from [side]; makes it [close] when the previous
    market position is not flat and the new one is; makes it the new
    direction ([buy] for long, [sell] for short) when neither is flat and
    they differ; has for quantity and price the decimals read from the
    [size] and [price] strings; and has the order type [market] and the
    time in force [day] whatever the payload holds. *)
Theorem convert_deribit_payload_to_signal_spec :
  forall (payload : WebhookSignalPayload) (request_id : string),
    let prev := prev_market_position payload in
    let cur := market_position payload in
    let quantity := Decimal_of_string (size payload) in
    let price := Decimal_of_string (price payload) in
    match convert_deribit_payload_to_signal payload request_id with
    | Raised _ => not_finite quantity \/ not_finite price
    | Returned signal =>
        ~ not_finite quantity /\ ~ not_finite price /\
        (prev <> flat -> cur = flat ->
           WebhookSignal.action signal = Some "close") /\
        (prev <> flat -> cur <> flat -> prev <> cur ->
           WebhookSignal.action signal =
             Some (match cur with long => "buy" | _ => "sell" end)) /\
        (prev = flat \/ (cur <> flat /\ prev = cur) ->
           WebhookSignal.action signal =
             Some (match side payload with
                   | side_buy => "buy"
                   | side_sell => "sell"
                   end)) /\
        WebhookSignal.quantity signal = finite_part quantity /\
        WebhookSignal.price signal = finite_part price /\
        WebhookSignal.order_type signal = Some "market" /\
        WebhookSignal.time_in_force signal = Some "day" /\
        WebhookSignal.symbol signal = Some (symbol payload) /\
        WebhookSignal.signal_id signal = Some request_id
    end.
Proof.
  intros payload request_id prev cur quantity price.
  unfold convert_deribit_payload_to_signal, size_decimal, price_decimal.
  fold quantity price.
  pose proof (finite_decimal_field_spec quantity) as Hq.
  pose proof (finite_decimal_field_spec price) as Hp.
  destruct (finite_decimal_field quantity) as [q|e]; [|now left].
  destruct (finite_decimal_field price) as [p|e]; [|now right].
  destruct Hq as [Hq ->], Hp as [Hp ->].
  split; [exact Hq|]. split; [exact Hp|].
  unfold is_closing_position, is_reversing_position. subst prev cur.
  cbn [WebhookSignal.action WebhookSignal.quantity WebhookSignal.price
       WebhookSignal.order_type WebhookSignal.time_in_force
       WebhookSignal.symbol WebhookSignal.signal_id].
  destruct (prev_market_position payload), (market_position payload);
    simpl; repeat split; try reflexivity; intros; try congruence;
    intuition congruence.
Qed.

End WebhookRoutesFacts.

Section WebhookRoutesExamples.
Import WebhookRoutes.

Example convert_closing_payload :
  convert_deribit_payload_to_signal sample_payload "req-1" =
  Returned
    {| WebhookSignal.signal_id := Some "req-1";
       WebhookSignal.symbol := Some "AAPL";
       WebhookSignal.action := Some "close";
       WebhookSignal.quantity := Some (mkDecimal 10 0);
       WebhookSignal.price := Some (mkDecimal 15025 (-2));
       WebhookSignal.stop_price := None;
       WebhookSignal.order_type := Some "market";
       WebhookSignal.time_in_force := Some "day";
       WebhookSignal.strategy := None;
       WebhookSignal.comment := None |}.
Proof. vm_compute. reflexivity. Qed.

(** The strings that [Decimal] reads as special values. *)
Example Decimal_of_special_strings :
  Decimal_of_string "NaN" = Some NotANumber /\
  Decimal_of_string "-sNaN123" = Some NotANumber /\
  Decimal_of_string "Infinity" = Some (Inf false) /\
  Decimal_of_string " -inf " = Some (Inf true) /\
  Decimal_of_string "1_000.50" = Some (Finite (mkDecimal 100050 (-2))) /\
  Decimal_of_string "ten" = None.
Proof. vm_compute. repeat split. Qed.

(** The reversal of a short position gives a buy of 2.5. *)
Lemma convert_deribit_payload_to_signal_spec_witness :
  exists signal,
    convert_deribit_payload_to_signal sample_reversal "req-2" = Returned signal /\
    WebhookSignal.action signal = Some "buy" /\
    WebhookSignal.quantity signal = Some (mkDecimal 25 (-1)) /\
    WebhookSignal.order_type signal = Some "market" /\
    WebhookSignal.time_in_force signal = Some "day".
Proof.
  pose proof (convert_deribit_payload_to_signal_spec sample_reversal "req-2") as H.
  cbv zeta in H.
  destruct (convert_deribit_payload_to_signal sample_reversal "req-2")
    as [signal|e] eqn:E; [|discriminate E].
  exists signal. split; [reflexivity|].
  destruct H as (_ & _ & _ & Hrev & _ & Hq & _ & Hot & Htif & _).
  split; [apply Hrev; discriminate|].
  split; [exact Hq|]. split; [exact Hot|exact Htif].
Defined.

(** The size "NaN" passes the validator of the payload, which only asks
    that [Decimal] reads it; the conversion then raises, and no signal,
    with or without a quantity, comes out of it. *)
Lemma convert_deribit_payload_to_signal_raises :
  Decimal_of_string (size nan_size_payload) = Some NotANumber /\
  convert_deribit_payload_to_signal nan_size_payload "req-3" =
    Raised "ValidationError" /\
  ~ exists signal,
      convert_deribit_payload_to_signal nan_size_payload "req-3" =
        Returned signal.
Proof.
  split; [reflexivity|]. split; [reflexivity|].
  intros [signal H]. discriminate H.
Qed.

End WebhookRoutesExamples.

(** ** SignalValidator: examples *)

Section SignalValidatorExamples.
Import AccountConfig WebhookSignal SignalValidator.

Example validate_good_signal :
  validate_signal 10 (sample_signal (Some "buy") (Some (mkDecimal 5 0))) sample_account =
  {| is_valid := true; errors := []; warnings := [];
     result_signal_id := Some "sig-1";
     result_symbol := Some "AAPL";
     result_action := Some "buy" |}.
Proof. vm_compute. reflexivity. Qed.

(** Every rule that the signal breaks is reported. *)
Example validate_bad_signal :
  errors (validate_signal 10 sample_bad_signal sample_account) =
  [SymbolRequired; ActionRequired; QuantityNotPositive;
   PriceRequired "limit"; InvalidTimeInForce "forever"].
Proof. vm_compute. reflexivity. Qed.

(** A check that raises ends the [try] block: the errors found before it
    are kept and the exception is reported as one more error. *)
Example validate_with_raising_check :
  errors (validate_signal_with
            [Returned [SymbolRequired]; Raised "boom"; Returned [ActionRequired]]
            (Returned [LargePositionSize]) sample_bad_signal) =
  [SymbolRequired; ValidationError "boom"].
Proof. reflexivity. Qed.

Lemma validate_signal_required_and_accumulates_witness :
  is_valid (validate_signal 10 sample_bad_signal sample_account) = false /\
  In SymbolRequired (errors (validate_signal 10 sample_bad_signal sample_account)) /\
  In ActionRequired (errors (validate_signal 10 sample_bad_signal sample_account)).
Proof.
  pose proof (validate_signal_required_and_accumulates 10 sample_bad_signal
                sample_account) as (Hsym & Hact & _).
  destruct (Hsym I) as [Hinvalid Hs].
  destruct (Hact eq_refl) as [_ Ha].
  auto.
Defined.

(** The boundary quantity 1,000,000 passes the quantity check; zero and
    1,000,000.1 do not. *)
Lemma validate_quantities_range_witness :
  _validate_quantities (sample_signal (Some "buy") (Some (mkDecimal 1000000 0))) = [] /\
  In QuantityNotPositive
     (errors (validate_signal 10 (sample_signal (Some "buy") (Some (mkDecimal 0 0)))
                sample_account)) /\
  In QuantityTooLarge
     (errors (validate_signal 10
                (sample_signal (Some "buy") (Some (mkDecimal 10000001 (-1))))
                sample_account)).
Proof.
  split; [|split].
  - apply (proj2 (proj2 (validate_quantities_range 10
                           (sample_signal (Some "buy") (Some (mkDecimal 1000000 0)))
                           sample_account (mkDecimal 1000000 0) eq_refl)));
      [reflexivity|discriminate|simpl; lia].
  - apply (proj1 (validate_quantities_range 10
                    (sample_signal (Some "buy") (Some (mkDecimal 0 0)))
                    sample_account (mkDecimal 0 0) eq_refl)).
    discriminate.
  - apply (proj1 (proj2 (validate_quantities_range 10
                           (sample_signal (Some "buy") (Some (mkDecimal 10000001 (-1))))
                           sample_account (mkDecimal 10000001 (-1)) eq_refl))).
    reflexivity.
Defined.

Lemma validate_signal_total_witness :
  is_valid (validate_signal 10 sample_bad_signal sample_account) = false /\
  is_valid (validate_signal_with [Raised "boom"] (Returned []) sample_bad_signal) = false.
Proof.
  pose proof (validate_signal_total 10 sample_bad_signal sample_account)
    as [_ Hgen].
  split; [reflexivity|].
  apply (proj2 (Hgen [Raised "boom"] (Returned [])) "boom"). now left.
Defined.

End SignalValidatorExamples.

(** * Further properties *)

(** ** OptionSelector: the other strategies *)

Section AtmSelection.
Import OptionSelector.

(** The loop of the ATM selection, from any running best and minimum. *)
Lemma atm_loop_spec current_price contracts :
  forall best0 min0,
    match atm_loop current_price contracts best0 min0 with
    | None =>
        best0 = None /\
        forall c, In c contracts -> known_strike c ->
                  PrimFloat.ltb (distance current_price c) min0 = false
    | Some best =>
        (In best contracts /\ known_strike best /\
         PrimFloat.ltb (distance current_price best) min0 = true /\
         forall c, In c contracts -> known_strike c ->
           PrimFloat.ltb (distance current_price c)
                         (distance current_price best) = false) \/
        (best0 = Some best /\
         forall c, In c contracts -> known_strike c ->
                   PrimFloat.ltb (distance current_price c) min0 = false)
    end.
Proof.
  induction contracts as [|x xs IH]; intros best0 min0; cbn [atm_loop].
  - destruct best0 as [b|].
    + right. split; [reflexivity|]. intros c [].
    + split; [reflexivity|]. intros c [].
  - destruct (truthy_q (OptionContract.strike x)) eqn:Ex.
    + apply truthy_q_known in Ex. cbv zeta.
      destruct (PrimFloat.ltb (distance current_price x) min0) eqn:El.
      * specialize (IH (Some x) (distance current_price x)).
        destruct (atm_loop current_price xs (Some x) (distance current_price x))
          as [best|].
        -- left. destruct IH as [(Hin & Hk & Hlt & Hmin)|(Hb & Hmin)].
           ++ split; [now right|]. split; [exact Hk|].
              split; [exact (ltb_trans _ _ _ Hlt El)|].
              intros c [<-|Hc] Hkc; [now apply ltb_asym|now apply Hmin].
           ++ injection Hb as <-.
              split; [now left|]. split; [exact Ex|]. split; [exact El|].
              intros c [<-|Hc] Hkc; [apply ltb_irrefl|now apply Hmin].
        -- destruct IH as [H _]. discriminate.
      * specialize (IH best0 min0).
        destruct (atm_loop current_price xs best0 min0) as [best|].
        -- destruct IH as [(Hin & Hk & Hlt & Hmin)|(Hb & Hmin)].
           ++ left. split; [now right|]. split; [exact Hk|]. split; [exact Hlt|].
              intros c [Hx|Hc] Hkc; [subst c|now apply Hmin].
              destruct (PrimFloat.ltb (distance current_price x)
                                      (distance current_price best)) eqn:E;
                [|reflexivity].
              pose proof (ltb_trans _ _ _ E Hlt). congruence.
           ++ right. split; [exact Hb|].
              intros c [<-|Hc] Hkc; [exact El|now apply Hmin].
        -- destruct IH as [Hb Hmin]. split; [exact Hb|].
           intros c [<-|Hc] Hkc; [exact El|now apply Hmin].
    + apply truthy_q_zero in Ex.
      specialize (IH best0 min0).
      destruct (atm_loop current_price xs best0 min0) as [best|].
      * destruct IH as [(Hin & Hk & Hlt & Hmin)|(Hb & Hmin)].
        -- left. split; [now right|]. split; [exact Hk|]. split; [exact Hlt|].
           intros c [<-|Hc] Hkc; [contradiction|now apply Hmin].
        -- right. split; [exact Hb|].
           intros c [<-|Hc] Hkc; [contradiction|now apply Hmin].
      * destruct IH as [Hb Hmin]. split; [exact Hb|].
        intros c [<-|Hc] Hkc; [contradiction|now apply Hmin].
Qed.

(** X1. The ATM selection returns none exactly when no contract with a
    known (non-zero) strike has a float distance
    [abs(float(strike) - float(price))] below infinity; otherwise it
    returns a contract of the list, with a known strike, such that no
    contract of the list with a known strike has a strictly smaller float
    distance. *)
Theorem select_atm_contract_closest :
  forall (contracts : list OptionContract.t) (current_price : Q),
    match _select_atm_contract contracts current_price with
    | None =>
        forall c, In c contracts -> known_strike c ->
          PrimFloat.ltb (distance current_price c) PrimFloat.infinity = false
    | Some best =>
        In best contracts /\ known_strike best /\
        PrimFloat.ltb (distance current_price best) PrimFloat.infinity = true /\
        forall c, In c contracts -> known_strike c ->
          PrimFloat.ltb (distance current_price c)
                        (distance current_price best) = false
    end.
Proof.
  intros contracts current_price. unfold _select_atm_contract.
  pose proof (atm_loop_spec current_price contracts None PrimFloat.infinity) as H.
  destruct (atm_loop current_price contracts None PrimFloat.infinity) as [best|].
  - destruct H as [H|[H _]]; [exact H|discriminate].
  - now destruct H.
Qed.

(** With the underlying at 1.2, the strike 1.3 is at the float distance
    0.10000000000000009 and the strike 1.1 at 0.09999999999999987: the
    selection returns the second. *)
Example select_atm_by_float_distance :
  _select_atm_contract
    [sample_contract CALL (13 # 10) 0; sample_contract CALL (11 # 10) 0] (12 # 10) =
  Some (sample_contract CALL (11 # 10) 0).
Proof. vm_compute. reflexivity. Qed.

(** The contract that the ATM selection returns is one of the list. *)
Lemma select_atm_contract_in contracts current_price :
  match _select_atm_contract contracts current_price with
  | Some best => In best contracts
  | None => True
  end.
Proof.
  unfold _select_atm_contract.
  pose proof (atm_loop_spec current_price contracts None PrimFloat.infinity) as H.
  destruct (atm_loop current_price contracts None PrimFloat.infinity) as [best|];
    [|exact I].
  destruct H as [H|[H _]]; [apply H|discriminate].
Qed.

End AtmSelection.

Section OtherSelections.
Import OptionSelector.

Lemma is_itm_spec current_price contract :
  is_itm current_price contract = true <->
  known_strike contract /\ in_the_money current_price contract.
Proof.
  unfold is_itm, in_the_money.
  rewrite andb_true_iff, truthy_q_known.
  destruct (OptionContract.option_type contract); now rewrite Qltb_lt.
Qed.

(** X2. The ITM selection keeps the contracts with a known strike that
    are in the money (a call with strike strictly below the underlying
    price, a put with strike strictly above, compared as decimals) and
    returns none when none is kept; otherwise it returns the first of the
    kept contracts whose float distance [abs(float(strike) -
    float(price))] is least, when no float distance is a NaN. *)
Theorem select_itm_contract_closest :
  forall (contracts : list OptionContract.t) (current_price : Q),
    (forall c, In c contracts ->
               PrimFloat.is_nan (distance current_price c) = false) ->
    match _select_itm_contract contracts current_price with
    | None =>
        forall c, In c contracts -> known_strike c ->
                  ~ in_the_money current_price c
    | Some best =>
        first_least (distance current_price)
          (List.filter (is_itm current_price) contracts) best /\
        In best contracts /\ known_strike best /\
        in_the_money current_price best /\
        forall c,
          In c contracts -> known_strike c -> in_the_money current_price c ->
          PrimFloat.ltb (distance current_price c) (distance current_price best) = false
    end.
Proof.
  intros contracts current_price Hnan. unfold _select_itm_contract.
  destruct contracts as [|c0 cs]; [intros c []|].
  set (l := c0 :: cs) in *.
  pose proof (sorted_survivors_head (is_itm current_price) current_price l Hnan)
    as Hsort.
  destruct (sort_by_float_key (distance current_price)
              (List.filter (is_itm current_price) l)) as [|best rest].
  - intros c Hc Hk Hitm.
    assert (Hin : In c (List.filter (is_itm current_price) l)).
    { apply List.filter_In. split; [exact Hc|]. now apply is_itm_spec. }
    rewrite Hsort in Hin. exact Hin.
  - destruct Hsort as (Hfirst & Hin & Hkeep & Hleast).
    apply is_itm_spec in Hkeep as [Hk Hitm].
    split; [exact Hfirst|]. split; [exact Hin|]. split; [exact Hk|].
    split; [exact Hitm|].
    intros c Hc Hkc Hc_itm. apply Hleast; [exact Hc|]. now apply is_itm_spec.
Qed.

Lemma select_itm_contract_closest_witness :
  _select_itm_contract sample_calls 150 = Some (sample_contract CALL 145 0) /\
  in_the_money 150 (sample_contract CALL 145 0).
Proof.
  assert (Hnan : forall c, In c sample_calls ->
                           PrimFloat.is_nan (distance 150 c) = false).
  { intros c Hc. simpl in Hc.
    repeat (destruct Hc as [Hc|Hc]); try contradiction; subst c;
      vm_compute; reflexivity. }
  pose proof (select_itm_contract_closest sample_calls 150 Hnan) as H.
  change (_select_itm_contract sample_calls 150)
    with (Some (sample_contract CALL 145 0)) in H.
  destruct H as (_ & _ & _ & Hitm & _).
  split; [reflexivity|exact Hitm].
Defined.

Lemma has_volume_spec contract :
  has_volume contract = true <-> 0 < volume_of contract.
Proof.
  unfold has_volume, volume_of.
  destruct (OptionContract.volume contract) as [v|]; simpl.
  - rewrite andb_true_iff, negb_true_iff, Z.eqb_neq, Z.ltb_lt. lia.
  - split; [discriminate|lia].
Qed.

(** X3. The high-volume selection returns none only for the empty list.
    When some contract has a positive volume it returns a contract of the
    list with a positive volume that no contract of the list exceeds;
    when none has, it falls back to the first contract of the list. *)
Theorem select_high_volume_contract_spec :
  forall (contracts : list OptionContract.t),
    match _select_high_volume_contract contracts with
    | None => contracts = []
    | Some best =>
        In best contracts /\
        ((exists c, In c contracts /\ 0 < volume_of c) ->
           0 < volume_of best /\
           forall c, In c contracts -> volume_of c <= volume_of best) /\
        ((forall c, In c contracts -> volume_of c <= 0) ->
           head contracts = Some best)
    end.
Proof.
  intros contracts. unfold _select_high_volume_contract.
  destruct contracts as [|c0 cs]; [reflexivity|].
  set (l := c0 :: cs).
  set (key := fun c : OptionContract.t =>
                (- inject_Z (default 0%Z (OptionContract.volume c)))%Q).
  pose proof (sort_by_key_head key (List.filter has_volume l)) as Hsort.
  destruct (sort_by_key key (List.filter has_volume l)) as [|best rest].
  - split; [now left|]. split.
    + intros (c & Hc & Hv).
      assert (Hin : In c (List.filter has_volume l)).
      { apply List.filter_In. split; [exact Hc|]. now apply has_volume_spec. }
      rewrite Hsort in Hin. destruct Hin.
    + reflexivity.
  - destruct Hsort as [Hbest Hleast].
    apply List.filter_In in Hbest as [Hbest Hv]. apply has_volume_spec in Hv.
    split; [exact Hbest|]. split.
    + intros _. split; [exact Hv|].
      intros c Hc. destruct (Z_lt_le_dec 0 (volume_of c)) as [Hpos|Hle]; [|lia].
      assert (Hin : In c (List.filter has_volume l)).
      { apply List.filter_In. split; [exact Hc|]. now apply has_volume_spec. }
      specialize (Hleast c Hin). unfold key in Hleast.
      apply Qopp_le_compat in Hleast. rewrite !Qopp_involutive in Hleast.
      unfold volume_of. rewrite Zle_Qle. exact Hleast.
    + intros Hall. specialize (Hall best Hbest). lia.
Qed.

(** The entries of the spread list: the contracts with a spread, each
    with its spread; the loop raises when the division does for some
    contract. *)
Lemma spread_loop_spec contracts :
  match spread_loop contracts with
  | Raised e => exists c, In c contracts /\ spread_pct c = Raised e
  | Returned entries =>
      (forall c e, In c contracts -> spread_pct c <> Raised e) /\
      (forall c s, In (c, s) entries <->
                   In c contracts /\ spread_pct c = Returned (Some s))
  end.
Proof.
  induction contracts as [|x xs IH]; cbn [spread_loop].
  - split; [intros c e []|]. intros c s. simpl. tauto.
  - destruct (spread_pct x) as [entry|e] eqn:Ex.
    + destruct (spread_loop xs) as [entries|e].
      * destruct IH as [Hno Hin]. split.
        -- intros c e [<-|Hc]; [congruence|now apply Hno].
        -- intros c s. destruct entry as [sx|]; simpl; rewrite ?Hin; split.
           ++ intros [H|[Hc Hs]]; [injection H as <- <-; auto|auto].
           ++ intros [[<-|Hc] Hs]; [left; congruence|right; auto].
           ++ intros [Hc Hs]. auto.
           ++ intros [[<-|Hc] Hs]; [congruence|auto].
      * destruct IH as (c & Hc & He). exists c. split; [now right|exact He].
    + exists x. split; [now left|exact Ex].
Qed.

(** X4. The tight-spread selection returns none only for the empty list.
    It raises exactly when the division does for some contract, that is
    for a contract with positive quotes whose ask becomes the float 0.0.
    Otherwise, when some contract has a positive bid and ask it returns a
    contract of the list with such quotes whose float spread
    [(float(ask) - float(bid)) / float(ask)] no other one undercuts; and
    when none has, it falls back to the first contract of the list.  This
    holds when no float spread is a NaN. *)
Theorem select_tight_spread_contract_spec :
  forall (contracts : list OptionContract.t),
    (forall c s, In c contracts -> spread_pct c = Returned (Some s) ->
                 PrimFloat.is_nan s = false) ->
    match _select_tight_spread_contract contracts with
    | Raised e => exists c, In c contracts /\ spread_pct c = Raised e
    | Returned None => contracts = []
    | Returned (Some best) =>
        (forall c e, In c contracts -> spread_pct c <> Raised e) /\
        In best contracts /\
        ((exists c s, In c contracts /\ spread_pct c = Returned (Some s)) ->
           exists s, spread_pct best = Returned (Some s) /\
                     forall c s', In c contracts ->
                                  spread_pct c = Returned (Some s') ->
                                  PrimFloat.ltb s' s = false) /\
        ((forall c, In c contracts -> spread_pct c = Returned None) ->
           head contracts = Some best)
    end.
Proof.
  intros contracts Hnan. unfold _select_tight_spread_contract.
  destruct contracts as [|c0 cs]; [reflexivity|].
  set (l := c0 :: cs) in *.
  pose proof (spread_loop_spec l) as Hloop.
  destruct (spread_loop l) as [entries|e]; [|exact Hloop].
  destruct Hloop as [Hno Hin].
  pose proof (sort_by_float_key_head snd entries) as Hsort.
  destruct (sort_by_float_key snd entries) as [|[best s] rest].
  - split; [exact Hno|]. split; [now left|]. split.
    + intros (c & s & Hc & Hs).
      assert (Hcs : In (c, s) entries) by now apply Hin.
      rewrite Hsort in Hcs; [destruct Hcs|].
      intros [c' s'] H'. apply Hin in H' as [Hc' Hs']. now apply (Hnan c').
    + reflexivity.
  - assert (Hfirst : first_least snd entries (best, s)).
    { apply Hsort. intros [c' s'] H'. apply Hin in H' as [Hc' Hs'].
      now apply (Hnan c'). }
    destruct (first_least_least _ _ _ Hfirst) as [Hbest Hleast].
    apply Hin in Hbest as [Hbest Hs].
    split; [exact Hno|]. split; [exact Hbest|]. split.
    + intros _. exists s. split; [exact Hs|].
      intros c s' Hc Hs'. apply (Hleast (c, s')). now apply Hin.
    + intros Hall. rewrite (Hall best Hbest) in Hs. discriminate.
Qed.

Lemma select_tight_spread_contract_spec_witness :
  exists s,
    spread_pct (quoted_call (240 # 100) (260 # 100)) = Returned (Some s) /\
    forall c s',
      In c [quoted_call (234 # 100) (260 # 100);
            quoted_call (240 # 100) (260 # 100)] ->
      spread_pct c = Returned (Some s') -> PrimFloat.ltb s' s = false.
Proof.
  pose proof (select_tight_spread_contract_spec
                [quoted_call (234 # 100) (260 # 100);
                 quoted_call (240 # 100) (260 # 100)]) as H.
  assert (Hnan : forall c s,
            In c [quoted_call (234 # 100) (260 # 100);
                  quoted_call (240 # 100) (260 # 100)] ->
            spread_pct c = Returned (Some s) -> PrimFloat.is_nan s = false).
  { intros c s Hc. simpl in Hc.
    repeat (destruct Hc as [Hc|Hc]); try contradiction; subst c;
      vm_compute; intros Hs; injection Hs as <-; reflexivity. }
  specialize (H Hnan).
  change (_select_tight_spread_contract
            [quoted_call (234 # 100) (260 # 100);
             quoted_call (240 # 100) (260 # 100)])
    with (Returned (Some (quoted_call (240 # 100) (260 # 100)))) in H.
  destruct H as (_ & _ & Hex & _). apply Hex.
  eexists (quoted_call (240 # 100) (260 # 100)), _.
  split; [right; now left|]. vm_compute. reflexivity.
Defined.

(** The quotes 2.34 / 2.60 and 0.9 / 1.0 have the same exact spread, one
    tenth; as floats the first spread is 0.10000000000000009 and the
    second 0.09999999999999998, and the selection returns the second
    contract. *)
Example select_tight_spread_by_float_spread :
  _select_tight_spread_contract
    [quoted_call (234 # 100) (260 # 100); quoted_call (9 # 10) 1] =
  Returned (Some (quoted_call (9 # 10) 1)).
Proof. vm_compute. reflexivity. Qed.

(** An ask of 1e-400 is positive as a decimal and 0.0 as a float: the
    division raises, and [select_option_contract] returns none. *)
Example select_tight_spread_raises :
  _select_tight_spread_contract
    [quoted_call (1 # 10 ^ 401) (1 # 10 ^ 400)] =
  Raised "float division by zero".
Proof. vm_compute. reflexivity. Qed.

End OtherSelections.

Section SelectOptionContract.
Import OptionSelector.

Lemma sorted_filter_head_in {A : Type} (key : A -> Q) (keep : A -> bool)
    (l : list A) (x : A) (rest : list A) :
  sort_by_key key (List.filter keep l) = x :: rest -> In x l.
Proof.
  intros H. pose proof (sort_by_key_head key (List.filter keep l)) as Hs.
  rewrite H in Hs. destruct Hs as [Hin _].
  now apply List.filter_In in Hin as [Hin _].
Qed.

Lemma float_sorted_filter_head_in {A : Type} (key : A -> float) (keep : A -> bool)
    (l : list A) (x : A) (rest : list A) :
  sort_by_float_key key (List.filter keep l) = x :: rest -> In x l.
Proof.
  intros H.
  assert (Hin : In x (sort_by_float_key key (List.filter keep l)))
    by (rewrite H; now left).
  apply in_sort_by_float_key in Hin.
  now apply List.filter_In in Hin as [Hin _].
Qed.

(** Every strategy picks its contract from the list it is given. *)
Lemma apply_selection_strategy_in contracts current_price strategy best :
  _apply_selection_strategy contracts current_price strategy =
    Returned (Some best) ->
  In best contracts.
Proof.
  assert (Hatm : Returned (_select_atm_contract contracts current_price) =
                 Returned (Some best) -> In best contracts).
  { intros H. injection H as H.
    pose proof (select_atm_contract_in contracts current_price) as Hl.
    rewrite H in Hl. exact Hl. }
  destruct strategy; cbn [_apply_selection_strategy]; try exact Hatm.
  - unfold _select_otm_contract. destruct contracts as [|c0 cs]; [discriminate|].
    destruct (sort_by_float_key _ _) as [|x rest] eqn:E; [discriminate|].
    intros H. injection H as <-. now apply float_sorted_filter_head_in in E.
  - unfold _select_itm_contract. destruct contracts as [|c0 cs]; [discriminate|].
    destruct (sort_by_float_key _ _) as [|x rest] eqn:E; [discriminate|].
    intros H. injection H as <-. now apply float_sorted_filter_head_in in E.
  - unfold _select_high_volume_contract.
    destruct contracts as [|c0 cs]; [discriminate|].
    destruct (sort_by_key _ _) as [|x rest] eqn:E.
    + intros H. injection H as <-. now left.
    + intros H. injection H as <-. now apply sorted_filter_head_in in E.
  - unfold _select_tight_spread_contract.
    destruct contracts as [|c0 cs]; [discriminate|].
    pose proof (spread_loop_spec (c0 :: cs)) as Hloop.
    destruct (spread_loop (c0 :: cs)) as [entries|e]; [|discriminate].
    destruct Hloop as [_ Hin].
    destruct (sort_by_float_key snd entries) as [|[x s] rest] eqn:E.
    + intros H. injection H as <-. now left.
    + intros H. injection H as <-.
      assert (Hx : In (x, s) (sort_by_float_key snd entries))
        by (rewrite E; now left).
      apply in_sort_by_float_key in Hx. now apply Hin in Hx as [Hx _].
Qed.

(** X5. Whatever the strategy, a contract that [select_option_contract]
    returns is a contract of the option chain, of the type that the signal
    calls for (a put for a sell signal, a call otherwise), and it expires
    no sooner than 7 days and no later than 60 days after the time of the
    call; for an empty chain nothing is selected. *)
Theorem select_option_contract_sound :
  forall (now : datetime) (signal : TradeSignal.t)
         (option_chain : list OptionContract.t) (current_price : Q)
         (strategy : SelectionStrategy),
    (option_chain = [] ->
       select_option_contract now signal option_chain current_price strategy = None) /\
    (forall best,
        select_option_contract now signal option_chain current_price strategy =
          Some best ->
        In best option_chain /\
        OptionContract.option_type best =
          (if Action_is (TradeSignal.action signal) SELL then PUT else CALL) /\
        now + 7 * us_per_day <= OptionContract.expiry best /\
        OptionContract.expiry best <= now + 60 * us_per_day).
Proof.
  intros now signal option_chain current_price strategy. split.
  - now intros ->.
  - intros best. unfold select_option_contract.
    destruct option_chain as [|c0 cs]; [discriminate|].
    set (chain := c0 :: cs).
    destruct (_filter_by_option_type chain (_determine_option_type signal))
      as [|t0 ts] eqn:Et; [discriminate|].
    rewrite <- Et.
    destruct (_filter_by_expiration now
                (_filter_by_option_type chain (_determine_option_type signal)) 7 60)
      as [|e0 es] eqn:Ee; [discriminate|].
    rewrite <- Ee.
    destruct (_apply_selection_strategy _ current_price strategy)
      as [selected|e] eqn:Es; [|discriminate].
    intros H. subst selected.
    apply apply_selection_strategy_in in Es. rename Es into H.
    unfold _filter_by_expiration in H. apply List.filter_In in H as [H Hexp].
    unfold _filter_by_option_type in H. apply List.filter_In in H as [H Hty].
    apply andb_true_iff in Hexp as [Hlo Hhi].
    apply Z.leb_le in Hlo. apply Z.leb_le in Hhi.
    split; [exact H|]. split; [|split; assumption].
    unfold _determine_option_type in Hty.
    destruct (Action_is (TradeSignal.action signal) BUY) eqn:Eb.
    + unfold Action_is in Eb. apply String.eqb_eq in Eb.
      unfold Action_is. rewrite Eb. simpl.
      now destruct (OptionContract.option_type best).
    + destruct (Action_is (TradeSignal.action signal) SELL),
        (OptionContract.option_type best); simpl in *; congruence.
Qed.

End SelectOptionContract.



(** ** SignalValidator: prices and acceptance *)

Section StopLimitOrdering.
Import AccountConfig WebhookSignal SignalValidator.

Lemma lower_nonempty s t c :
  PyStr.lower s = String c t -> PyStr.truthy s = true.
Proof. destruct s; [discriminate|reflexivity]. Qed.

Lemma in_prices_in_errors now_hour signal account_config e :
  In e (_validate_prices signal) ->
  In e (errors (validate_signal now_hour signal account_config)).
Proof.
  intros H. rewrite validate_signal_errors, !in_app_iff. tauto.
Qed.

(** X6. For a stop-limit order with both prices, whatever the case of the
    action and of the order type: a buy whose stop price is not above its
    limit price is invalid with "For buy stop-limit orders, stop price
    should be above limit price", and a sell whose stop price is not below
    its limit price is invalid with the matching sell error; a buy with
    the stop above the limit, or a sell with the stop below, gets neither
    of these errors from the price check. *)
Theorem stop_limit_price_ordering :
  forall (now_hour : Z) (signal : WebhookSignal.t) (account_config : AccountConfig.t)
         (p sp : Decimal) (ot a : string),
    price signal = Some p ->
    stop_price signal = Some sp ->
    order_type signal = Some ot -> PyStr.lower ot = "stop_limit" ->
    action signal = Some a ->
    let r := validate_signal now_hour signal account_config in
    (PyStr.lower a = "buy" -> (Dval sp <= Dval p)%Q ->
       In BuyStopBelowLimit (errors r) /\ is_valid r = false) /\
    (PyStr.lower a = "sell" -> (Dval p <= Dval sp)%Q ->
       In SellStopAboveLimit (errors r) /\ is_valid r = false) /\
    ((PyStr.lower a = "buy" /\ (Dval p < Dval sp)%Q) \/
     (PyStr.lower a = "sell" /\ (Dval sp < Dval p)%Q) ->
       ~ In BuyStopBelowLimit (_validate_prices signal) /\
       ~ In SellStopAboveLimit (_validate_prices signal)).
Proof.
  intros now_hour signal account_config p sp ot a Hp Hsp Hot Hlot Ha r.
  assert (Htail :
    _validate_prices signal =
      ((if Qleb (Dval p) 0 then [PriceNotPositive] else []) ++
       (if Qltb million (Dval p) then [PriceTooHigh] else [])) ++
      ((if Qleb (Dval sp) 0 then [StopPriceNotPositive] else []) ++
       (if Qltb million (Dval sp) then [StopPriceTooHigh] else [])) ++
      (let action_lower := if PyStr.truthy a then PyStr.lower a else "" in
       if String.eqb action_lower "buy" && Qleb (Dval sp) (Dval p)
       then [BuyStopBelowLimit]
       else if String.eqb action_lower "sell" && Qleb (Dval p) (Dval sp)
       then [SellStopAboveLimit]
       else [])).
  { unfold _validate_prices. rewrite Hp, Hsp, Hot, Ha, Hlot.
    rewrite (lower_nonempty ot _ _ Hlot). reflexivity. }
  split; [|split].
  - intros Hbuy Hle.
    assert (Hin : In BuyStopBelowLimit (_validate_prices signal)).
    { rewrite Htail, !in_app_iff. right. right.
      rewrite (lower_nonempty a _ _ Hbuy), Hbuy. cbn zeta.
      apply Qleb_le in Hle. rewrite Hle. now left. }
    split; [now apply in_prices_in_errors|].
    eapply in_errors_not_valid, in_prices_in_errors, Hin.
  - intros Hsell Hle.
    assert (Hin : In SellStopAboveLimit (_validate_prices signal)).
    { rewrite Htail, !in_app_iff. right. right.
      rewrite (lower_nonempty a _ _ Hsell), Hsell. cbn zeta.
      apply Qleb_le in Hle. rewrite Hle. now left. }
    split; [now apply in_prices_in_errors|].
    eapply in_errors_not_valid, in_prices_in_errors, Hin.
  - intros Hok. rewrite Htail, !in_app_iff.
    assert (Hlast :
      (let action_lower := if PyStr.truthy a then PyStr.lower a else "" in
       if String.eqb action_lower "buy" && Qleb (Dval sp) (Dval p)
       then [BuyStopBelowLimit]
       else if String.eqb action_lower "sell" && Qleb (Dval p) (Dval sp)
       then [SellStopAboveLimit]
       else []) = []).
    { destruct Hok as [[Hl Hlt]|[Hl Hlt]];
        rewrite (lower_nonempty a _ _ Hl), Hl; cbn zeta;
        apply Qleb_gt in Hlt; rewrite Hlt; reflexivity. }
    rewrite Hlast.
    split; intros [[H|H]|[[H|H]|[]]];
      repeat match type of H with
             | In _ (if ?b then _ else _) => destruct b
             end; simpl in H; intuition discriminate.
Qed.

(** The buy stop-limit order with limit 150 and stop 140 is invalid. *)
Lemma stop_limit_price_ordering_witness :
  In BuyStopBelowLimit (errors (validate_signal 10 sample_stop_limit sample_account)) /\
  is_valid (validate_signal 10 sample_stop_limit sample_account) = false.
Proof.
  apply (proj1 (stop_limit_price_ordering 10 sample_stop_limit sample_account
                  (mkDecimal 150 0) (mkDecimal 140 0) "stop_limit" "buy"
                  eq_refl eq_refl eq_refl eq_refl eq_refl));
    [reflexivity|discriminate].
Defined.

End StopLimitOrdering.

Section PlainTickers.
Import AccountConfig WebhookSignal SignalValidator.

Lemma letter_facts c :
  is_letter c = true ->
  PyStr.isspace c = false /\ PyStr.isupper (PyStr.upper_char c) = true /\
  Ascii.eqb "/" c = false /\ Ascii.eqb "-" c = false /\ Ascii.eqb " " c = false /\
  Ascii.eqb "." c = false.
Proof.
  destruct c as [[] [] [] [] [] [] [] []]; vm_compute; intros H;
    try discriminate H; repeat split; reflexivity.
Qed.

Lemma upper_facts c :
  PyStr.isupper c = true ->
  Ascii.eqb "/" c = false /\ Ascii.eqb "-" c = false /\ Ascii.eqb " " c = false /\
  Ascii.eqb "." c = false.
Proof.
  destruct c as [[] [] [] [] [] [] [] []]; vm_compute; intros H;
    try discriminate H; repeat split; reflexivity.
Qed.

Lemma letters_lstrip s :
  PyStr.forallb_chars is_letter s = true -> PyStr.lstrip s = s.
Proof.
  destruct s as [|c r]; simpl; [reflexivity|].
  intros H. apply andb_true_iff in H as [Hc _].
  now rewrite (proj1 (letter_facts c Hc)).
Qed.

Lemma letters_rstrip s :
  PyStr.forallb_chars is_letter s = true -> PyStr.rstrip s = s.
Proof.
  induction s as [|c r IH]; simpl; [reflexivity|].
  intros H. apply andb_true_iff in H as [Hc Hr].
  rewrite (IH Hr). destruct r; [|reflexivity].
  now rewrite (proj1 (letter_facts c Hc)).
Qed.

Lemma letters_strip s :
  PyStr.forallb_chars is_letter s = true -> PyStr.strip s = s.
Proof.
  intros H. unfold PyStr.strip. rewrite (letters_lstrip s H).
  now apply letters_rstrip.
Qed.

Lemma letters_upper s :
  PyStr.forallb_chars is_letter s = true ->
  PyStr.forallb_chars PyStr.isupper (PyStr.upper s) = true /\
  PyStr.len (PyStr.upper s) = PyStr.len s.
Proof.
  unfold PyStr.len, PyStr.upper. induction s as [|c r IH]; simpl; [auto|].
  intros H. apply andb_true_iff in H as [Hc Hr].
  destruct (IH Hr) as [IH1 IH2].
  rewrite IH1. rewrite (proj1 (proj2 (letter_facts c Hc))).
  split; [reflexivity|]. lia.
Qed.

Lemma letters_no_char s c :
  PyStr.forallb_chars is_letter s = true -> is_letter c = false ->
  PyStr.contains_char c s = false.
Proof.
  intros Hs Hc. induction s as [|d r IH]; simpl; [reflexivity|].
  simpl in Hs. apply andb_true_iff in Hs as [Hd Hr].
  rewrite (IH Hr), orb_false_r.
  destruct (Ascii.eqb c d) eqn:E; [|reflexivity].
  apply Ascii.eqb_eq in E. subst d. congruence.
Qed.

Lemma uppers_are_letters s :
  PyStr.forallb_chars PyStr.isupper s = true ->
  PyStr.forallb_chars is_letter s = true.
Proof.
  induction s as [|c r IH]; simpl; [reflexivity|].
  intros H. apply andb_true_iff in H as [Hc Hr].
  unfold is_letter at 1. now rewrite Hc, (IH Hr).
Qed.

Lemma uppers_span s :
  PyStr.forallb_chars PyStr.isupper s = true ->
  PyStr.span PyStr.isupper s = (s, EmptyString).
Proof.
  induction s as [|c r IH]; simpl; [reflexivity|].
  intros H. apply andb_true_iff in H as [Hc Hr].
  now rewrite Hc, (IH Hr).
Qed.

Lemma uppers_valid_chars s :
  PyStr.forallb_chars PyStr.isupper s = true -> PyStr.truthy s = true ->
  valid_chars s = true.
Proof.
  intros Hs Ht. unfold valid_chars. rewrite Ht. simpl.
  induction s as [|c r IH]; simpl; [reflexivity|].
  simpl in Hs. apply andb_true_iff in Hs as [Hc Hr].
  rewrite Hc. simpl. destruct r; [reflexivity|]. now apply IH.
Qed.

(** The symbol checks find nothing wrong with a plain ticker. *)
Lemma plain_ticker_format s :
  plain_ticker s -> _validate_symbol_format (Some s) = [].
Proof.
  intros [Hl [Hlo Hhi]].
  assert (Ht : PyStr.truthy s = true).
  { destruct s; [unfold PyStr.len in Hlo; simpl in Hlo; lia|reflexivity]. }
  unfold _validate_symbol_format, truthy_ostr. rewrite Ht. simpl.
  rewrite (letters_strip s Hl).
  destruct (letters_upper s Hl) as [Hu Hlen].
  remember (PyStr.upper s) as u eqn:Eu. clear Eu.
  assert (Htu : PyStr.truthy u = true).
  { destruct u; [unfold PyStr.len in *; simpl in *; lia|reflexivity]. }
  replace (PyStr.len u <? 1) with false by (symmetry; apply Z.ltb_ge; lia).
  replace (50 <? PyStr.len u) with false by (symmetry; apply Z.ltb_ge; lia).
  rewrite (uppers_valid_chars u Hu Htu). simpl.
  pose proof (uppers_are_letters u Hu) as Hul.
  unfold _is_option_symbol, _is_crypto_symbol.
  rewrite (letters_no_char u " " Hul eq_refl),
    (letters_no_char u "/" Hul eq_refl), (letters_no_char u "-" Hul eq_refl).
  simpl. unfold stock_pattern. rewrite (uppers_span u Hu). simpl.
  replace (1 <=? PyStr.len u) with true by (symmetry; apply Z.leb_le; lia).
  replace (PyStr.len u <=? 5) with true by (symmetry; apply Z.leb_le; lia).
  reflexivity.
Qed.

Lemma plain_ticker_required s :
  plain_ticker s ->
  negb (PyStr.truthy s) || String.eqb (PyStr.strip s) "" = false.
Proof.
  intros [Hl [Hlo _]]. rewrite (letters_strip s Hl).
  destruct s; [unfold PyStr.len in Hlo; simpl in Hlo; lia|reflexivity].
Qed.

Lemma plain_ticker_not_option s :
  plain_ticker s -> _is_option_symbol s = false.
Proof.
  intros [Hl _]. unfold _is_option_symbol.
  now rewrite (letters_no_char s " " Hl eq_refl).
Qed.

End PlainTickers.

Section Acceptance.
Import AccountConfig WebhookSignal SignalValidator.

(** X7. A market order (or one without order type) for a plain ticker of
    one to five letters, with one of the four actions in lower case, no
    prices, a valid or absent time in force, and no quantity or a quantity
    that is positive, at most 1,000,000, at most the account's maximum and
    of at most 8 decimal places, is valid: no check reports an error. *)
Theorem validate_signal_accepts_plain_market_order :
  forall (now_hour : Z) (signal : WebhookSignal.t) (account_config : AccountConfig.t)
         (s a : string),
    symbol signal = Some s -> plain_ticker s ->
    action signal = Some a -> In a valid_actions ->
    price signal = None -> stop_price signal = None ->
    (order_type signal = None \/ order_type signal = Some "market") ->
    (time_in_force signal = None \/
     exists t, time_in_force signal = Some t /\ In t valid_time_in_force) ->
    match quantity signal with
    | None => True
    | Some q => acceptable_quantity account_config q
    end ->
    errors (validate_signal now_hour signal account_config) = [] /\
    is_valid (validate_signal now_hour signal account_config) = true.
Proof.
  intros now_hour signal account_config s a Hs Hticker Ha Hact Hp Hsp Hot Htif Hq.
  assert (Herr : errors (validate_signal now_hour signal account_config) = []).
  { rewrite validate_signal_errors.
    assert (H1 : _validate_required_fields signal = []).
    { unfold _validate_required_fields. rewrite Hs, Ha.
      rewrite (plain_ticker_required s Hticker).
      simpl in Hact. destruct Hact as [<-|[<-|[<-|[<-|[]]]]]; reflexivity. }
    assert (H2 : _validate_symbol_format (symbol signal) = []).
    { rewrite Hs. now apply plain_ticker_format. }
    assert (H3 : _validate_action (action signal) = []).
    { rewrite Ha. simpl in Hact.
      destruct Hact as [<-|[<-|[<-|[<-|[]]]]]; reflexivity. }
    assert (H4 : _validate_quantities signal = []).
    { unfold _validate_quantities.
      destruct (quantity signal) as [q|]; [|reflexivity].
      destruct Hq as (Hpos & Hmax & Hexp & _).
      apply Qleb_gt in Hpos. apply Qltb_ge in Hmax. rewrite Hpos, Hmax.
      destruct (dexp q <? -8) eqn:E; [apply Z.ltb_lt in E; lia|reflexivity]. }
    assert (H5 : _validate_prices signal = []).
    { unfold _validate_prices. now rewrite Hp, Hsp. }
    assert (H6 : _validate_order_parameters signal = []).
    { unfold _validate_order_parameters. rewrite Hp, Hsp.
      destruct Hot as [Ho|Ho]; rewrite Ho;
        destruct Htif as [Ht|(t & Ht & Hin)]; rewrite Ht; try reflexivity;
        simpl in Hin; destruct Hin as [<-|[<-|[<-|[<-|[]]]]]; reflexivity. }
    assert (H7 : _validate_against_account_config signal account_config = []).
    { unfold _validate_against_account_config. rewrite Hs.
      rewrite (plain_ticker_not_option s Hticker), andb_false_r, andb_false_r.
      simpl. destruct (quantity signal) as [q|]; [|reflexivity].
      destruct Hq as (_ & _ & _ & Hlim).
      apply Qltb_ge in Hlim. now rewrite Hlim. }
    now rewrite H1, H2, H3, H4, H5, H6, H7. }
  split; [exact Herr|].
  rewrite validate_signal_is_valid, Herr. reflexivity.
Qed.

Lemma validate_signal_accepts_plain_market_order_witness :
  is_valid (validate_signal 10 (sample_signal (Some "buy") (Some (mkDecimal 5 0)))
              sample_account) = true.
Proof.
  apply (validate_signal_accepts_plain_market_order 10
           (sample_signal (Some "buy") (Some (mkDecimal 5 0))) sample_account
           "AAPL" "buy" eq_refl).
  - split; [reflexivity|]. unfold PyStr.len. simpl. lia.
  - reflexivity.
  - now left.
  - reflexivity.
  - reflexivity.
  - now right.
  - right. exists "day". split; [reflexivity|]. now left.
  - simpl. unfold acceptable_quantity. simpl.
    repeat split; try reflexivity; try discriminate; lia.
Defined.

End Acceptance.

(** ** From a validated signal to the queue *)

Section ConversionFacts.
Import AccountConfig WebhookSignal SignalValidator SignalConversion.

Lemma valid_checks_empty now_hour signal account_config :
  is_valid (validate_signal now_hour signal account_config) = true ->
  _validate_required_fields signal = [] /\
  _validate_action (action signal) = [] /\
  _validate_quantities signal = [] /\
  _validate_against_account_config signal account_config = [].
Proof.
  rewrite validate_signal_is_valid, length_eqb_nil, validate_signal_errors.
  intros H.
  repeat match type of H with
         | _ ++ _ = [] => apply app_eq_nil in H as [? H]
         end.
  auto.
Qed.

Lemma required_fields_present signal :
  _validate_required_fields signal = [] ->
  exists s a, symbol signal = Some s /\ action signal = Some a /\
              PyStr.truthy a = true.
Proof.
  unfold _validate_required_fields. intros H.
  apply app_eq_nil in H as [Hs Ha].
  destruct (symbol signal) as [s|]; [|discriminate].
  destruct (action signal) as [a|]; [|discriminate].
  exists s, a. split; [reflexivity|]. split; [reflexivity|].
  destruct (PyStr.truthy a); [reflexivity|discriminate].
Qed.

(** X8. A signal that [validate_signal] accepts is converted without an
    exception.  The trade signal is for the account of the configuration;
    its action is the signal's action in lower case, which, stripped, is
    one of buy, sell, close, close_all; and its quantity is present: the
    signal's own quantity, then positive, at most 1,000,000 and at most the
    account's maximum, or the account's default size when the signal has
    none. *)
Theorem convert_to_trade_signal_of_valid :
  forall (now_hour : Z) (generated_id : string) (signal : WebhookSignal.t)
         (account_config : AccountConfig.t) (signal_id : option string),
    is_valid (validate_signal now_hour signal account_config) = true ->
    exists ts a,
      convert_to_trade_signal generated_id signal account_config signal_id =
        Returned ts /\
      TradeSignal.account_name ts = name account_config /\
      action signal = Some a /\
      TradeSignal.action ts = ActionStr (PyStr.lower a) /\
      In (PyStr.strip (PyStr.lower a)) valid_actions /\
      match quantity signal with
      | Some q =>
          TradeSignal.quantity ts = Some (Dval q) /\
          (0 < Dval q)%Q /\ (Dval q <= million)%Q /\
          (Dval q <= inject_Z (max_position_size account_config))%Q
      | None =>
          TradeSignal.quantity ts =
            Some (inject_Z (default_position_size account_config))
      end.
Proof.
  intros now_hour generated_id signal account_config signal_id Hvalid.
  destruct (valid_checks_empty _ _ _ Hvalid) as (Hreq & Hact & Hqty & Hacc).
  destruct (required_fields_present signal Hreq) as (s & a & Hs & Ha & Hta).
  unfold convert_to_trade_signal. rewrite Hs, Ha.
  eexists. exists a. split; [reflexivity|]. simpl.
  split; [reflexivity|]. split; [reflexivity|]. split; [reflexivity|]. split.
  - rewrite Ha in Hact. unfold _validate_action in Hact. rewrite Hta in Hact.
    cbn [negb] in Hact. cbv zeta in Hact.
    destruct (mem (PyStr.strip (PyStr.lower a)) valid_actions) eqn:E;
      [|simpl in Hact; discriminate].
    unfold mem in E. apply existsb_exists in E as (x & Hx & Heq).
    apply String.eqb_eq in Heq. now subst x.
  - unfold _validate_quantities in Hqty.
    unfold _validate_against_account_config in Hacc.
    apply app_eq_nil in Hacc as [_ Hacc].
    destruct (quantity signal) as [q|]; [|reflexivity].
    split; [reflexivity|].
    apply app_eq_nil in Hqty as [H1 Hqty]. apply app_eq_nil in Hqty as [H2 _].
    destruct (Qleb (Dval q) 0) eqn:E1; [discriminate|].
    destruct (Qltb million (Dval q)) eqn:E2; [discriminate|].
    destruct (Qltb (inject_Z (max_position_size account_config)) (Dval q)) eqn:E3;
      [discriminate|].
    apply Qleb_gt in E1. apply Qltb_ge in E2. apply Qltb_ge in E3. auto.
Qed.

Lemma convert_to_trade_signal_of_valid_witness :
  exists ts,
    convert_to_trade_signal "signal_0"
      (sample_signal (Some "buy") (Some (mkDecimal 5 0))) sample_account None =
      Returned ts /\
    TradeSignal.quantity ts = Some (Dval (mkDecimal 5 0)).
Proof.
  destruct (convert_to_trade_signal_of_valid 10 "signal_0"
              (sample_signal (Some "buy") (Some (mkDecimal 5 0)))
              sample_account None eq_refl)
    as (ts & a & Hc & _ & _ & _ & _ & Hq & _).
  exists ts. split; [exact Hc|exact Hq].
Defined.

End ConversionFacts.

Section ConversionIds.
Import AccountConfig WebhookSignal SignalValidator SignalConversion.

(** The conversion of a valid signal returns, with the id it is given
    when that id is not empty. *)
Lemma convert_to_trade_signal_body_valid now_hour generated_id signal
    account_config signal_id :
  is_valid (validate_signal now_hour signal account_config) = true ->
  exists ts,
    convert_to_trade_signal generated_id signal account_config signal_id =
      Returned ts /\
    TradeSignal.signal_id ts =
      if truthy_ostr signal_id then default generated_id signal_id
      else or_str (WebhookSignal.signal_id signal) generated_id.
Proof.
  intros Hvalid.
  destruct (valid_checks_empty _ _ _ Hvalid) as (Hreq & _).
  destruct (required_fields_present signal Hreq) as (s & a & Hs & Ha & _).
  unfold convert_to_trade_signal. rewrite Hs, Ha.
  eexists. split; reflexivity.
Qed.

End ConversionIds.

Section QueueingFacts.
Import AccountConfig WebhookSignal SignalValidator SignalConversion SignalProcessor.

Context {World : Type}.

Lemma or_str_truthy x y :
  PyStr.truthy y = true -> PyStr.truthy (or_str x y) = true.
Proof.
  intros Hy. unfold or_str. destruct x as [s|]; [|exact Hy].
  now destruct (PyStr.truthy s) eqn:E.
Qed.

(** X9. [process_webhook_signal] leaves the processor untouched when the
    signal fails validation and reports "validation_failed"; when the
    signal is valid it never raises, appends exactly one trade signal at
    the end of the queue, under the request id (or the generated id when
    there is none), and records that id as "queued"; the world behind the
    broker is not touched either way. *)
Theorem process_webhook_signal_queues_valid_signals :
  forall (now_hour : Z) (generated_id : string) (self : SignalProcessor.t World)
         (signal : WebhookSignal.t) (account_config : AccountConfig.t)
         (request_id : option string),
    PyStr.truthy generated_id = true ->
    let out := process_webhook_signal World now_hour generated_id self signal
                 account_config request_id in
    let validation_result := validate_signal now_hour signal account_config in
    let signal_id := or_str request_id generated_id in
    (is_valid validation_result = false ->
       fst out = Returned (ValidationFailed signal_id validation_result) /\
       snd out = self) /\
    (is_valid validation_result = true ->
       exists ts,
         fst out = Returned (Queued signal_id ts validation_result) /\
         TradeSignal.signal_id ts = signal_id /\
         _processing_queue (snd out) = _processing_queue self ++ [ts] /\
         get_signal_status World (snd out) signal_id = Some "queued" /\
         (forall other, other <> signal_id ->
            get_signal_status World (snd out) other =
            get_signal_status World self other) /\
         world (snd out) = world self).
Proof.
  intros now_hour generated_id self signal account_config request_id Hgen
    out validation_result signal_id.
  unfold out, process_webhook_signal. fold validation_result. fold signal_id.
  split.
  - intros Hinv. rewrite Hinv. simpl. auto.
  - intros Hval. rewrite Hval. simpl.
    destruct (convert_to_trade_signal_body_valid now_hour generated_id signal
                account_config (Some signal_id) Hval) as (ts & Hc & Hid).
    rewrite Hc. exists ts. split; [reflexivity|].
    assert (Hsid : TradeSignal.signal_id ts = signal_id).
    { rewrite Hid. unfold truthy_ostr.
      unfold signal_id at 1. now rewrite (or_str_truthy request_id _ Hgen). }
    split; [exact Hsid|]. simpl. split; [reflexivity|].
    unfold get_signal_status. simpl. rewrite Hsid.
    split; [apply lookup_insert_eq|]. split; [|reflexivity].
    intros other Hne. now apply lookup_insert_ne.
Qed.

End QueueingFacts.

Section DrainStatuses.
Import SignalProcessor.

Context {World Details : Type}.
Context (has_client has_account_config : string -> World -> bool).
Context (exec_trade exec_close exec_close_all :
           TradeSignal.t -> World -> outcome Details * World).

Local Abbreviation body :=
  (process_single_body World Details has_client has_account_config
     exec_trade exec_close exec_close_all).
Local Abbreviation single :=
  (_process_single_signal World Details has_client has_account_config
     exec_trade exec_close exec_close_all).
Local Abbreviation drain_queue :=
  (drain World Details has_client has_account_config
     exec_trade exec_close exec_close_all).
Local Abbreviation process :=
  (process_queued_signals World Details has_client has_account_config
     exec_trade exec_close exec_close_all).

(** One signal: its id ends as "completed" or "failed", the other ids
    keep their status. *)
Lemma single_status (self : SignalProcessor.t World) trade_signal :
  exists status,
    is_finished status = true /\
    _processing_status (snd (single self trade_signal)) =
      <[TradeSignal.signal_id trade_signal := status]> (_processing_status self).
Proof.
  unfold _process_single_signal. cbn [world set_status].
  destruct (body trade_signal (world self)) as [[d|e] w]; cbn [snd];
    [exists "completed"|exists "failed"]; (split; [reflexivity|]);
    simpl; apply insert_insert_eq.
Qed.

Lemma drain_status queue :
  forall (self : SignalProcessor.t World) (p f : nat)
         (rs : list (SignalResult Details)),
    (forall id, ~ In id (map TradeSignal.signal_id queue) ->
       _processing_status (snd (drain_queue queue self p f rs)) !! id =
       _processing_status self !! id) /\
    (forall ts, In ts queue ->
       exists status,
         _processing_status (snd (drain_queue queue self p f rs))
           !! TradeSignal.signal_id ts = Some status /\
         is_finished status = true).
Proof.
  induction queue as [|t0 rest IH]; intros self p f rs.
  - split; [reflexivity|intros ts []].
  - cbn [drain].
    destruct (single_status (set_queue World self rest) t0) as (s0 & Hfin & Hst).
    destruct (single (set_queue World self rest) t0) as [r self'] eqn:Es.
    cbn [snd] in Hst. simpl in Hst.
    assert (Hboth : forall p' f',
      (forall id, ~ In id (map TradeSignal.signal_id (t0 :: rest)) ->
         _processing_status (snd (drain_queue rest self' p' f' (rs ++ [r]))) !! id =
         _processing_status self !! id) /\
      (forall ts, In ts (t0 :: rest) ->
         exists status,
           _processing_status (snd (drain_queue rest self' p' f' (rs ++ [r])))
             !! TradeSignal.signal_id ts = Some status /\
           is_finished status = true)).
    { intros p' f'. destruct (IH self' p' f' (rs ++ [r])) as [IH1 IH2]. split.
      - intros id Hid. simpl in Hid.
        rewrite IH1 by tauto. rewrite Hst. apply lookup_insert_ne. tauto.
      - intros ts [<-|Hts]; [|now apply IH2].
        destruct (in_dec string_dec (TradeSignal.signal_id t0)
                    (map TradeSignal.signal_id rest)) as [Hin|Hnin].
        + apply in_map_iff in Hin as (ts' & Heq & Hts').
          rewrite <- Heq. now apply IH2.
        + exists s0. rewrite (IH1 _ Hnin), Hst. split; [|exact Hfin].
          apply lookup_insert_eq. }
    destruct (String.eqb (r_status r) "processed"); apply Hboth.
Qed.

(** X10. After [process_queued_signals], every signal that was queued has
    the status "completed" or "failed" (none is left "queued" or
    "processing"), and the status of every id that was not in the queue
    is what it was. *)
Theorem process_queued_signals_final_statuses :
  forall (self : SignalProcessor.t World),
    let after := snd (process self) in
    (forall ts, In ts (_processing_queue self) ->
       get_signal_status World after (TradeSignal.signal_id ts) = Some "completed" \/
       get_signal_status World after (TradeSignal.signal_id ts) = Some "failed") /\
    (forall id, ~ In id (map TradeSignal.signal_id (_processing_queue self)) ->
       get_signal_status World after id = get_signal_status World self id).
Proof.
  intros self after.
  destruct (drain_status (_processing_queue self) self 0%nat 0%nat []) as [H1 H2].
  split.
  - intros ts Hts. destruct (H2 ts Hts) as (status & Hs & Hfin).
    unfold get_signal_status, after, process_queued_signals. rewrite Hs.
    unfold is_finished in Hfin. apply orb_true_iff in Hfin as [Hfin|Hfin];
      apply String.eqb_eq in Hfin; subst status; auto.
  - intros id Hid. unfold get_signal_status, after, process_queued_signals.
    now apply H1.
Qed.

(** X11. When the account of a signal has no client or no configuration,
    or its action is none of buy, sell, close and close_all (in any case),
    no execution runs: the world behind the broker is unchanged, the
    result is "failed" with an error, and the status of the signal is
    "failed". *)
Theorem process_single_signal_without_execution :
  forall (self : SignalProcessor.t World) (trade_signal : TradeSignal.t),
    let account := TradeSignal.account_name trade_signal in
    let action_lower :=
      PyStr.lower (Action_str (TradeSignal.action trade_signal)) in
    has_client account (world self) = false \/
    has_account_config account (world self) = false \/
    ~ In action_lower ["buy"; "sell"; "close"; "close_all"] ->
    let out := single self trade_signal in
    world (snd out) = world self /\
    r_status (fst out) = "failed" /\
    is_Some (r_error (fst out)) /\
    r_signal_id (fst out) = TradeSignal.signal_id trade_signal /\
    get_signal_status World (snd out) (TradeSignal.signal_id trade_signal) =
      Some "failed".
Proof.
  intros self trade_signal account action_lower Hcase out.
  assert (Hbody : exists e, body trade_signal (world self) = (Raised e, world self)).
  { unfold process_single_body. fold account. fold action_lower.
    destruct (has_client account (world self)); [|simpl; eauto].
    destruct (has_account_config account (world self)); [|simpl; eauto].
    destruct Hcase as [H|[H|H]]; try discriminate. simpl.
    destruct (String.eqb action_lower "buy") eqn:E1;
      [apply String.eqb_eq in E1; contradiction H; simpl; auto|].
    destruct (String.eqb action_lower "sell") eqn:E2;
      [apply String.eqb_eq in E2; contradiction H; simpl; auto|].
    destruct (String.eqb action_lower "close") eqn:E3;
      [apply String.eqb_eq in E3; contradiction H; simpl; auto|].
    destruct (String.eqb action_lower "close_all") eqn:E4;
      [apply String.eqb_eq in E4; contradiction H; simpl; auto|].
    simpl. eauto. }
  destruct Hbody as [e He].
  unfold out, _process_single_signal. cbn [world set_status]. rewrite He.
  simpl. repeat split; try reflexivity; [now eexists|].
  unfold get_signal_status. simpl. apply lookup_insert_eq.
Qed.

End DrainStatuses.

Section EndToEnd.
Import AccountConfig WebhookSignal SignalValidator SignalConversion SignalProcessor.

Context {World Details : Type}.
Context (has_client has_account_config : string -> World -> bool).
Context (exec_trade exec_close exec_close_all :
           TradeSignal.t -> World -> outcome Details * World).

Local Abbreviation body :=
  (process_single_body World Details has_client has_account_config
     exec_trade exec_close exec_close_all).
Local Abbreviation single :=
  (_process_single_signal World Details has_client has_account_config
     exec_trade exec_close exec_close_all).
Local Abbreviation process :=
  (process_queued_signals World Details has_client has_account_config
     exec_trade exec_close exec_close_all).

(** What queueing a valid signal does to the processor. *)
Lemma queue_valid_signal now_hour generated_id (self : SignalProcessor.t World)
    signal account_config request_id :
  PyStr.truthy generated_id = true ->
  is_valid (validate_signal now_hour signal account_config) = true ->
  exists ts,
    TradeSignal.signal_id ts = or_str request_id generated_id /\
    snd (process_webhook_signal World now_hour generated_id self signal
           account_config request_id) =
      _queue_signal_for_processing World self ts.
Proof.
  intros Hgen Hval. unfold process_webhook_signal. rewrite Hval. simpl.
  destruct (convert_to_trade_signal_body_valid now_hour generated_id signal
              account_config (Some (or_str request_id generated_id)) Hval)
    as (ts & Hc & Hid).
  rewrite Hc. exists ts. split; [|reflexivity].
  rewrite Hid. unfold truthy_ostr.
  now rewrite (or_str_truthy request_id _ Hgen).
Qed.

(** X12. End to end: a valid signal posted to a processor with an empty
    queue and then drained gives exactly one result; it bears the id of
    the request, its status is "processed" or "failed", the totals count
    one signal, the queue is empty again and the status of the id is
    "completed" or "failed". *)
Theorem webhook_signal_end_to_end :
  forall (now_hour : Z) (generated_id : string) (self : SignalProcessor.t World)
         (signal : WebhookSignal.t) (account_config : AccountConfig.t)
         (request_id : option string),
    PyStr.truthy generated_id = true ->
    _processing_queue self = [] ->
    is_valid (validate_signal now_hour signal account_config) = true ->
    let signal_id := or_str request_id generated_id in
    let queued := snd (process_webhook_signal World now_hour generated_id self
                         signal account_config request_id) in
    let summary := fst (process queued) in
    let after := snd (process queued) in
    exists r,
      results summary = [r] /\
      r_signal_id r = signal_id /\
      (r_status r = "processed" \/ r_status r = "failed") /\
      total_count summary = 1%nat /\
      (processed_count summary + failed_count summary)%nat = 1%nat /\
      _processing_queue after = [] /\
      (get_signal_status World after signal_id = Some "completed" \/
       get_signal_status World after signal_id = Some "failed").
Proof.
  intros now_hour generated_id self signal account_config request_id
    Hgen Hempty Hval signal_id queued summary after.
  destruct (queue_valid_signal now_hour generated_id self signal account_config
              request_id Hgen Hval) as (ts & Hid & Hq).
  fold signal_id in Hid. fold queued in Hq.
  assert (Hqueue : _processing_queue queued = [ts]).
  { rewrite Hq. simpl. now rewrite Hempty. }
  unfold summary, after, process_queued_signals. rewrite Hqueue.
  cbn [drain].
  pose proof (single_result has_client has_account_config exec_trade exec_close
                exec_close_all (set_queue World queued []) ts) as Hres.
  destruct (single_status has_client has_account_config exec_trade exec_close
              exec_close_all (set_queue World queued []) ts) as (s0 & Hfin & Hst).
  destruct (single (set_queue World queued []) ts) as [r self'] eqn:Es.
  cbn [fst snd] in Hres, Hst.
  exists r.
  assert (Hr : r_signal_id r = signal_id /\
               (r_status r = "processed" \/ r_status r = "failed")).
  { rewrite Hres, <- Hid.
    destruct (fst (body ts (world (set_queue World queued [])))); simpl; auto. }
  destruct Hr as [Hrid Hrst].
  assert (Hstatus :
    _processing_status self' !! signal_id = Some "completed" \/
    _processing_status self' !! signal_id = Some "failed").
  { rewrite Hst, Hid, lookup_insert_eq.
    unfold is_finished in Hfin. apply orb_true_iff in Hfin as [Hfin|Hfin];
      apply String.eqb_eq in Hfin; subst s0; auto. }
  destruct (String.eqb (r_status r) "processed"); simpl;
    (split; [reflexivity|]); (split; [exact Hrid|]); (split; [exact Hrst|]);
    (split; [reflexivity|]); (split; [reflexivity|]); (split; [reflexivity|]);
    exact Hstatus.
Qed.

End EndToEnd.

Section ClearCompleted.
Import SignalProcessor.

Context {World : Type}.

Lemma fold_delete_lookup (l : list (string * string)) :
  forall (m : gmap string string) (k : string),
    fold_left (fun m kv => delete (fst kv) m) l m !! k =
    if bool_decide (k ∈ map fst l) then None else m !! k.
Proof.
  induction l as [|[k0 v0] l IH]; intros m k; simpl; [reflexivity|].
  rewrite IH. destruct (decide (k0 = k)) as [->|Hne].
  - rewrite lookup_delete_eq.
    rewrite (bool_decide_eq_true_2 (k ∈ k :: _)) by apply list_elem_of_here.
    now destruct (bool_decide _).
  - rewrite lookup_delete_ne by exact Hne.
    destruct (bool_decide (k ∈ map fst l)) eqn:E.
    + apply bool_decide_eq_true in E.
      now rewrite (bool_decide_eq_true_2 (k ∈ k0 :: _))
        by (now apply list_elem_of_further).
    + apply bool_decide_eq_false in E.
      rewrite (bool_decide_eq_false_2 (k ∈ k0 :: _)); [reflexivity|].
      rewrite elem_of_cons. intros [->|H]; [now apply Hne|now apply E].
Qed.

Lemma fold_delete_size (l : list (string * string)) :
  forall (m : gmap string string),
    NoDup (map fst l) ->
    (forall k v, In (k, v) l -> m !! k = Some v) ->
    (size (fold_left (fun m kv => delete (fst kv) m) l m) + length l)%nat = size m.
Proof.
  induction l as [|[k0 v0] l IH]; intros m Hnd Hin; simpl; [lia|].
  apply NoDup_cons in Hnd as [Hk0 Hnd].
  rewrite Nat.add_succ_r, IH; [|exact Hnd|].
  - assert (H0 : m !! k0 = Some v0) by (apply Hin; now left).
    assert (Hs : size m = S (size (delete k0 m))).
    { rewrite <- (insert_delete_id m k0 v0 H0) at 1.
      apply map_size_insert_None. apply lookup_delete_eq. }
    simpl. lia.
  - intros k v Hkv. simpl.
    rewrite lookup_delete_ne; [apply Hin; now right|].
    intros ->. apply Hk0. apply list_elem_of_In.
    apply in_map_iff. now exists (k, v).
Qed.

Lemma NoDup_fst_filter (p : string * string -> bool) (l : list (string * string)) :
  NoDup (map fst l) -> NoDup (map fst (List.filter p l)).
Proof.
  induction l as [|x l IH]; simpl; [auto|].
  intros H. apply NoDup_cons in H as [Hx Hnd].
  destruct (p x); simpl; [|now apply IH].
  apply NoDup_cons. split; [|now apply IH].
  intros Hin. apply Hx. apply list_elem_of_In in Hin. apply list_elem_of_In.
  apply in_map_iff in Hin as (y & Hy & Hin).
  apply List.filter_In in Hin as [Hin _].
  apply in_map_iff. now exists y.
Qed.

(** X13. [clear_completed_signals] removes from the status map exactly the
    entries whose status is "completed" or "failed": an id is tracked
    afterwards if and only if it was tracked with another status, which it
    keeps.  The number it returns is the number of entries removed, and
    the queue and the world are not touched. *)
Theorem clear_completed_signals_spec :
  forall (self : SignalProcessor.t World),
    let cleared := fst (clear_completed_signals World self) in
    let after := snd (clear_completed_signals World self) in
    (forall id status,
        get_signal_status World after id = Some status <->
        get_signal_status World self id = Some status /\
        status <> "completed" /\ status <> "failed") /\
    (size (_processing_status after) + cleared)%nat =
      size (_processing_status self) /\
    _processing_queue after = _processing_queue self /\
    world after = world self.
Proof.
  intros self cleared after.
  set (m := _processing_status self).
  set (done := List.filter (fun kv : string * string => is_finished (snd kv))
                 (map_to_list m)).
  assert (Hdone : forall k v, In (k, v) done <->
                              m !! k = Some v /\ is_finished v = true).
  { intros k v. unfold done. rewrite List.filter_In.
    rewrite <- list_elem_of_In, elem_of_map_to_list. reflexivity. }
  assert (Hfin : forall v, is_finished v = true <->
                           v = "completed" \/ v = "failed").
  { intros v. unfold is_finished. rewrite orb_true_iff, !String.eqb_eq.
    reflexivity. }
  split; [|split; [|split; reflexivity]].
  - intros id status. unfold get_signal_status, after, clear_completed_signals.
    cbn [snd _processing_status]. fold m. fold done.
    rewrite fold_delete_lookup.
    destruct (bool_decide (id ∈ map fst done)) eqn:E.
    + apply bool_decide_eq_true in E. apply list_elem_of_In in E.
      apply in_map_iff in E as ([k v] & Hk & Hkv). simpl in Hk. subst k.
      apply Hdone in Hkv as [Hm Hv]. apply Hfin in Hv.
      split; [discriminate|].
      intros (Hs & Hc & Hf). rewrite Hm in Hs. injection Hs as ->. tauto.
    + apply bool_decide_eq_false in E. split.
      * intros Hs. split; [exact Hs|].
        assert (Hn : ~ (status = "completed" \/ status = "failed")).
        { intros Hv. apply Hfin in Hv. apply E. apply list_elem_of_In.
          apply in_map_iff. exists (id, status). split; [reflexivity|].
          now apply Hdone. }
        tauto.
      * now intros [Hs _].
  - unfold after, cleared, clear_completed_signals.
    cbn [fst snd _processing_status]. fold m. fold done.
    apply fold_delete_size.
    + unfold done. apply NoDup_fst_filter. apply NoDup_fst_map_to_list.
    + intros k v Hkv. now apply Hdone in Hkv as [Hm _].
Qed.

End ClearCompleted.

Section QueueingExamples.
Import AccountConfig WebhookSignal SignalValidator SignalConversion SignalProcessor.

Lemma process_webhook_signal_queues_valid_signals_witness :
  let out := process_webhook_signal nat 10 "signal_0" idle_processor
               (sample_signal (Some "buy") (Some (mkDecimal 5 0)))
               sample_account (Some "req-1") in
  length (_processing_queue (snd out)) = 1%nat /\
  get_signal_status nat (snd out) "req-1" = Some "queued".
Proof.
  intros out.
  destruct (proj2 (process_webhook_signal_queues_valid_signals 10 "signal_0"
                     idle_processor
                     (sample_signal (Some "buy") (Some (mkDecimal 5 0)))
                     sample_account (Some "req-1") eq_refl) eq_refl)
    as (ts & _ & _ & Hq & Hs & _).
  split; [|exact Hs].
  fold out in Hq. rewrite Hq. reflexivity.
Defined.

(** Without a client for the account the signal fails and the broker is
    not called. *)
Lemma process_single_signal_without_execution_witness :
  let out := _process_single_signal nat string (fun _ _ => false) (fun _ _ => true)
               sample_execute sample_execute sample_execute
               idle_processor (sample_queued "s1" "AAPL") in
  world (snd out) = 0%nat /\ r_status (fst out) = "failed".
Proof.
  intros out.
  destruct (process_single_signal_without_execution
              (fun _ _ => false) (fun _ _ => true)
              sample_execute sample_execute sample_execute
              idle_processor (sample_queued "s1" "AAPL") (or_introl eq_refl))
    as (Hw & Hs & _).
  split; [exact Hw|exact Hs].
Defined.

Lemma webhook_signal_end_to_end_witness :
  let queued := snd (process_webhook_signal nat 10 "signal_0" idle_processor
                       (sample_signal (Some "buy") (Some (mkDecimal 5 0)))
                       sample_account (Some "req-1")) in
  exists r,
    results (fst (sample_process queued)) = [r] /\
    r_signal_id r = "req-1" /\
    total_count (fst (sample_process queued)) = 1%nat.
Proof.
  intros queued.
  destruct (webhook_signal_end_to_end (fun _ _ => true) (fun _ _ => true)
              sample_execute sample_execute sample_execute
              10 "signal_0" idle_processor
              (sample_signal (Some "buy") (Some (mkDecimal 5 0)))
              sample_account (Some "req-1") eq_refl eq_refl eq_refl)
    as (r & Hr & Hid & _ & Ht & _).
  exists r. split; [exact Hr|]. split; [exact Hid|exact Ht].
Defined.

End QueueingExamples.

(** ** PositionManager: sizing, metrics and limits *)

Section SizingIdempotent.
Import PositionManager.

(** Case analysis on the innermost comparisons of the goal. *)
Ltac split_Qltb :=
  repeat match goal with
         | |- context [Qltb ?a ?b] =>
             lazymatch a with context [Qltb _ _] => fail | _ => idtac end;
             lazymatch b with context [Qltb _ _] => fail | _ => idtac end;
             let E := fresh "E" in
             destruct (Qltb a b) eqn:E;
             [apply Qltb_lt in E | apply Qltb_ge in E];
             cbv beta iota
         end.

(** X14. Sizing a quantity that [suggest_position_sizing] suggested
    changes nothing: with an account limit of at least 1, the suggestion
    for a suggested quantity is that quantity, so the sizing that the
    pipeline repeats at execution time agrees with the first one as long
    as the book has not changed. *)
Theorem suggest_position_sizing_idempotent :
  forall (self : PositionManager.t) (symbol symbol' : string)
         (signal_quantity risk_percentage : Q),
    1 <= AccountConfig.max_position_size (account_config self) ->
    (suggest_position_sizing self symbol'
       (suggest_position_sizing self symbol signal_quantity risk_percentage)
       risk_percentage ==
     suggest_position_sizing self symbol signal_quantity risk_percentage)%Q.
Proof.
  intros self symbol symbol' q r Hlimit.
  unfold suggest_position_sizing. cbv zeta.
  rewrite !suggest_position_sizing_at_finite. cbv zeta.
  assert (Hl : (1 <= inject_Z (AccountConfig.max_position_size (account_config self)))%Q).
  { unfold Qle. simpl. lia. }
  set (limit := inject_Z (AccountConfig.max_position_size (account_config self))) in *.
  set (dflt := inject_Z (AccountConfig.default_position_size (account_config self))).
  set (pv := total_market_value (calculate_portfolio_metrics self)).
  destruct (decimal_overflows (dflt * 2)); [reflexivity|].
  destruct (decimal_overflows (pv * r)), (decimal_overflows (pv * r * 10));
    set (cap := (pv * r * 10 / 5)%Q); clearbody limit dflt pv cap;
    unfold py_min, py_max; split_Qltb; try reflexivity; try lra.
Qed.

End SizingIdempotent.
Lemma suggest_position_sizing_idempotent_witness :
  (PositionManager.suggest_position_sizing empty_book "AAPL"
     (PositionManager.suggest_position_sizing empty_book "AAPL" 5000
        PositionManager.default_risk_percentage)
     PositionManager.default_risk_percentage ==
   PositionManager.suggest_position_sizing empty_book "AAPL" 5000
     PositionManager.default_risk_percentage)%Q.
Proof.
  apply (suggest_position_sizing_idempotent empty_book "AAPL" "AAPL" 5000
           PositionManager.default_risk_percentage).
  simpl. lia.
Defined.

Section BookAfterUpdate.
Import PositionManager.

(** The book after the loop, as a list: the positions stored, then what
    was there. *)
Lemma fold_store_to_list positions :
  forall (book : gmap string Position.t),
    NoDup (map Position.symbol positions) ->
    (forall p, In p positions ->
       PyStr.truthy (Position.symbol p) = true /\
       book !! Position.symbol p = None) ->
    map_to_list (fold_left store positions book) ≡ₚ
      map (fun p => (Position.symbol p, p)) positions ++ map_to_list book.
Proof.
  induction positions as [|x xs IH]; intros book Hnd Hin; simpl; [reflexivity|].
  apply NoDup_cons in Hnd as [Hx Hnd].
  destruct (Hin x (or_introl eq_refl)) as [Ht Hnone].
  unfold store at 2. rewrite Ht.
  rewrite IH; [|exact Hnd|].
  - rewrite (map_to_list_insert book _ _ Hnone).
    symmetry. apply Permutation_middle.
  - intros p Hp. destruct (Hin p (or_intror Hp)) as [Htp Hnp].
    split; [exact Htp|].
    rewrite lookup_insert_ne; [exact Hnp|].
    intros Heq. apply Hx. rewrite Heq. apply list_elem_of_In.
    now apply in_map.
Qed.

(** X15. After [update_positions] with a list of positions whose symbols
    are non-empty and pairwise distinct, the book holds the positions of
    the list and nothing else, whatever it held before:
    [get_all_positions] is the list up to the order, so it has as many
    positions as the list, and [get_position] finds every position of
    the list under its symbol. *)
Theorem book_after_update :
  forall (self : PositionManager.t) (positions : list Position.t),
    NoDup (map Position.symbol positions) ->
    (forall p, In p positions -> PyStr.truthy (Position.symbol p) = true) ->
    let after := update_positions self positions in
    get_all_positions after ≡ₚ positions /\
    length (get_all_positions after) = length positions /\
    (forall p, In p positions -> get_position after (Position.symbol p) = Some p).
Proof.
  intros self positions Hnd Ht after.
  assert (Hperm : get_all_positions after ≡ₚ positions).
  { unfold after, get_all_positions, update_positions. cbn [_positions].
    rewrite (fold_store_to_list positions ∅ Hnd).
    - rewrite map_to_list_empty, app_nil_r.
      clear. induction positions as [|x xs IH]; simpl; [reflexivity|].
      now rewrite IH.
    - intros p Hp. split; [now apply Ht|apply lookup_empty]. }
  split; [exact Hperm|]. split; [now rewrite Hperm|].
  intros p Hp.
  assert (Hin : In p (get_all_positions after)).
  { apply list_elem_of_In. rewrite Hperm. now apply list_elem_of_In. }
  apply in_get_all_positions in Hin as [symbol Hs].
  pose proof Hs as Hl. unfold after in Hl. rewrite update_positions_fold in Hl.
  apply fold_store_lookup in Hl as [(_ & <- & _)|Hl]; [exact Hs|].
  now rewrite lookup_empty in Hl.
Qed.

End BookAfterUpdate.

Section PositionLimits.
Import PositionManager.

(** X16. [check_position_limits] and the position-size sub-check of the
    risk manager apply the same size rule when they share the account
    settings: one reports a size violation exactly when the other reports
    a size error, with the same numbers.  The concentration violation of
    [check_position_limits] does not depend on the proposed quantity; and
    a trade that [check_position_limits] allows, for a book of fewer than
    20 positions, passes the sub-check of the risk manager. *)
Theorem check_position_limits_agrees_with_risk_check :
  forall (risk_manager : RiskManager.t) (symbol : string) (quantity : Q),
    RiskManager.account_config risk_manager =
      account_config (RiskManager.position_manager risk_manager) ->
    let self := RiskManager.position_manager risk_manager in
    (forall total limit,
       In (PositionSizeViolation total limit)
          (snd (check_position_limits self symbol quantity)) <->
       In (RiskManager.PositionSizeLimitExceeded total limit)
          (snd (RiskManager._check_position_size_limits risk_manager symbol quantity))) /\
    (forall quantity' value limit,
       In (UnderlyingConcentrationViolation value limit)
          (snd (check_position_limits self symbol quantity)) ->
       In (UnderlyingConcentrationViolation value limit)
          (snd (check_position_limits self symbol quantity'))) /\
    (fst (check_position_limits self symbol quantity) = true ->
     (length (get_all_positions self) < 20)%nat ->
     fst (RiskManager._check_position_size_limits risk_manager symbol quantity) = true).
Proof.
  intros risk_manager symbol quantity Hcfg self.
  unfold check_position_limits, RiskManager._check_position_size_limits,
    RiskManager.checked.
  rewrite Hcfg. fold self. cbn [fst snd].
  change (RiskManager.max_open_positions RiskManager.risk_config) with 20%nat.
  set (current := match get_position self symbol with
                  | Some p => Position.quantity p
                  | None => 0%Q
                  end).
  set (limit0 := AccountConfig.max_position_size (account_config self)).
  set (value0 := sum_of _ _).
  split; [|split].
  - intros total limit.
    destruct (Qltb (inject_Z limit0) (Qabs' (current + quantity)));
      destruct (Qltb (inject_Z limit0 * (1 # 2)) value0);
      destruct (20 <=? length (get_all_positions self))%nat;
      cbn [app In]; split; intros H;
      repeat (destruct H as [H|H]); try contradiction; try discriminate;
      injection H as <- <-; auto.
  - intros quantity' value limit.
    destruct (Qltb (inject_Z limit0) (Qabs' (current + quantity)));
      destruct (Qltb (inject_Z limit0) (Qabs' (current + quantity')));
      destruct (Qltb (inject_Z limit0 * (1 # 2)) value0);
      cbn [app In]; intros H;
      repeat (destruct H as [H|H]); try contradiction; try discriminate;
      injection H as <- <-; auto.
  - intros Hok Hlen. apply Nat.leb_gt in Hlen. rewrite Hlen.
    destruct (Qltb (inject_Z limit0) (Qabs' (current + quantity)));
      destruct (Qltb (inject_Z limit0 * (1 # 2)) value0);
      cbn [app length Nat.eqb] in Hok |- *; congruence.
Qed.

Lemma check_position_limits_agrees_with_risk_check_witness :
  fst (RiskManager._check_position_size_limits sample_risk_manager "AAPL" 5) = true.
Proof.
  apply (check_position_limits_agrees_with_risk_check sample_risk_manager "AAPL" 5
           eq_refl).
  - vm_compute. reflexivity.
  - vm_compute. lia.
Defined.

Lemma uppers_before_double_space ticker rest :
  PyStr.forallb_chars PyStr.isupper ticker = true ->
  has_double_space (ticker +:+ "  " +:+ rest) = true /\
  before_double_space (ticker +:+ "  " +:+ rest) = ticker.
Proof.
  induction ticker as [|c r IH]; intros H.
  - simpl. auto.
  - simpl in H. apply andb_true_iff in H as [Hc Hr].
    destruct (IH Hr) as [IH1 IH2].
    destruct (upper_facts c Hc) as (_ & _ & Hsp & _).
    assert (Hne : c <> " "%char).
    { intros ->. discriminate Hsp. }
    change ((String c r) +:+ "  " +:+ rest)
      with (String c (r +:+ "  " +:+ rest)).
    split.
    + cbn [has_double_space].
      destruct c as [[] [] [] [] [] [] [] []]; try exact IH1;
        now contradiction Hne.
    + cbn [before_double_space].
      destruct c as [[] [] [] [] [] [] [] []]; try (now rewrite IH2);
        now contradiction Hne.
Qed.

(** X17. For a ticker of capital letters, [_extract_underlying] gives the
    ticker back, from the ticker alone and from any option symbol made of
    the ticker, two spaces and the option code; so the positions in such
    option symbols are among those that [get_positions_by_underlying]
    returns for the ticker, in either case of its letters. *)
Theorem extract_underlying_of_option_symbol :
  forall (self : PositionManager.t) (ticker rest underlying : string),
    PyStr.forallb_chars PyStr.isupper ticker = true ->
    PyStr.upper underlying = ticker ->
    _extract_underlying ticker = ticker /\
    _extract_underlying (ticker +:+ "  " +:+ rest) = ticker /\
    (forall position,
       In position (get_all_positions self) ->
       Position.symbol position = ticker +:+ "  " +:+ rest ->
       In position (get_positions_by_underlying self underlying)).
Proof.
  intros self ticker rest underlying Hup Hund.
  destruct (uppers_before_double_space ticker rest Hup) as [Hds Hbefore].
  assert (Hplain : _extract_underlying ticker = ticker).
  { unfold _extract_underlying.
    destruct (has_double_space ticker) eqn:E.
    - exfalso. clear - Hup E.
      induction ticker as [|c r IH]; [discriminate|].
      simpl in Hup. apply andb_true_iff in Hup as [Hc Hr].
      destruct (upper_facts c Hc) as (_ & _ & Hsp & _).
      assert (Hne : c <> " "%char) by (intros ->; discriminate Hsp).
      cbn [has_double_space] in E.
      destruct c as [[] [] [] [] [] [] [] []]; try (now apply IH);
        now contradiction Hne.
    - rewrite (uppers_span ticker Hup). now destruct ticker. }
  assert (Hopt : _extract_underlying (ticker +:+ "  " +:+ rest) = ticker).
  { unfold _extract_underlying. rewrite Hds, Hbefore.
    apply letters_strip. now apply uppers_are_letters. }
  split; [exact Hplain|]. split; [exact Hopt|].
  intros position Hin Hsym.
  unfold get_positions_by_underlying.
  apply list_elem_of_In, list_elem_of_filter. split.
  - rewrite Hsym, Hopt, Hund. apply String.eqb_refl.
  - now apply list_elem_of_In.
Qed.

Lemma extract_underlying_of_option_symbol_witness :
  _extract_underlying "AAPL  250117C00150000" = "AAPL".
Proof.
  apply (extract_underlying_of_option_symbol empty_book "AAPL" "250117C00150000"
           "aapl"); reflexivity.
Defined.

End PositionLimits.

Section BookExamples.
Import PositionManager.

Lemma book_after_update_witness :
  let positions := [sample_position "AAPL" 1 100; sample_position "MSFT" 2 250] in
  let after := update_positions empty_book positions in
  length (get_all_positions after) = 2%nat /\
  get_position after "MSFT" = Some (sample_position "MSFT" 2 250).
Proof.
  intros positions after.
  destruct (book_after_update empty_book positions) as (_ & Hn & Hget).
  - simpl. apply NoDup_cons. split; [|apply NoDup_singleton].
    rewrite list_elem_of_singleton. discriminate.
  - intros p H. simpl in H.
    repeat (destruct H as [H|H]); try contradiction; subst p; reflexivity.
  - split; [exact Hn|].
    apply (Hget (sample_position "MSFT" 2 250)). simpl. auto.
Defined.

End BookExamples.

(** ** RiskManager: what triggers each verdict *)

Section RiskTriggers.
Import RiskManager.

Lemma in_error_messages_rejected self now signal contract quantity m :
  In m (error_messages self contract quantity) ->
  fst (check_trade_risk self now signal contract quantity) = REJECTED.
Proof.
  intros Hin. unfold check_trade_risk. cbn [fst].
  rewrite collect_errors_eq.
  destruct (error_messages self contract quantity); [destruct Hin|reflexivity].
Qed.

Lemma in_warning_messages_not_approved self now signal contract quantity m :
  In m (warning_messages self now signal contract quantity) ->
  fst (check_trade_risk self now signal contract quantity) <> APPROVED.
Proof.
  intros Hin. unfold check_trade_risk. cbn [fst].
  rewrite collect_errors_eq, collect_warnings_eq.
  destruct (error_messages self contract quantity); [|discriminate].
  destruct (warning_messages self now signal contract quantity) as [|w ws];
    [destruct Hin|].
  cbn [length Nat.eqb negb].
  destruct (3 <? S (length ws))%nat; discriminate.
Qed.

(** X18. A book whose unrealized P&L is below -5000, or that holds 20
    positions or more, makes [check_trade_risk] reject every trade,
    whatever the signal, the contract, the quantity and the time. *)
Theorem check_trade_risk_rejects_on_book_breach :
  forall (self : RiskManager.t) (now : datetime) (signal : TradeSignal.t)
         (contract : OptionContract.t) (quantity : Q),
    (PositionManager.total_unrealized_pnl
       (PositionManager.calculate_portfolio_metrics (position_manager self))
     < - (5000))%Q \/
    (20 <= PositionManager.total_positions
             (PositionManager.calculate_portfolio_metrics (position_manager self)))%nat ->
    fst (check_trade_risk self now signal contract quantity) = REJECTED.
Proof.
  intros self now signal contract quantity [Hloss|Hcount].
  - apply (in_error_messages_rejected self now signal contract quantity
             (DailyLossLimitExceeded (_calculate_daily_pnl self) 5000)).
    unfold error_messages. apply in_or_app. right.
    unfold _check_daily_loss_limits, checked. cbn [snd].
    change (max_daily_loss risk_config) with 5000%Q.
    apply Qltb_lt in Hloss. unfold _calculate_daily_pnl. rewrite Hloss.
    now left.
  - apply (in_error_messages_rejected self now signal contract quantity
             (MaxOpenPositionsReached
                (length (PositionManager.get_all_positions (position_manager self))))).
    unfold error_messages. apply in_or_app. left.
    unfold _check_position_size_limits, checked. cbn [snd].
    change (max_open_positions risk_config) with 20%nat.
    apply Nat.leb_le in Hcount.
    unfold PositionManager.calculate_portfolio_metrics in Hcount.
    cbn [PositionManager.total_positions] in Hcount. rewrite Hcount.
    apply in_or_app. right. now left.
Qed.

Lemma check_trade_risk_rejects_on_book_breach_witness :
  fst (check_trade_risk losing_risk_manager sample_now
         (sample_trade_signal (ActionStr "buy") (Some 1%Q))
         sample_call_with_greeks 1) = REJECTED.
Proof.
  apply check_trade_risk_rejects_on_book_breach.
  left. vm_compute. reflexivity.
Defined.

(** X19. [check_trade_risk] never approves a trade in a contract that
    lacks a delta, a vega or a theta, nor one in a contract that expires
    in fewer than 3 days or on a weekend, nor a trade made on a weekend,
    before 9:30 or after 16:00. *)
Theorem check_trade_risk_never_approves :
  forall (self : RiskManager.t) (now : datetime) (signal : TradeSignal.t)
         (contract : OptionContract.t) (quantity : Q),
    OptionContract.delta contract = None \/
    OptionContract.vega contract = None \/
    OptionContract.theta contract = None \/
    timedelta_days (OptionContract.expiry contract) now < 3 \/
    5 <= weekday (OptionContract.expiry contract) \/
    5 <= weekday now \/
    time_of_day now < market_open \/
    market_close < time_of_day now ->
    fst (check_trade_risk self now signal contract quantity) <> APPROVED.
Proof.
  intros self now signal contract quantity H.
  assert (Hgreeks :
    OptionContract.delta contract = None \/
    OptionContract.vega contract = None \/
    OptionContract.theta contract = None ->
    In (GreeksCheckError
          "unsupported operand type(s) for *: 'NoneType' and 'decimal.Decimal'")
       (warning_messages self now signal contract quantity)).
  { intros Hnone. unfold warning_messages.
    apply in_or_app. right. apply in_or_app. left.
    unfold _check_greeks_exposure.
    destruct (OptionContract.delta contract) as [d|];
      destruct (OptionContract.vega contract) as [v|];
      destruct (OptionContract.theta contract) as [th|];
      try (now left).
    destruct Hnone as [Hn|[Hn|Hn]]; discriminate Hn. }
  assert (Hexp : forall m,
    In m (snd (_check_expiration_risk now contract)) ->
    In m (warning_messages self now signal contract quantity)).
  { intros m Hm. unfold warning_messages.
    apply in_or_app. right. apply in_or_app. right.
    apply in_or_app. now left. }
  assert (Hmkt : forall m,
    In m (snd (_check_market_conditions now)) ->
    In m (warning_messages self now signal contract quantity)).
  { intros m Hm. unfold warning_messages.
    apply in_or_app. right. apply in_or_app. right.
    apply in_or_app. right. apply in_or_app. now right. }
  destruct H as [H|[H|[H|[H|[H|[H|[H|H]]]]]]].
  - eapply in_warning_messages_not_approved, Hgreeks. auto.
  - eapply in_warning_messages_not_approved, Hgreeks. auto.
  - eapply in_warning_messages_not_approved, Hgreeks. auto.
  - eapply in_warning_messages_not_approved, Hexp.
    unfold _check_expiration_risk, checked. cbn [snd].
    change (min_days_to_expiry risk_config) with 3.
    apply Z.ltb_lt in H. rewrite H. apply in_or_app. left. now left.
  - eapply in_warning_messages_not_approved, Hexp.
    unfold _check_expiration_risk, checked. cbn [snd].
    apply Z.leb_le in H. rewrite H. apply in_or_app. right. now left.
  - eapply in_warning_messages_not_approved, Hmkt.
    unfold _check_market_conditions, checked. cbn [snd].
    apply Z.leb_le in H. rewrite H. apply in_or_app. left. now left.
  - eapply in_warning_messages_not_approved, Hmkt.
    unfold _check_market_conditions, checked. cbn [snd].
    apply Z.ltb_lt in H. rewrite H. apply in_or_app. right. now left.
  - eapply in_warning_messages_not_approved, Hmkt.
    unfold _check_market_conditions, checked. cbn [snd].
    apply Z.ltb_lt in H. rewrite H, orb_true_r. apply in_or_app. right. now left.
Qed.

Lemma check_trade_risk_never_approves_witness :
  fst (check_trade_risk sample_risk_manager sample_now
         (sample_trade_signal (ActionStr "buy") (Some 1%Q))
         (sample_contract CALL 150 (sample_now + 30 * us_per_day)) 1) <> APPROVED.
Proof.
  apply check_trade_risk_never_approves.
  left. reflexivity.
Defined.

Lemma Qabs'_le (a c : Q) : (Qabs' a <= c <-> - c <= a /\ a <= c)%Q.
Proof.
  unfold Qabs'. destruct (Qle_bool 0 a) eqn:E.
  - apply Qle_bool_iff in E. split; [intros H; split; lra|intros [_ H]; exact H].
  - apply Qleb_gt in E. split; [intros H; split; lra|intros [H _]; lra].
Qed.

(** X20. The first trade on an empty book is approved, with no message,
    when its size is within the account's limit; the contract has its
    Greeks, and the trade's delta, vega and theta stay within 100, 1000
    and -500; the contract expires on a weekday, 3 days ahead or more; its
    volume and open interest are absent or at least 10 and 50; its
    spread, when bid and ask are positive, computed in floats as
    [(float(ask) - float(bid)) / float(ask)], is not above the float
    [0.10]; and the trade is made on a weekday between 9:30 and 16:00. *)
Theorem check_trade_risk_approves_first_trade :
  forall (self : RiskManager.t) (now : datetime) (signal : TradeSignal.t)
         (contract : OptionContract.t) (quantity d v th : Q),
    PositionManager._positions (position_manager self) = ∅ ->
    (Qabs' quantity <=
       inject_Z (AccountConfig.max_position_size (account_config self)))%Q ->
    OptionContract.delta contract = Some d ->
    OptionContract.vega contract = Some v ->
    OptionContract.theta contract = Some th ->
    (Qabs' (d * signed_quantity signal quantity) <= 100)%Q ->
    (Qabs' (v * signed_quantity signal quantity) <= 1000)%Q ->
    (- (500) <= th * signed_quantity signal quantity)%Q ->
    3 <= timedelta_days (OptionContract.expiry contract) now ->
    weekday (OptionContract.expiry contract) < 5 ->
    absent_or_at_least 10 (OptionContract.volume contract) ->
    absent_or_at_least 50 (OptionContract.open_interest contract) ->
    (forall b a,
        OptionContract.bid contract = Some b ->
        OptionContract.ask contract = Some a ->
        (0 < b)%Q -> (0 < a)%Q ->
        PrimFloat.is_zero (float_of_Q a) = false /\
        PrimFloat.ltb spread_threshold (float_spread b a) = false) ->
    weekday now < 5 ->
    market_open <= time_of_day now <= market_close ->
    check_trade_risk self now signal contract quantity = (APPROVED, []).
Proof.
  intros self now signal contract quantity d v th Hbook Hsize Hd Hv Hth
    Hdelta Hvega Htheta Hdays Hwd Hvol Hoi Hspread Hnow Hhours.
  assert (Hall : PositionManager.get_all_positions (position_manager self) = []).
  { unfold PositionManager.get_all_positions. rewrite Hbook.
    now rewrite map_to_list_empty. }
  assert (Herr : error_messages self contract quantity = []).
  { unfold error_messages, _check_position_size_limits, _check_daily_loss_limits,
      _calculate_daily_pnl, PositionManager.calculate_portfolio_metrics,
      PositionManager.get_position, checked.
    rewrite Hall, Hbook, lookup_empty. cbn [snd length sum_of fold_left
      PositionManager.total_unrealized_pnl].
    assert (Qltb (inject_Z (AccountConfig.max_position_size (account_config self)))
                 (Qabs' (0 + quantity)) = false) as ->.
    { apply Qltb_ge. apply Qabs'_le. apply Qabs'_le in Hsize. lra. }
    reflexivity. }
  assert (Hwarn : warning_messages self now signal contract quantity = []).
  { unfold warning_messages.
    assert (snd (_check_concentration_limits self (OptionContract.symbol contract)
                   quantity) = []) as ->.
    { unfold _check_concentration_limits, PositionManager.calculate_portfolio_metrics,
        checked.
      rewrite Hall. reflexivity. }
    assert (snd (_check_greeks_exposure self contract quantity
                   (TradeSignal.action signal)) = []) as ->.
    { unfold _check_greeks_exposure, PositionManager.calculate_portfolio_metrics, checked.
      rewrite Hall, Hd, Hv, Hth.
      cbn [snd sum_of fold_left PositionManager.portfolio_delta
             PositionManager.portfolio_vega PositionManager.portfolio_theta].
      change (max_portfolio_delta risk_config) with 100%Q.
      change (max_vega_exposure risk_config) with 1000%Q.
      change (max_theta_decay risk_config) with 500%Q.
      unfold signed_quantity in Hdelta, Hvega, Htheta.
      set (m := if Action_is (TradeSignal.action signal) BUY
                then quantity else (- quantity)%Q) in *.
      assert (Qltb 100 (Qabs' (0 + d * m)) = false) as ->.
      { apply Qltb_ge. apply Qabs'_le. apply Qabs'_le in Hdelta. lra. }
      assert (Qltb 1000 (Qabs' (0 + v * m)) = false) as ->.
      { apply Qltb_ge. apply Qabs'_le. apply Qabs'_le in Hvega. lra. }
      assert (Qltb (0 + th * m) (- (500)) = false) as ->.
      { apply Qltb_ge. lra. }
      reflexivity. }
    assert (snd (_check_expiration_risk now contract) = []) as ->.
    { unfold _check_expiration_risk, checked. cbn [snd].
      change (min_days_to_expiry risk_config) with 3.
      apply Z.ltb_ge in Hdays. rewrite Hdays.
      apply Z.leb_gt in Hwd. now rewrite Hwd. }
    assert (snd (_check_liquidity_risk contract) = []) as ->.
    { unfold _check_liquidity_risk.
      assert (spread_warnings contract = Returned []) as ->.
      { unfold spread_warnings.
        destruct (OptionContract.bid contract) as [b|]; [|reflexivity].
        destruct (OptionContract.ask contract) as [a|]; [|reflexivity].
        destruct (truthy_oq (Some b) && truthy_oq (Some a) && Qltb 0 b && Qltb 0 a)
          eqn:E; [|reflexivity].
        apply andb_true_iff in E as [E Ha]. apply andb_true_iff in E as [_ Hb].
        apply Qltb_lt in Ha, Hb.
        destruct (Hspread b a eq_refl eq_refl Hb Ha) as [Hz Hs].
        cbv zeta. rewrite Hz. unfold float_spread in Hs. now rewrite Hs. }
      unfold checked. cbn [snd app].
      assert (match OptionContract.volume contract with
              | Some v0 => if v0 <? 10 then [LowVolume v0] else []
              | None => []
              end = []) as ->.
      { destruct (OptionContract.volume contract) as [v0|]; [|reflexivity].
        simpl in Hvol. apply Z.ltb_ge in Hvol. now rewrite Hvol. }
      destruct (OptionContract.open_interest contract) as [oi|]; [|reflexivity].
      simpl in Hoi. apply Z.ltb_ge in Hoi. now rewrite Hoi. }
    unfold _check_market_conditions, checked. cbn [snd].
    apply Z.leb_gt in Hnow. rewrite Hnow.
    destruct Hhours as [Hopen Hclose].
    apply Z.ltb_ge in Hopen, Hclose. now rewrite Hopen, Hclose. }
  unfold check_trade_risk. rewrite collect_errors_eq, collect_warnings_eq, Herr, Hwarn.
  reflexivity.
Qed.

Lemma check_trade_risk_approves_first_trade_witness :
  check_trade_risk sample_risk_manager sample_now
    (sample_trade_signal (ActionStr "buy") (Some 1%Q))
    (quoted_call (240 # 100) (260 # 100)) 1 = (APPROVED, []).
Proof.
  apply (check_trade_risk_approves_first_trade sample_risk_manager sample_now
           (sample_trade_signal (ActionStr "buy") (Some 1%Q))
           (quoted_call (240 # 100) (260 # 100)) 1
           (1 # 2) (1 # 10) (- (1 # 100))%Q);
    try reflexivity;
    try (lazymatch goal with |- forall _, _ => fail | _ => idtac end;
         vm_compute; first [discriminate | split; discriminate]).
  intros b a Hb Ha _ _. injection Hb as <-. injection Ha as <-.
  vm_compute. split; reflexivity.
Defined.

(** The same trade in a contract quoted 2.34 / 2.60: the exact spread is
    one tenth, the float spread is 0.10000000000000009, above the float
    0.10, and the verdict is a warning. *)
Example wide_float_spread_is_a_warning :
  fst (check_trade_risk sample_risk_manager sample_now
         (sample_trade_signal (ActionStr "buy") (Some 1%Q))
         (quoted_call (234 # 100) (260 # 100)) 1) = WARNING /\
  length (snd (check_trade_risk sample_risk_manager sample_now
                 (sample_trade_signal (ActionStr "buy") (Some 1%Q))
                 (quoted_call (234 # 100) (260 # 100)) 1)) = 1%nat.
Proof. vm_compute. split; reflexivity. Qed.

End RiskTriggers.

(** ** OrderStrategyService: prices, stops, brackets and validation *)

Section OrderPrices.
Import OrderStrategyService.

Lemma positive_truthy (q : Q) : (0 < q)%Q -> truthy_oq (Some q) = true.
Proof.
  intros H. unfold truthy_oq. destruct (Qeq_bool q 0) eqn:E; [|reflexivity].
  apply Qeq_bool_iff in E. rewrite E in H. now apply Qlt_irrefl in H.
Qed.

Lemma if_truthy_positive (q : Q) : (0 < q)%Q -> if_truthy (Some q) = Some q.
Proof. intros H. unfold if_truthy. now rewrite (positive_truthy q H). Qed.

Lemma midpoint_positive (b a : Q) : (0 < b -> 0 < a -> 0 < (b + a) / 2)%Q.
Proof. intros Hb Ha. apply Qlt_shift_div_l; lra. Qed.

(** The prices of a contract quoted on both sides. *)
Lemma quoted_prices contract b a :
  OptionContract.bid contract = Some b ->
  OptionContract.ask contract = Some a ->
  (0 < b)%Q -> (0 < a)%Q ->
  _get_price_by_method contract BID_ASK_MIDPOINT = Some ((b + a) / 2)%Q /\
  _get_price_by_method contract BID_PRICE = Some b /\
  _get_price_by_method contract ASK_PRICE = Some a.
Proof.
  intros Hb Ha Hbp Hap.
  unfold _get_price_by_method, price_by_method_body, midpoint.
  rewrite Hb, Ha, (positive_truthy b Hbp), (positive_truthy a Hap).
  simpl. auto.
Qed.

(** X21. An [OptionContract] has no attribute [last_price], so the
    fallback chain of [_get_price_by_method] never supplies a price: the
    last-price method gives nothing, the midpoint method gives the midpoint
    or nothing, the bid and ask methods give that quote or nothing, and
    the theoretical method gives the theoretical price when the object
    has one, else the midpoint or nothing.  A contract that lacks a bid or
    an ask therefore gets no limit order at the midpoint, whatever the
    signal and the quantity. *)
Theorem get_price_by_method_without_fallback :
  forall (contract : OptionContract.t),
    OptionContract.last_price contract = Missing ->
    (forall method,
       _get_price_by_method contract method =
       match method with
       | BID_ASK_MIDPOINT => midpoint contract
       | LAST_PRICE => None
       | BID_PRICE => if_truthy (OptionContract.bid contract)
       | ASK_PRICE => if_truthy (OptionContract.ask contract)
       | THEORETICAL_PRICE =>
           match OptionContract.theoretical_price contract with
           | Present tp => if truthy_oq tp then tp else midpoint contract
           | Missing => midpoint contract
           end
       end) /\
    (OptionContract.bid contract = None \/ OptionContract.ask contract = None ->
     forall now signal quantity,
       create_order now signal contract S_LIMIT_MIDPOINT quantity = None).
Proof.
  intros contract Hlast.
  assert (Hfb : fallback_chain contract =
                Raised "'OptionContract' object has no attribute 'last_price'").
  { unfold fallback_chain. now rewrite Hlast. }
  assert (Hmid : _get_price_by_method contract BID_ASK_MIDPOINT = midpoint contract).
  { unfold _get_price_by_method, price_by_method_body. rewrite Hfb.
    now destruct (midpoint contract). }
  split.
  - intros method. destruct method; try exact Hmid;
      unfold _get_price_by_method, price_by_method_body, if_truthy;
      rewrite ?Hfb, ?Hlast; try reflexivity.
    + now destruct (truthy_oq (OptionContract.bid contract)).
    + now destruct (truthy_oq (OptionContract.ask contract)).
    + destruct (OptionContract.theoretical_price contract) as [|tp].
      * now destruct (midpoint contract).
      * destruct (truthy_oq tp); [reflexivity|]. now destruct (midpoint contract).
  - intros Hnone now signal quantity.
    assert (Hm : midpoint contract = None).
    { unfold midpoint. destruct Hnone as [-> | ->]; [reflexivity|].
      now destruct (OptionContract.bid contract). }
    unfold create_order, create_order_body.
    destruct (resolve_quantity quantity signal) as [q|]; [|reflexivity].
    destruct (negb (truthy_oq (Some q)) || Qleb q 0); [reflexivity|].
    cbn [_calculate_order_price]. rewrite Hmid, Hm. reflexivity.
Qed.

Lemma get_price_by_method_without_fallback_witness :
  create_order sample_now (sample_trade_signal (ActionSide BUY) (Some 5%Q))
    one_sided_call S_LIMIT_MIDPOINT None = None.
Proof.
  apply (proj2 (get_price_by_method_without_fallback one_sided_call eq_refl)).
  right. reflexivity.
Defined.

(** X22. For a contract with a positive bid and ask, the aggressive buy
    limit is 99 percent of the ask and the conservative buy limit 101
    percent of the bid; the aggressive sell limit is the conservative buy
    limit and the conservative sell limit the aggressive buy limit.  The
    aggressive buy limit is below the ask; and when the ask is less than
    101/99 of the bid, it is below the conservative buy limit. *)
Theorem aggressive_and_conservative_limits :
  forall (contract : OptionContract.t) (b a : Q) (buyer seller : Action),
    OptionContract.bid contract = Some b ->
    OptionContract.ask contract = Some a ->
    (0 < b)%Q -> (0 < a)%Q ->
    Action_is buyer BUY = true ->
    Action_is seller BUY = false ->
    let aggressive_buy := (a * (99 # 100))%Q in
    let conservative_buy := (b * (101 # 100))%Q in
    _calculate_order_price contract S_LIMIT_AGGRESSIVE buyer = Some aggressive_buy /\
    _calculate_order_price contract S_LIMIT_CONSERVATIVE buyer = Some conservative_buy /\
    _calculate_order_price contract S_LIMIT_AGGRESSIVE seller = Some conservative_buy /\
    _calculate_order_price contract S_LIMIT_CONSERVATIVE seller = Some aggressive_buy /\
    (aggressive_buy < a)%Q /\
    (a * 99 < b * 101 -> aggressive_buy < conservative_buy)%Q.
Proof.
  intros contract b a buyer seller Hb Ha Hbp Hap Hbuy Hsell
    aggressive_buy conservative_buy.
  destruct (quoted_prices contract b a Hb Ha Hbp Hap) as (_ & Hbid & Hask).
  unfold _calculate_order_price.
  rewrite Hbuy, Hsell, Hbid, Hask.
  rewrite (if_truthy_positive a Hap), (if_truthy_positive b Hbp).
  unfold aggressive_buy, conservative_buy.
  repeat (split; [reflexivity|]).
  split; [lra|]. intros H. lra.
Qed.

Lemma aggressive_and_conservative_limits_witness :
  _calculate_order_price sample_quoted_call S_LIMIT_AGGRESSIVE (ActionSide BUY) =
    Some ((260 # 100) * (99 # 100))%Q /\
  _calculate_order_price sample_quoted_call S_LIMIT_CONSERVATIVE (ActionSide BUY) =
    Some ((240 # 100) * (101 # 100))%Q.
Proof.
  destruct (aggressive_and_conservative_limits sample_quoted_call
              (240 # 100) (260 # 100) (ActionSide BUY) (ActionSide SELL))
    as (H1 & H2 & _); try reflexivity.
  split; [exact H1|exact H2].
Defined.

(** What [create_order] returns, when it returns an order. *)
Lemma create_order_some now signal contract strategy quantity params :
  create_order now signal contract strategy quantity = Some params ->
  (exists side, TradeSignal.action signal = ActionSide side) /\
  (0 < p_quantity params)%Q /\
  resolve_quantity quantity signal = Some (p_quantity params) /\
  p_symbol params = OptionContract.symbol contract /\
  p_side params = TradeSignal.action signal /\
  p_order_type params = _get_order_type strategy /\
  p_price params =
    _calculate_order_price contract strategy (TradeSignal.action signal) /\
  (strategy <> S_MARKET -> is_Some (p_price params)) /\
  p_stop_price params =
    match strategy with
    | S_STOP_LOSS =>
        Present (_calculate_stop_price contract (TradeSignal.action signal))
    | _ => Missing
    end.
Proof.
  unfold create_order, create_order_body.
  destruct (resolve_quantity quantity signal) as [q|]; [|discriminate].
  destruct (negb (truthy_oq (Some q)) || Qleb q 0) eqn:E; [discriminate|].
  apply orb_false_iff in E as [_ E]. apply Qleb_gt in E.
  destruct (negb (bool_decide (is_Some _)) && _) eqn:Ep; [discriminate|].
  destruct (TradeSignal.action signal) as [s|side] eqn:Ea; [discriminate|].
  cbn [Action_value]. intros H. injection H as <-. cbn.
  split; [now exists side|]. split; [exact E|].
  do 5 (split; [reflexivity|]).
  split; [|reflexivity].
  intros Hne. apply andb_false_iff in Ep as [Ep|Ep].
  - apply negb_false_iff in Ep. now apply bool_decide_eq_true in Ep.
  - apply negb_false_iff in Ep. destruct strategy; try discriminate Ep.
    now contradiction Hne.
Qed.

(** When [create_order] returns an order. *)
Lemma create_order_returns now signal contract strategy quantity side q :
  TradeSignal.action signal = ActionSide side ->
  resolve_quantity quantity signal = Some q ->
  (0 < q)%Q ->
  strategy = S_MARKET \/
    is_Some (_calculate_order_price contract strategy (ActionSide side)) ->
  exists params,
    create_order now signal contract strategy quantity = Some params.
Proof.
  intros Ha Hq Hpos Hprice.
  unfold create_order, create_order_body. rewrite Hq, Ha.
  rewrite (positive_truthy q Hpos).
  assert (Qleb q 0 = false) as -> by now apply Qleb_gt.
  cbn [negb orb].
  assert (negb (bool_decide (is_Some (_calculate_order_price contract strategy
                                        (ActionSide side)))) &&
          negb (strategy_is_market strategy) = false) as ->.
  { destruct Hprice as [->|Hs].
    - apply andb_false_r.
    - apply (bool_decide_eq_true_2 _) in Hs. now rewrite Hs. }
  cbn [Action_value]. eauto.
Qed.

(** Every priced strategy has a positive price, and the stop price is
    positive, for a contract with positive quotes. *)
Lemma quoted_order_price_positive contract b a strategy side :
  OptionContract.bid contract = Some b ->
  OptionContract.ask contract = Some a ->
  (0 < b)%Q -> (0 < a)%Q ->
  strategy <> S_MARKET ->
  exists p, _calculate_order_price contract strategy side = Some p /\ (0 < p)%Q.
Proof.
  intros Hb Ha Hbp Hap Hne.
  destruct (quoted_prices contract b a Hb Ha Hbp Hap) as (Hmid & Hbid & Hask).
  assert (Hm : (0 < (b + a) / 2)%Q) by now apply midpoint_positive.
  destruct strategy; try (now contradiction Hne); unfold _calculate_order_price;
    rewrite ?Hmid, ?Hbid, ?Hask,
      ?(if_truthy_positive a Hap), ?(if_truthy_positive b Hbp);
    try (eexists; split; [reflexivity|exact Hm]);
    destruct (Action_is side BUY); eexists; (split; [reflexivity|lra]).
Qed.

Lemma quoted_stop_price contract b a side :
  OptionContract.bid contract = Some b ->
  OptionContract.ask contract = Some a ->
  (0 < b)%Q -> (0 < a)%Q ->
  _calculate_stop_price contract side =
    Some (if Action_is side BUY
          then ((b + a) / 2 * (1 - (10 # 100)))%Q
          else ((b + a) / 2 * (1 + (10 # 100)))%Q).
Proof.
  intros Hb Ha Hbp Hap.
  destruct (quoted_prices contract b a Hb Ha Hbp Hap) as (Hmid & _ & _).
  assert (Hm : (0 < (b + a) / 2)%Q) by now apply midpoint_positive.
  unfold _calculate_stop_price. rewrite Hmid, (if_truthy_positive _ Hm).
  now destruct (Action_is side BUY).
Qed.

(** X23. For a signal whose action is an [OrderSide], with a positive
    quantity, and a contract with a positive bid and ask, the stop-loss
    strategy gives a stop order priced at the midpoint of the quotes with
    a stop price 10 percent away from it: below the midpoint for a buy,
    above it for a sell. *)
Theorem stop_loss_order_prices :
  forall (now : datetime) (signal : TradeSignal.t) (contract : OptionContract.t)
         (side : OrderSide) (q b a : Q),
    TradeSignal.action signal = ActionSide side ->
    TradeSignal.quantity signal = Some q ->
    (0 < q)%Q ->
    OptionContract.bid contract = Some b ->
    OptionContract.ask contract = Some a ->
    (0 < b)%Q -> (0 < a)%Q ->
    exists params stop,
      create_order now signal contract S_STOP_LOSS None = Some params /\
      p_order_type params = STOP /\
      p_quantity params = q /\
      p_price params = Some ((b + a) / 2)%Q /\
      p_stop_price params = Present (Some stop) /\
      match side with
      | BUY => (stop == (b + a) / 2 * (9 # 10) /\ stop < (b + a) / 2)%Q
      | SELL => (stop == (b + a) / 2 * (11 # 10) /\ (b + a) / 2 < stop)%Q
      end.
Proof.
  intros now signal contract side q b a Hact Hq Hqp Hb Ha Hbp Hap.
  destruct (quoted_prices contract b a Hb Ha Hbp Hap) as (Hmid & _ & _).
  assert (Hm : (0 < (b + a) / 2)%Q) by now apply midpoint_positive.
  assert (Hres : resolve_quantity None signal = Some q) by exact Hq.
  destruct (create_order_returns now signal contract S_STOP_LOSS None side q
              Hact Hres Hqp) as [params Hp].
  { right. cbn [_calculate_order_price]. rewrite Hmid. now eexists. }
  destruct (create_order_some now signal contract S_STOP_LOSS None params Hp)
    as (_ & _ & Hrq & _ & _ & Hty & Hpr & _ & Hst).
  rewrite Hres in Hrq. injection Hrq as Hrq.
  cbn [_calculate_order_price] in Hpr. rewrite Hmid in Hpr.
  rewrite (quoted_stop_price contract b a _ Hb Ha Hbp Hap), Hact in Hst.
  exists params.
  exists (if Action_is (ActionSide side) BUY
          then ((b + a) / 2 * (1 - (10 # 100)))%Q
          else ((b + a) / 2 * (1 + (10 # 100)))%Q).
  split; [exact Hp|]. split; [exact Hty|]. split; [now symmetry|].
  split; [exact Hpr|]. split; [exact Hst|].
  destruct side; cbn; split; lra.
Qed.

Lemma stop_loss_order_prices_witness :
  exists params,
    create_order sample_now (sample_trade_signal (ActionSide BUY) (Some 5%Q))
      sample_quoted_call S_STOP_LOSS None = Some params /\
    p_order_type params = STOP.
Proof.
  destruct (stop_loss_order_prices sample_now
              (sample_trade_signal (ActionSide BUY) (Some 5%Q))
              sample_quoted_call BUY 5 (240 # 100) (260 # 100))
    as (params & stop & Hp & Hty & _); try reflexivity.
  exists params. split; [exact Hp|exact Hty].
Defined.

(** X24. [create_bracket_order] returns nothing when the entry order at
    the midpoint cannot be built; otherwise it returns exactly three
    orders: the entry, a limit order at the profit target and a stop
    order, the last two good till cancelled, on the side opposite to the
    entry, for the quantity of the entry.  For a buy at a positive entry
    price the stop is below and the target above the entry price (10
    percent below, 20 percent above); for a sell it is the reverse.  A
    signal whose action is an [OrderSide], with a positive quantity, for a
    contract with a positive bid and ask, does get its bracket. *)
Theorem create_bracket_order_spec :
  forall (now now_profit now_stop : datetime) (signal : TradeSignal.t)
         (contract : OptionContract.t),
    (create_order now signal contract S_LIMIT_MIDPOINT None = None ->
     create_bracket_order now now_profit now_stop signal contract = None) /\
    (forall orders,
       create_bracket_order now now_profit now_stop signal contract = Some orders ->
       exists entry profit stop entry_price profit_price stop_price side,
         orders = [EntryOrder entry; Child profit; Child stop] /\
         create_order now signal contract S_LIMIT_MIDPOINT None = Some entry /\
         TradeSignal.action signal = ActionSide side /\
         p_price entry = Some entry_price /\
         c_order_type profit = LIMIT /\ c_price profit = Present profit_price /\
         c_order_type stop = STOP /\ c_stop_price stop = Present stop_price /\
         c_time_in_force profit = "gtc" /\ c_time_in_force stop = "gtc" /\
         c_side profit = c_side stop /\
         c_side profit = match side with BUY => SELL | SELL => BUY end /\
         c_quantity profit = Some (p_quantity entry) /\
         c_quantity stop = Some (p_quantity entry) /\
         ((0 < entry_price)%Q ->
          match side with
          | BUY => (stop_price < entry_price /\ entry_price < profit_price)%Q
          | SELL => (profit_price < entry_price /\ entry_price < stop_price)%Q
          end)) /\
    (forall side q b a,
       TradeSignal.action signal = ActionSide side ->
       TradeSignal.quantity signal = Some q -> (0 < q)%Q ->
       OptionContract.bid contract = Some b ->
       OptionContract.ask contract = Some a ->
       (0 < b)%Q -> (0 < a)%Q ->
       is_Some (create_bracket_order now now_profit now_stop signal contract)).
Proof.
  intros now now_profit now_stop signal contract.
  split; [|split].
  - intros H. unfold create_bracket_order. now rewrite H.
  - intros orders. unfold create_bracket_order.
    destruct (create_order now signal contract S_LIMIT_MIDPOINT None)
      as [entry|] eqn:He; [|discriminate].
    destruct (create_order_some _ _ _ _ _ _ He)
      as ([side Hside] & _ & Hrq & _).
    unfold if_truthy.
    destruct (p_price entry) as [entry_price|] eqn:Hp; [|discriminate].
    destruct (truthy_oq (Some entry_price)); [|discriminate].
    intros H. injection H as <-.
    cbn [app].
    eexists entry, _, _, entry_price, _, _, side.
    split; [reflexivity|]. split; [reflexivity|]. split; [exact Hside|].
    split; [exact Hp|]. cbn.
    repeat (split; [reflexivity|]).
    rewrite Hside.
    split; [now destruct side|].
    assert (Hq : TradeSignal.quantity signal = Some (p_quantity entry)) by exact Hrq.
    split; [exact Hq|]. split; [exact Hq|].
    intros Hpos. destruct side; cbn; split; lra.
  - intros side q b a Hact Hq Hqp Hb Ha Hbp Hap.
    destruct (quoted_prices contract b a Hb Ha Hbp Hap) as (Hmid & _ & _).
    assert (Hm : (0 < (b + a) / 2)%Q) by now apply midpoint_positive.
    assert (Hres : resolve_quantity None signal = Some q) by exact Hq.
    destruct (create_order_returns now signal contract S_LIMIT_MIDPOINT None side q
                Hact Hres Hqp) as [params Hp].
    { right. cbn [_calculate_order_price]. rewrite Hmid. now eexists. }
    destruct (create_order_some _ _ _ _ _ _ Hp) as (_ & _ & _ & _ & _ & _ & Hpr & _).
    cbn [_calculate_order_price] in Hpr. rewrite Hmid in Hpr.
    unfold create_bracket_order. rewrite Hp, Hpr, (if_truthy_positive _ Hm).
    now eexists.
Qed.

(** X25. An order that [create_order] builds from a contract with a
    positive bid and ask passes [validate_order_parameters] exactly when
    its quantity is at most the account's maximum position size; the only
    error it can get is the one about that maximum. *)
Theorem created_order_passes_validation :
  forall (now : datetime) (signal : TradeSignal.t) (contract : OptionContract.t)
         (strategy : OrderStrategy) (quantity : option Q)
         (account_config : AccountConfig.t) (params : OrderParams) (b a : Q),
    OptionContract.bid contract = Some b ->
    OptionContract.ask contract = Some a ->
    (0 < b)%Q -> (0 < a)%Q ->
    create_order now signal contract strategy quantity = Some params ->
    let limit := AccountConfig.max_position_size account_config in
    (fst (validate_order_parameters account_config params) = true <->
     (p_quantity params <= inject_Z limit)%Q) /\
    (forall e, In e (snd (validate_order_parameters account_config params)) ->
               e = OrderQuantityExceedsMax limit).
Proof.
  intros now signal contract strategy quantity account_config params b a
    Hb Ha Hbp Hap Hcreate limit.
  destruct (create_order_some _ _ _ _ _ _ Hcreate)
    as (_ & Hqp & _ & _ & _ & Hty & Hpr & _ & Hst).
  assert (Hprice :
    (if OrderType_eqb (p_order_type params) LIMIT then
       match p_price params with
       | None => false
       | Some price => negb (Qleb price 0)
       end
     else true) = true).
  { rewrite Hty, Hpr.
    destruct (OrderType_eqb (_get_order_type strategy) LIMIT) eqn:E; [|reflexivity].
    assert (Hne : strategy <> S_MARKET) by (intros ->; discriminate E).
    destruct (quoted_order_price_positive contract b a strategy
                (TradeSignal.action signal) Hb Ha Hbp Hap Hne) as (p & -> & Hp).
    apply Qleb_gt in Hp. now rewrite Hp. }
  assert (Hstop :
    (if OrderType_eqb (p_order_type params) STOP then
       match p_stop_price params with
       | Present (Some stop_price) => negb (Qleb stop_price 0)
       | _ => false
       end
     else true) = true).
  { rewrite Hty, Hst.
    destruct strategy; try reflexivity. cbn [_get_order_type OrderType_eqb].
    rewrite (quoted_stop_price contract b a _ Hb Ha Hbp Hap).
    assert (Hm : (0 < (b + a) / 2)%Q) by now apply midpoint_positive.
    apply negb_true_iff, Qleb_gt.
    destruct (Action_is (TradeSignal.action signal) BUY); lra. }
  unfold validate_order_parameters. fold limit.
  assert (Qleb (p_quantity params) 0 = false) as -> by now apply Qleb_gt.
  destruct (OrderType_eqb (p_order_type params) LIMIT).
  - destruct (p_price params) as [price|]; [|discriminate Hprice].
    apply negb_true_iff in Hprice. rewrite Hprice.
    destruct (OrderType_eqb (p_order_type params) STOP).
    + destruct (p_stop_price params) as [|[stop_price|]]; try discriminate Hstop.
      apply negb_true_iff in Hstop. rewrite Hstop.
      destruct (Qltb (inject_Z limit) (p_quantity params)) eqn:E; cbn.
      * apply Qltb_lt in E. split; [split; [discriminate|intros H; lra]|].
        intros e [<-|[]]. reflexivity.
      * apply Qltb_ge in E. split; [tauto|]. intros e [].
    + destruct (Qltb (inject_Z limit) (p_quantity params)) eqn:E; cbn.
      * apply Qltb_lt in E. split; [split; [discriminate|intros H; lra]|].
        intros e [<-|[]]. reflexivity.
      * apply Qltb_ge in E. split; [tauto|]. intros e [].
  - destruct (OrderType_eqb (p_order_type params) STOP).
    + destruct (p_stop_price params) as [|[stop_price|]]; try discriminate Hstop.
      apply negb_true_iff in Hstop. rewrite Hstop.
      destruct (Qltb (inject_Z limit) (p_quantity params)) eqn:E; cbn.
      * apply Qltb_lt in E. split; [split; [discriminate|intros H; lra]|].
        intros e [<-|[]]. reflexivity.
      * apply Qltb_ge in E. split; [tauto|]. intros e [].
    + destruct (Qltb (inject_Z limit) (p_quantity params)) eqn:E; cbn.
      * apply Qltb_lt in E. split; [split; [discriminate|intros H; lra]|].
        intros e [<-|[]]. reflexivity.
      * apply Qltb_ge in E. split; [tauto|]. intros e [].
Qed.

Lemma created_order_passes_validation_witness :
  exists params,
    create_order sample_now (sample_trade_signal (ActionSide BUY) (Some 5%Q))
      sample_quoted_call S_STOP_LOSS None = Some params /\
    fst (validate_order_parameters sample_account params) = true.
Proof.
  destruct (create_order sample_now (sample_trade_signal (ActionSide BUY) (Some 5%Q))
              sample_quoted_call S_STOP_LOSS None) as [params|] eqn:E;
    [|discriminate E].
  exists params. split; [reflexivity|].
  apply (created_order_passes_validation sample_now
           (sample_trade_signal (ActionSide BUY) (Some 5%Q))
           sample_quoted_call S_STOP_LOSS None sample_account params
           (240 # 100) (260 # 100)); try reflexivity; try exact E.
  injection E as <-. vm_compute. discriminate.
Defined.

(** X26. A trade signal that [convert_to_trade_signal] makes carries its
    action as a plain [str]; for such a signal [create_order] returns
    nothing, and so does [create_bracket_order], whatever the contract,
    the strategy and the quantity. *)
Theorem converted_signal_gets_no_order :
  forall (generated_id : string) (signal : WebhookSignal.t)
         (account_config : AccountConfig.t) (signal_id : option string)
         (trade_signal : TradeSignal.t),
    SignalConversion.convert_to_trade_signal generated_id signal account_config
      signal_id = Returned trade_signal ->
    forall now now_profit now_stop contract,
      (forall strategy quantity,
         create_order now trade_signal contract strategy quantity = None) /\
      create_bracket_order now now_profit now_stop trade_signal contract = None.
Proof.
  intros generated_id signal account_config signal_id trade_signal Hconv
    now now_profit now_stop contract.
  assert (Hact : exists s, TradeSignal.action trade_signal = ActionStr s).
  { unfold SignalConversion.convert_to_trade_signal in Hconv.
    destruct (WebhookSignal.action signal) as [act|]; [|discriminate].
    destruct (WebhookSignal.symbol signal) as [sym|]; [|discriminate].
    injection Hconv as <-. cbn. eauto. }
  destruct Hact as [s Hs].
  assert (Hnone : forall strategy quantity,
            create_order now trade_signal contract strategy quantity = None).
  { intros strategy quantity.
    destruct (create_order now trade_signal contract strategy quantity)
      as [params|] eqn:E; [|reflexivity].
    destruct (create_order_some _ _ _ _ _ _ E) as ([side Hside] & _).
    congruence. }
  split; [exact Hnone|].
  unfold create_bracket_order. now rewrite Hnone.
Qed.

End OrderPrices.

Section OrderExamples.
Import OrderStrategyService.

Lemma converted_signal_gets_no_order_witness :
  exists trade_signal,
    SignalConversion.convert_to_trade_signal "generated"
      (sample_signal (Some "buy") None) sample_account None =
      Returned trade_signal /\
    create_order sample_now trade_signal sample_quoted_call S_LIMIT_MIDPOINT None =
      None.
Proof.
  eexists. split; [reflexivity|].
  apply (converted_signal_gets_no_order "generated"
           (sample_signal (Some "buy") None) sample_account None _ eq_refl
           sample_now sample_now sample_now sample_quoted_call).
Defined.

End OrderExamples.

(** ** The alert-platform route *)

Section PositionChanges.
Import WebhookRoutes.

(** X27. The three position-change predicates of a payload exclude one
    another, and none of them holds exactly when the market position did
    not change. *)
Theorem position_change_predicates_exclusive :
  forall (payload : WebhookSignalPayload),
    let opening := is_opening_position payload in
    let closing := is_closing_position payload in
    let reversing := is_reversing_position payload in
    (opening = true -> closing = false /\ reversing = false) /\
    (closing = true -> opening = false /\ reversing = false) /\
    (reversing = true -> opening = false /\ closing = false) /\
    (opening || closing || reversing = false <->
     prev_market_position payload = market_position payload).
Proof.
  intros payload.
  unfold is_opening_position, is_closing_position, is_reversing_position.
  destruct (prev_market_position payload), (market_position payload); cbn;
    intuition (try discriminate; try reflexivity).
Qed.

End PositionChanges.

Section RouteFacts.
Import SignalProcessor WebhookRoutes.

Context {World Details : Type}.
Context (has_client has_account_config : string -> World -> bool).
Context (exec_trade exec_close exec_close_all :
           TradeSignal.t -> World -> outcome Details * World).
Context (auth_service : World -> AuthService.t).

Local Abbreviation body :=
  (process_single_body World Details has_client has_account_config
     exec_trade exec_close exec_close_all).
Local Abbreviation process :=
  (process_queued_signals World Details has_client has_account_config
     exec_trade exec_close exec_close_all).
Local Abbreviation route :=
  (receive_deribit_style_signal World Details has_client has_account_config
     exec_trade exec_close exec_close_all auth_service).

(** No result of the loop has the status that the route takes for a
    success. *)
Lemma results_never_executed (self : SignalProcessor.t World) r :
  In r (results (fst (process self))) -> r_status r <> "executed".
Proof.
  intros Hin.
  destruct (drain_spec has_client has_account_config exec_trade exec_close
              exec_close_all (_processing_queue self) self 0%nat 0%nat [])
    as (new & Hr & Hf2 & _).
  change (drain World Details has_client has_account_config exec_trade
            exec_close exec_close_all (_processing_queue self) self 0%nat 0%nat [])
    with (process self) in Hr.
  rewrite Hr in Hin. simpl in Hin.
  destruct (Forall2_In_r _ _ _ Hf2 r Hin) as (ts & _ & w & ->).
  destruct (fst (body ts w)); simpl; discriminate.
Qed.

Lemma process_empties_queue (self : SignalProcessor.t World) :
  _processing_queue (snd (process self)) = [].
Proof.
  destruct (drain_spec has_client has_account_config exec_trade exec_close
              exec_close_all (_processing_queue self) self 0%nat 0%nat [])
    as (new & _ & _ & _ & _ & _ & Hq).
  exact Hq.
Qed.

Lemma trading_response_fails
    (signal_result : option (SignalResult Details)) :
  (forall r, signal_result = Some r -> r_status r <> "executed") ->
  success (trading_response Details signal_result) = false /\
  (error (trading_response Details signal_result) = Some TradingFailed \/
   error (trading_response Details signal_result) = Some ProcessingError).
Proof.
  intros H. unfold trading_response.
  destruct signal_result as [r|]; [|auto].
  destruct (String.eqb (r_status r) "executed") eqn:E.
  - apply String.eqb_eq in E. now destruct (H r eq_refl).
  - destruct (r_error r); auto.
Qed.

(** X28. The route [POST /webhook/signal] never answers with
    [success=True]: a signal that is queued is executed at once, and the
    result of an execution has the status "processed" or "failed", never
    the status "executed" that the route takes for a success.  For an
    account that is unknown, disabled or without its key file the answer
    is "Invalid account" and the processor is left as it was; and an
    answer "Trading failed" or "Processing error" means that the queue has
    been drained. *)
Theorem receive_deribit_style_signal_never_succeeds :
  forall (now_hour : Z) (generated_id : string)
         (processor : SignalProcessor.t World)
         (payload : WebhookSignalPayload) (request_id : string),
    let out := route now_hour generated_id processor payload request_id in
    success (fst out) = false /\
    (AuthService.is_account_valid (auth_service (world processor))
       (account_name payload) = false ->
     out = ({| success := false; error := Some InvalidAccount |}, processor)) /\
    (error (fst out) = Some TradingFailed \/
     error (fst out) = Some ProcessingError ->
     _processing_queue (snd out) = []).
Proof.
  intros now_hour generated_id processor payload request_id out.
  unfold out, receive_deribit_style_signal.
  destruct (AuthService.is_account_valid _ _) eqn:Hvalid; cbn [negb].
  2: { cbn. split; [reflexivity|]. split; [reflexivity|].
       intros [H|H]; discriminate H. }
  destruct (convert_deribit_payload_to_signal payload request_id)
    as [internal_signal|e].
  2: { cbn. split; [reflexivity|]. split; [discriminate|].
       intros [H|H]; discriminate H. }
  destruct (validate_and_process_signal World auth_service now_hour generated_id
              processor internal_signal
              (account_name payload) (Some request_id))
    as [[result|e] processor'].
  2: { cbn. split; [reflexivity|]. split; [discriminate|].
       intros [H|H]; discriminate H. }
  destruct result as [signal_id validation_result
                     |signal_id trade_signal validation_result];
    cbn [outcome_status String.eqb Ascii.eqb Bool.eqb outcome_signal_id
         outcome_validation_result].
  - cbn. split; [reflexivity|]. split; [discriminate|].
    intros [H|H]; discriminate H.
  - pose proof (results_never_executed processor') as Hres.
    pose proof (process_empties_queue processor') as Hq.
    destruct (process processor') as [process_result processor''].
    cbn [fst snd] in *.
    destruct (trading_response_fails
                (List.find (fun res => String.eqb (r_signal_id res) signal_id)
                           (results process_result))) as [Hs He].
    { intros r Hr. apply List.find_some in Hr as [Hin _]. now apply Hres. }
    split; [exact Hs|]. split; [discriminate|]. intros _. exact Hq.
Qed.

End RouteFacts.
